(** * Verification of the RKE2 infrastructure pre-flight scripts

    The repository holds two command-line utilities:

    - [scripts/check_inventory.py], the inventory validator (structure,
      placeholder detection, IP/CIDR formats);
    - [scripts/check_ssh_config.py], the SSH trust checker.

    Both are embedded shallowly.  A parsed inventory is a value of the
    dynamically typed language the scripts are written in, so the embedding
    starts with a small model of those values and of the operations the
    scripts apply to them, including the exceptions they raise on values
    of the wrong type.  Text is a [string] whose characters are the code
    points below 256; on that range the decimal digits of the regular
    expression class [\d] are exactly ['0'..'9'].  Mapping keys are
    strings, and a mapping keeps its insertion order (an association
    list, looked up at its first matching key).

    What a run meets outside the program (the file system, the parsed
    inventory file, the outcome of each subprocess) is a parameter of the
    entry points, a record [world]; a run is the list of the lines it
    writes and of the subprocess calls it makes, with the exception that
    ends it, from which the exit status follows. *)

From Stdlib Require Import List String Ascii ZArith Lia Bool Arith.
From Stdlib Require Import Numbers.DecimalString Numbers.HexadecimalString.
From Stdlib Require Import Numbers.DecimalNat.
Import ListNotations.

Local Open Scope string_scope.
Local Open Scope list_scope.

(** ** Values, exceptions and the operations of the host language *)

Module Py.

(** Exception classes met in the two scripts.  [AddressValueError] and
    [NetmaskValueError] are subclasses of [ValueError]; [SystemExit] is
    not a subclass of [Exception]. *)
Inductive exn : Type :=
| TypeError
| KeyError
| AttributeError
| ValueError
| AddressValueError
| NetmaskValueError
| SystemExit (code : Z).

Inductive res (A : Type) : Type :=
| Ok (a : A)
| Raise (e : exn).
Arguments Ok {A} a.
Arguments Raise {A} e.

Definition bind {A B : Type} (m : res A) (k : A -> res B) : res B :=
  match m with
  | Ok a => k a
  | Raise e => Raise e
  end.

Declare Scope py_scope.
Delimit Scope py_scope with py.
Notation "x <- m ;; k" := (bind m (fun x => k))
  (at level 61, m at next level, right associativity) : py_scope.
Notation "' pat <- m ;; k" := (bind m (fun x => match x with pat => k end))
  (at level 61, pat pattern, m at next level, right associativity) : py_scope.

(** [for x in xs: st = body(st, x)], stopping at the first exception. *)
Fixpoint for_each {A S : Type} (xs : list A) (body : S -> A -> res S) (st : S)
  : res S :=
  match xs with
  | [] => Ok st
  | x :: xs' => bind (body st x) (for_each xs' body)
  end.

(** A script also writes lines and starts subprocesses.  A run is the
    list of those events, in order, together with its result; an
    exception ends the run and keeps the events emitted before it. *)
Definition io (E A : Type) : Type := (list E * res A)%type.

Definition io_bind {E A B : Type} (m : io E A) (k : A -> io E B) : io E B :=
  match m with
  | (o, Ok a) => let (o', r) := k a in (o ++ o', r)
  | (o, Raise e) => (o, Raise e)
  end.

Definition io_ret {E A : Type} (a : A) : io E A := ([], Ok a).
Definition emit {E : Type} (e : E) : io E unit := ([e], Ok tt).
Definition emit_all {E : Type} (es : list E) : io E unit := (es, Ok tt).
Definition lift {E A : Type} (r : res A) : io E A := ([], r).
Definition sys_exit {E A : Type} (code : Z) : io E A :=
  ([], Raise (SystemExit code)).

Declare Scope io_scope.
Delimit Scope io_scope with io.
Notation "x <- m ;; k" := (io_bind m (fun x => k))
  (at level 61, m at next level, right associativity) : io_scope.
Notation "' pat <- m ;; k" :=
  (io_bind m (fun x => match x with pat => k end))
  (at level 61, pat pattern, m at next level, right associativity) : io_scope.
Notation "m ;; k" := (io_bind m (fun _ => k))
  (at level 61, right associativity) : io_scope.

Fixpoint io_for_each {E A S : Type} (xs : list A) (body : S -> A -> io E S)
    (st : S) : io E S :=
  match xs with
  | [] => io_ret st
  | x :: xs' => io_bind (body st x) (io_for_each xs' body)
  end.

(** What [yaml.safe_load] can build, as far as the scripts look at it. *)
#[local] Set Warnings "-register-all".
Inductive value : Type :=
| VNone
| VBool (b : bool)
| VInt (z : Z)
| VStr (s : string)
| VList (items : list value)
| VDict (items : list (string * value)).

Definition isinstance_str (v : value) : bool :=
  match v with VStr _ => true | _ => false end.

(** Truth value of an object: [None], [False], [0], [""], [[]] and [{}]
    are false. *)
Definition truthy (v : value) : bool :=
  match v with
  | VNone => false
  | VBool b => b
  | VInt z => negb (Z.eqb z 0)
  | VStr s => negb (String.eqb s "")
  | VList l => match l with [] => false | _ => true end
  | VDict l => match l with [] => false | _ => true end
  end.

(** Substring test, [needle in hay] on two strings. *)
Fixpoint substring_of (needle hay : string) : bool :=
  String.prefix needle hay ||
  match hay with
  | EmptyString => false
  | String _ hay' => substring_of needle hay'
  end.

Fixpoint assoc (k : string) (items : list (string * value)) : option value :=
  match items with
  | [] => None
  | (k', v) :: items' => if String.eqb k k' then Some v else assoc k items'
  end.

Definition has_key (k : string) (items : list (string * value)) : bool :=
  match assoc k items with Some _ => true | None => false end.

Definition is_str (k : string) (v : value) : bool :=
  match v with VStr s => String.eqb k s | _ => false end.

(** [k in v] for a string [k]: key membership on a mapping, element
    membership on a sequence, substring test on a string, [TypeError]
    on anything else. *)
Definition contains (k : string) (v : value) : res bool :=
  match v with
  | VDict items => Ok (has_key k items)
  | VList items => Ok (existsb (is_str k) items)
  | VStr s => Ok (substring_of k s)
  | VNone | VBool _ | VInt _ => Raise TypeError
  end.

(** [v[k]] for a string [k]. *)
Definition getitem (v : value) (k : string) : res value :=
  match v with
  | VDict items =>
      match assoc k items with
      | Some x => Ok x
      | None => Raise KeyError
      end
  | _ => Raise TypeError
  end.

(** [v.get(k, default)]: only a mapping has the method. *)
Definition get (v : value) (k : string) (default : value) : res value :=
  match v with
  | VDict items =>
      match assoc k items with
      | Some x => Ok x
      | None => Ok default
      end
  | _ => Raise AttributeError
  end.

(** [v.items()]. *)
Definition items (v : value) : res (list (string * value)) :=
  match v with
  | VDict kvs => Ok kvs
  | _ => Raise AttributeError
  end.

(** [str(n)] for a non-negative integer. *)
Definition str_of_nat (n : nat) : string :=
  DecimalString.NilEmpty.string_of_uint (Nat.to_uint n).

(** Exit status of the interpreter: the code of [SystemExit], 1 with a
    traceback for any other uncaught exception, 0 when the script runs
    to its end. *)
Definition exit_status {A : Type} (r : res A) : Z :=
  match r with
  | Ok _ => 0%Z
  | Raise (SystemExit c) => c
  | Raise _ => 1%Z
  end.

End Py.

Import Py.
Local Open Scope py_scope.

(** ** Regular expressions of the placeholder table

    The patterns of [PLACEHOLDER_PATTERNS] use literal characters, the
    class [\d] and the postfix [+] only.  [compile] reads that fragment and
    [search] decides whether some substring of the text matches, which is
    what [re.search] reports as a match object or [None]. *)

Module Re.

Inductive cls : Type :=
| Lit (c : ascii)
| Digit.

(** An atom is a class, possibly repeated one or more times. *)
Definition atom : Type := (cls * bool)%type.

Definition is_digit (c : ascii) : bool :=
  let n := nat_of_ascii c in (48 <=? n)%nat && (n <=? 57)%nat.

Definition accepts (k : cls) (c : ascii) : bool :=
  match k with
  | Lit c' => Ascii.eqb c c'
  | Digit => is_digit c
  end.

Definition plus_suffix (s : string) : bool * string :=
  match s with
  | String "+" s' => (true, s')
  | _ => (false, s)
  end.

(** The pattern text is read left to right; [fuel] bounds the number of
    atoms and is taken as the length of the text. *)
Fixpoint compile_aux (fuel : nat) (s : string) : list atom :=
  match fuel with
  | O => []
  | S fuel' =>
      match s with
      | EmptyString => []
      | String "\" (String "d" s') =>
          let (p, rest) := plus_suffix s' in (Digit, p) :: compile_aux fuel' rest
      | String c s' =>
          let (p, rest) := plus_suffix s' in (Lit c, p) :: compile_aux fuel' rest
      end
  end.

Definition compile (pattern : string) : list atom :=
  compile_aux (String.length pattern) pattern.

(** Does a prefix of [s] match [re]? *)
Fixpoint match_here (re : list atom) (s : string) {struct s} : bool :=
  match re with
  | [] => true
  | (k, plus) :: re' =>
      match s with
      | EmptyString => false
      | String c s' =>
          if accepts k c then
            if match_here re' s' then true
            else if plus then match_here re s' else false
          else false
      end
  end.

Fixpoint search_compiled (re : list atom) (s : string) : bool :=
  match_here re s ||
  match s with
  | EmptyString => false
  | String _ s' => search_compiled re s'
  end.

Definition search (pattern text : string) : bool :=
  search_compiled (compile pattern) text.

End Re.

(** ** The [ipaddress] module of the standard library

    [validate_ip_address] and [validate_ip_network] only wrap
    [ipaddress.ip_address] and [ipaddress.ip_network]; what they answer is
    decided by the parsers of that module, which are transcribed here for
    string arguments (the only ones the validator passes), from the
    module as distributed with CPython 3.11.  The netmask cache of the
    library is left out: it maps an accepted mask argument to the result
    computed for it and changes no answer. *)

Module Ipaddress.

Definition IPV4LENGTH : Z := 32.
Definition IPV6LENGTH : Z := 128.

(** [s.split(sep)] for a one-character separator. *)
Fixpoint split (sep : ascii) (s : string) : list string :=
  match s with
  | EmptyString => [EmptyString]
  | String c s' =>
      if Ascii.eqb c sep then EmptyString :: split sep s'
      else match split sep s' with
           | [] => [String c EmptyString]
           | p :: ps => String c p :: ps
           end
  end.

(** [s.partition(sep)]: the text before the first separator, whether a
    separator was found, and the text after it. *)
Fixpoint partition (sep : ascii) (s : string) : string * bool * string :=
  match s with
  | EmptyString => (EmptyString, false, EmptyString)
  | String c s' =>
      if Ascii.eqb c sep then (EmptyString, true, s')
      else let '(a, found, b) := partition sep s' in (String c a, found, b)
  end.

Fixpoint has_char (c : ascii) (s : string) : bool :=
  match s with
  | EmptyString => false
  | String c' s' => Ascii.eqb c c' || has_char c s'
  end.

Fixpoint all_chars (p : ascii -> bool) (s : string) : bool :=
  match s with
  | EmptyString => true
  | String c s' => p c && all_chars p s'
  end.

(** [s.isascii() and s.isdigit()]: [isdigit] is false on the empty
    string. *)
Definition isascii_isdigit (s : string) : bool :=
  negb (String.eqb s "") && all_chars Re.is_digit s.

Definition digit_value (c : ascii) : Z := Z.of_nat (nat_of_ascii c) - 48.

Fixpoint int10_aux (acc : Z) (s : string) : Z :=
  match s with
  | EmptyString => acc
  | String c s' => int10_aux (10 * acc + digit_value c) s'
  end.

(** Default of [sys.int_max_str_digits]. *)
Definition int_max_str_digits : nat := 4300.

(** [int(s)] on a string already known to hold decimal digits only. *)
Definition int10 (s : string) : res Z :=
  if (int_max_str_digits <? String.length s)%nat then Raise ValueError
  else Ok (int10_aux 0 s).

Definition is_hex_digit (c : ascii) : bool :=
  let n := nat_of_ascii c in
  ((48 <=? n) && (n <=? 57) || (65 <=? n) && (n <=? 70)
   || (97 <=? n) && (n <=? 102))%nat.

Definition hex_value (c : ascii) : Z :=
  let n := Z.of_nat (nat_of_ascii c) in
  if (n <=? 57)%Z then n - 48 else if (n <=? 70)%Z then n - 55 else n - 87.

Fixpoint int16_aux (acc : Z) (s : string) : Z :=
  match s with
  | EmptyString => acc
  | String c s' => int16_aux (16 * acc + hex_value c) s'
  end.

(** [int(s, 16)] on a string of hexadecimal digits; the empty string is
    not a number. *)
Definition int16 (s : string) : res Z :=
  if String.eqb s "" then Raise ValueError else Ok (int16_aux 0 s).

(** ['%x' % n]. *)
Definition hex_of (n : Z) : string :=
  HexadecimalString.NilEmpty.string_of_uint (N.to_hex_uint (Z.to_N n)).

(** [isinstance(e, ValueError)]. *)
Definition is_ValueError (e : exn) : bool :=
  match e with
  | ValueError | AddressValueError | NetmaskValueError => true
  | _ => false
  end.

(** [try: m  except ValueError: raise e'] *)
Definition reraise_ValueError {A : Type} (m : res A) (e' : exn) : res A :=
  match m with
  | Ok a => Ok a
  | Raise e => if is_ValueError e then Raise e' else Raise e
  end.

Fixpoint map_res {A B : Type} (f : A -> res B) (l : list A) : res (list B) :=
  match l with
  | [] => Ok []
  | a :: l' => b <- f a ;; bs <- map_res f l' ;; Ok (b :: bs)
  end.

(** [int.from_bytes(bs, 'big')]. *)
Definition from_bytes (bs : list Z) : Z :=
  fold_left (fun acc b => Z.lor (Z.shiftl acc 8) b) bs 0%Z.

Definition bit_length (n : Z) : Z :=
  if (n =? 0)%Z then 0%Z else (Z.log2 n + 1)%Z.

Definition count_righthand_zero_bits (number bits : Z) : Z :=
  if (number =? 0)%Z then bits
  else Z.min bits (bit_length (Z.land (Z.lnot number) (number - 1))).

(** Methods shared by the two address families, for a family of
    [max_prefixlen] bits. *)
Section Base.

Variable max_prefixlen : Z.

Definition ALL_ONES : Z := (2 ^ max_prefixlen - 1)%Z.

Definition ip_int_from_prefix (prefixlen : Z) : Z :=
  Z.lxor ALL_ONES (Z.shiftr ALL_ONES prefixlen).

Definition prefix_from_ip_int (ip_int : Z) : res Z :=
  let trailing_zeroes := count_righthand_zero_bits ip_int max_prefixlen in
  let prefixlen := (max_prefixlen - trailing_zeroes)%Z in
  let leading_ones := Z.shiftr ip_int trailing_zeroes in
  let all_ones := (Z.shiftl 1 prefixlen - 1)%Z in
  if negb (leading_ones =? all_ones)%Z then Raise ValueError
  else Ok prefixlen.

Definition prefix_from_prefix_string (prefixlen_str : string) : res Z :=
  if negb (isascii_isdigit prefixlen_str) then Raise NetmaskValueError
  else
    prefixlen <- reraise_ValueError (int10 prefixlen_str) NetmaskValueError ;;
    if negb ((0 <=? prefixlen)%Z && (prefixlen <=? max_prefixlen)%Z)
    then Raise NetmaskValueError
    else Ok prefixlen.

Definition prefix_from_ip_string
    (ip_int_from_string : string -> res Z) (ip_str : string) : res Z :=
  match ip_int_from_string ip_str with
  | Raise AddressValueError => Raise NetmaskValueError
  | Raise e => Raise e
  | Ok ip_int =>
      match prefix_from_ip_int ip_int with
      | Ok p => Ok p
      | Raise e =>
          if negb (is_ValueError e) then Raise e
          else
            let ip_int := Z.lxor ip_int ALL_ONES in
            reraise_ValueError (prefix_from_ip_int ip_int) NetmaskValueError
      end
  end.

(** [_split_optional_netmask] followed by [_split_addr_prefix]: the
    address text and the mask text, if one was written. *)
Definition split_addr_prefix (address : string)
  : res (string * option string) :=
  match split "/" address with
  | [a] => Ok (a, None)
  | [a; m] => Ok (a, Some m)
  | _ => Raise AddressValueError
  end.

End Base.

(** *** [_BaseV4], [IPv4Address], [IPv4Network] *)

Definition parse_octet (octet_str : string) : res Z :=
  if String.eqb octet_str "" then Raise ValueError
  else if negb (isascii_isdigit octet_str) then Raise ValueError
  else if (3 <? String.length octet_str)%nat then Raise ValueError
  else if negb (String.eqb octet_str "0") && String.prefix "0" octet_str
  then Raise ValueError
  else
    octet_int <- int10 octet_str ;;
    if (255 <? octet_int)%Z then Raise ValueError else Ok octet_int.

Definition v4_ip_int_from_string (ip_str : string) : res Z :=
  if String.eqb ip_str "" then Raise AddressValueError
  else
    let octets := split "." ip_str in
    if negb (List.length octets =? 4)%nat then Raise AddressValueError
    else
      reraise_ValueError
        (bs <- map_res parse_octet octets ;; Ok (from_bytes bs))
        AddressValueError.

(** [IPv4Address(address)._ip] *)
Definition IPv4Address (address : string) : res Z :=
  if has_char "/" address then Raise AddressValueError
  else v4_ip_int_from_string address.

(** [_BaseV4._make_netmask]: [None] stands for the integer default
    [_max_prefixlen] passed when no mask is written. *)
Definition v4_make_netmask (arg : option string) : res (Z * Z) :=
  prefixlen <-
    match arg with
    | None =>
        let prefixlen := IPV4LENGTH in
        if negb ((0 <=? prefixlen)%Z && (prefixlen <=? IPV4LENGTH)%Z)
        then Raise NetmaskValueError else Ok prefixlen
    | Some arg =>
        match prefix_from_prefix_string IPV4LENGTH arg with
        | Raise NetmaskValueError =>
            prefix_from_ip_string IPV4LENGTH v4_ip_int_from_string arg
        | r => r
        end
    end ;;
  Ok (ip_int_from_prefix IPV4LENGTH prefixlen, prefixlen).

(** [IPv4Network(address, strict)]: the network address and the prefix
    length of the object built. *)
Definition IPv4Network (address : string) (strict : bool) : res (Z * Z) :=
  ' (addr, mask) <- split_addr_prefix address ;;
  packed <- IPv4Address addr ;;
  ' (netmask, prefixlen) <- v4_make_netmask mask ;;
  if negb (Z.land packed netmask =? packed)%Z then
    if strict then Raise ValueError
    else Ok (Z.land packed netmask, prefixlen)
  else Ok (packed, prefixlen).

(** *** [_BaseV6], [IPv6Address], [IPv6Network] *)

Definition HEXTET_COUNT : nat := 8.

Definition parse_hextet (hextet_str : string) : res Z :=
  if negb (all_chars is_hex_digit hextet_str) then Raise ValueError
  else if (4 <? String.length hextet_str)%nat then Raise ValueError
  else int16 hextet_str.

(** The loop looking for the ['::'] among the inner parts: [i] is the
    index of the head of [inner]. *)
Fixpoint find_skip (inner : list string) (i : nat) (skip_index : option nat)
  : res (option nat) :=
  match inner with
  | [] => Ok skip_index
  | p :: inner' =>
      if String.eqb p "" then
        match skip_index with
        | Some _ => Raise AddressValueError
        | None => find_skip inner' (S i) (Some i)
        end
      else find_skip inner' (S i) skip_index
  end.

(** [for p in ps: ip_int <<= 16; ip_int |= _parse_hextet(p)] *)
Definition shift_in_hextets (ps : list string) (ip_int : Z) : res Z :=
  for_each ps
    (fun ip_int p => h <- parse_hextet p ;; Ok (Z.lor (Z.shiftl ip_int 16) h))
    ip_int.

Definition v6_ip_int_from_string (ip_str : string) : res Z :=
  if String.eqb ip_str "" then Raise AddressValueError
  else
    let parts := split ":" ip_str in
    if (List.length parts <? 3)%nat then Raise AddressValueError
    else
      parts <-
        (if has_char "." (List.last parts "") then
           match IPv4Address (List.last parts "") with
           | Raise AddressValueError => Raise AddressValueError
           | Raise e => Raise e
           | Ok ipv4_int =>
               Ok (List.removelast parts
                     ++ [hex_of (Z.land (Z.shiftr ipv4_int 16) 65535)]
                     ++ [hex_of (Z.land ipv4_int 65535)])
           end
         else Ok parts) ;;
      if (HEXTET_COUNT + 1 <? List.length parts)%nat
      then Raise AddressValueError
      else
        let n := List.length parts in
        skip_index <-
          find_skip (List.firstn (n - 2) (List.skipn 1 parts)) 1 None ;;
        ' (parts_hi, parts_lo, parts_skipped) <-
          match skip_index with
          | Some skip_index =>
              let parts_hi := skip_index in
              let parts_lo := (n - skip_index - 1)%nat in
              parts_hi <-
                (if String.eqb (List.hd "" parts) "" then
                   let parts_hi := (parts_hi - 1)%nat in
                   if negb (parts_hi =? 0)%nat then Raise AddressValueError
                   else Ok parts_hi
                 else Ok parts_hi) ;;
              parts_lo <-
                (if String.eqb (List.last parts "") "" then
                   let parts_lo := (parts_lo - 1)%nat in
                   if negb (parts_lo =? 0)%nat then Raise AddressValueError
                   else Ok parts_lo
                 else Ok parts_lo) ;;
              if (HEXTET_COUNT <? parts_hi + parts_lo + 1)%nat
              then Raise AddressValueError
              else Ok (parts_hi, parts_lo,
                       (HEXTET_COUNT - (parts_hi + parts_lo))%nat)
          | None =>
              if negb (n =? HEXTET_COUNT)%nat then Raise AddressValueError
              else if String.eqb (List.hd "" parts) ""
              then Raise AddressValueError
              else if String.eqb (List.last parts "") ""
              then Raise AddressValueError
              else Ok (n, 0%nat, 0%nat)
          end ;;
        reraise_ValueError
          (ip_int <- shift_in_hextets (List.firstn parts_hi parts) 0%Z ;;
           let ip_int := Z.shiftl ip_int (16 * Z.of_nat parts_skipped) in
           shift_in_hextets (List.skipn (n - parts_lo) parts) ip_int)
          AddressValueError.

Definition split_scope_id (ip_str : string) : res (string * option string) :=
  let '(addr, sep, scope_id) := partition "%" ip_str in
  if negb sep then Ok (addr, None)
  else if String.eqb scope_id "" || has_char "%" scope_id
  then Raise AddressValueError
  else Ok (addr, Some scope_id).

(** [IPv6Address(address)]: the integer and the scope identifier. *)
Definition IPv6Address (address : string) : res (Z * option string) :=
  if has_char "/" address then Raise AddressValueError
  else
    ' (addr_str, scope_id) <- split_scope_id address ;;
    ip <- v6_ip_int_from_string addr_str ;;
    Ok (ip, scope_id).

Definition v6_make_netmask (arg : option string) : res (Z * Z) :=
  prefixlen <-
    match arg with
    | None =>
        let prefixlen := IPV6LENGTH in
        if negb ((0 <=? prefixlen)%Z && (prefixlen <=? IPV6LENGTH)%Z)
        then Raise NetmaskValueError else Ok prefixlen
    | Some arg => prefix_from_prefix_string IPV6LENGTH arg
    end ;;
  Ok (ip_int_from_prefix IPV6LENGTH prefixlen, prefixlen).

Definition IPv6Network (address : string) (strict : bool) : res (Z * Z) :=
  ' (addr, mask) <- split_addr_prefix address ;;
  ' (packed, _) <- IPv6Address addr ;;
  ' (netmask, prefixlen) <- v6_make_netmask mask ;;
  if negb (Z.land packed netmask =? packed)%Z then
    if strict then Raise ValueError
    else Ok (Z.land packed netmask, prefixlen)
  else Ok (packed, prefixlen).

(** *** The two factory functions *)

Inductive address_object : Type :=
| V4Address (ip : Z)
| V6Address (ip : Z) (scope_id : option string).

Inductive network_object : Type :=
| V4Network (network_address prefixlen : Z)
| V6Network (network_address prefixlen : Z).

Definition ip_address (address : string) : res address_object :=
  match IPv4Address address with
  | Ok ip => Ok (V4Address ip)
  | Raise AddressValueError | Raise NetmaskValueError =>
      match IPv6Address address with
      | Ok (ip, scope) => Ok (V6Address ip scope)
      | Raise AddressValueError | Raise NetmaskValueError => Raise ValueError
      | Raise e => Raise e
      end
  | Raise e => Raise e
  end.

Definition ip_network (address : string) (strict : bool)
  : res network_object :=
  match IPv4Network address strict with
  | Ok (a, p) => Ok (V4Network a p)
  | Raise AddressValueError | Raise NetmaskValueError =>
      match IPv6Network address strict with
      | Ok (a, p) => Ok (V6Network a p)
      | Raise AddressValueError | Raise NetmaskValueError => Raise ValueError
      | Raise e => Raise e
      end
  | Raise e => Raise e
  end.

End Ipaddress.

Import Ipaddress.

(** ** [scripts/check_inventory.py] *)

Module CheckInventory.

Definition PLACEHOLDER_PATTERNS : list string :=
  [ "<BASTION_IP>";
    "<MASTER\d+_IP>";
    "<WORKER\d+_IP>";
    "<BASTION_HOSTNAME>";
    "<MASTER\d+_HOSTNAME>";
    "<WORKER\d+_HOSTNAME>";
    "<SSH_USER>";
    "<SSH_KEY_NAME>";
    "<WORKER\d+_MGMT_IP>";
    "<WORKER\d+_DATA_IP>" ].

Definition REQUIRED_GROUPS : list string := ["bastion"; "masters"; "workers"].

Definition REQUIRED_HOST_FIELDS : list (string * list string) :=
  [ ("bastion", ["ansible_host"; "ansible_hostname"; "ansible_user";
                 "ansible_ssh_private_key_file"; "internal_ip"]);
    ("master", ["ansible_host"; "ansible_hostname"; "ansible_user";
                "ansible_ssh_private_key_file"]);
    ("worker", ["ansible_host"; "ansible_hostname"; "ansible_user";
                "ansible_ssh_private_key_file"; "mgmt_ip"; "prod_data_ip"]) ].

Definition REQUIRED_VARS : list string :=
  [ "ansible_python_interpreter";
    "control_vlan_network";
    "control_vlan_gateway";
    "data_vlan_network";
    "data_vlan_gateway";
    "lb_vip_control";
    "lb_vip_data" ].

(** *** Placeholder scanner *)

Definition check_placeholder (value : Py.value) : list string :=
  match value with
  | VStr s => filter (fun pattern => Re.search pattern s) PLACEHOLDER_PATTERNS
  | _ => []
  end.

(** One record of the list returned by [find_placeholders]; [value] is
    the string that matched. *)
Record finding : Type := Finding {
  path : string;
  value : Py.value;
  placeholders : list string
}.

Definition is_empty {A : Type} (l : list A) : bool :=
  match l with [] => true | _ => false end.

Definition dict_path (path key : string) : string :=
  if String.eqb path "" then key else path ++ "." ++ key.

Definition list_path (path : string) (i : nat) : string :=
  if String.eqb path "" then "[" ++ str_of_nat i ++ "]"
  else path ++ "[" ++ str_of_nat i ++ "]".

(** [found] is the accumulator shared by all recursive calls; it is
    threaded through the traversal and returned. *)
Fixpoint find_placeholders (data : Py.value) (path : string)
    (found : list finding) {struct data} : list finding :=
  match data with
  | VDict kvs =>
      (fix over_items (kvs : list (string * Py.value)) (found : list finding)
         : list finding :=
         match kvs with
         | [] => found
         | (key, value) :: kvs' =>
             let current_path := dict_path path key in
             let placeholders := check_placeholder value in
             if negb (is_empty placeholders) then
               over_items kvs'
                 (found ++ [Finding current_path value placeholders])
             else
               over_items kvs' (find_placeholders value current_path found)
         end) kvs found
  | VList l =>
      (fix over_list (l : list Py.value) (i : nat) (found : list finding)
         : list finding :=
         match l with
         | [] => found
         | item :: l' =>
             let current_path := list_path path i in
             over_list l' (S i) (find_placeholders item current_path found)
         end) l 0%nat found
  | _ => found
  end.

(** *** Address and network validators *)

Definition validate_ip_address (ip_str : string) : res bool :=
  match ip_address ip_str with
  | Ok _ => Ok true
  | Raise e => if is_ValueError e then Ok false else Raise e
  end.

Definition validate_ip_network (network_str : string) : res bool :=
  match ip_network network_str false with
  | Ok _ => Ok true
  | Raise e => if is_ValueError e then Ok false else Raise e
  end.

(** *** Structural validator *)

Definition host_type_of (group : string) : option string :=
  if String.eqb group "bastion" then Some "bastion"
  else if String.eqb group "masters" then Some "master"
  else if String.eqb group "workers" then Some "worker"
  else None.

Fixpoint fields_of (table : list (string * list string)) (host_type : string)
  : list string :=
  match table with
  | [] => []
  | (k, fields) :: table' =>
      if String.eqb host_type k then fields else fields_of table' host_type
  end.

Definition missing_field_error (host_name group field : string) : string :=
  "Host '" ++ host_name ++ "' (" ++ group ++ ") missing required field: "
    ++ field.

(** Body of [for host_name, host_vars in hosts.items()]. *)
Definition check_host (group : string) (errors : list string)
    (host : string * Py.value) : res (list string) :=
  let (host_name, host_vars) := host in
  match host_type_of group with
  | None => Ok errors
  | Some host_type =>
      let required_fields := fields_of REQUIRED_HOST_FIELDS host_type in
      for_each required_fields
        (fun errors field =>
           present <- contains field host_vars ;;
           if negb present
           then Ok (errors ++ [missing_field_error host_name group field])
           else Ok errors)
        errors
  end.

(** Body of [for group in REQUIRED_GROUPS]; each [continue] of the source
    is a return of the accumulators. *)
Definition check_group (children : Py.value)
    (acc : list string * list string) (group : string)
  : res (list string * list string) :=
  let (errors, warnings) := acc in
  present <- contains group children ;;
  if negb present then
    Ok (errors ++ [("Missing required group: " ++ group)%string], warnings)
  else
    group_section <- getitem children group ;;
    has_hosts <- contains "hosts" group_section ;;
    if negb has_hosts then
      Ok (errors ++ [("Missing 'hosts' section in group '" ++ group ++ "'")%string],
          warnings)
    else
      hosts <- getitem group_section "hosts" ;;
      if negb (truthy hosts) then
        Ok (errors,
            warnings ++ [("Group '" ++ group ++ "' has no hosts defined")%string])
      else
        host_items <- Py.items hosts ;;
        errors <- for_each host_items (check_host group) errors ;;
        Ok (errors, warnings).

Definition check_var (vars_section : Py.value) (errors : list string)
    (var : string) : res (list string) :=
  present <- contains var vars_section ;;
  if negb present then Ok (errors ++ [("Missing required variable: " ++ var)%string])
  else Ok errors.

Definition validate_inventory_structure (inventory : Py.value)
  : res (list string * list string) :=
  let errors : list string := [] in
  let warnings : list string := [] in
  has_all <- contains "all" inventory ;;
  if negb has_all then
    Ok (errors ++ ["Missing 'all' section at top level"], warnings)
  else
    all_section <- getitem inventory "all" ;;
    has_vars <- contains "vars" all_section ;;
    errors <-
      (if negb has_vars then Ok (errors ++ ["Missing 'vars' section in 'all'"])
       else
         vars_section <- getitem all_section "vars" ;;
         for_each REQUIRED_VARS (check_var vars_section) errors) ;;
    has_children <- contains "children" all_section ;;
    if negb has_children then
      Ok (errors ++ ["Missing 'children' section in 'all'"], warnings)
    else
      children <- getitem all_section "children" ;;
      for_each REQUIRED_GROUPS (check_group children) (errors, warnings).

(** *** Network field validator *)

(** [if var in section: value = section[var];
     if isinstance(value, str) and not validate(value): errors.append(...)] *)
Definition check_field (validate : string -> res bool)
    (message : string -> string) (section : Py.value) (field : string)
    (errors : list string) : res (list string) :=
  present <- contains field section ;;
  if present then
    value <- getitem section field ;;
    match value with
    | VStr s =>
        valid <- validate s ;;
        if negb valid then Ok (errors ++ [message s]) else Ok errors
    | _ => Ok errors
    end
  else Ok errors.

Definition network_var_error (var value : string) : string :=
  "Invalid network format in " ++ var ++ ": " ++ value.

Definition ip_var_error (var value : string) : string :=
  "Invalid IP address format in " ++ var ++ ": " ++ value.

Definition host_ip_error (host_name field value : string) : string :=
  "Invalid IP address in " ++ host_name ++ "." ++ field ++ ": " ++ value.

Definition check_host_ips (errors : list string) (host : string * Py.value)
  : res (list string) :=
  let (host_name, host_vars) := host in
  errors <- check_field validate_ip_address
              (host_ip_error host_name "ansible_host")
              host_vars "ansible_host" errors ;;
  errors <- check_field validate_ip_address
              (host_ip_error host_name "internal_ip")
              host_vars "internal_ip" errors ;;
  for_each ["mgmt_ip"; "prod_data_ip"]
    (fun errors ip_field =>
       check_field validate_ip_address (host_ip_error host_name ip_field)
         host_vars ip_field errors)
    errors.

Definition check_group_ips (errors : list string) (group : string * Py.value)
  : res (list string) :=
  let (group_name, group_section) := group in
  has_hosts <- contains "hosts" group_section ;;
  if negb has_hosts then Ok errors
  else
    hosts <- getitem group_section "hosts" ;;
    host_items <- Py.items hosts ;;
    for_each host_items check_host_ips errors.

Definition validate_ip_addresses (inventory : Py.value)
  : res (list string * list string) :=
  let errors : list string := [] in
  let warnings : list string := [] in
  all_section <- Py.get inventory "all" (VDict []) ;;
  children <- Py.get all_section "children" (VDict []) ;;
  let network_vars := ["control_vlan_network"; "data_vlan_network"] in
  vars_section <- Py.get all_section "vars" (VDict []) ;;
  errors <- for_each network_vars
              (fun errors var =>
                 check_field validate_ip_network (network_var_error var)
                   vars_section var errors)
              errors ;;
  let ip_vars := ["control_vlan_gateway"; "data_vlan_gateway";
                  "lb_vip_control"; "lb_vip_data"] in
  errors <- for_each ip_vars
              (fun errors var =>
                 check_field validate_ip_address (ip_var_error var)
                   vars_section var errors)
              errors ;;
  groups <- Py.items children ;;
  errors <- for_each groups check_group_ips errors ;;
  Ok (errors, warnings).

(** *** Command line entry point *)

(** What opening and parsing the file at a path gives. *)
Inductive load_result : Type :=
| Loaded (inventory : Py.value)
| YAMLError
| LoadFailure.

Record world : Type := World {
  path_exists : string -> bool;
  safe_load : string -> load_result
}.

(** One constructor for each [print] of the script, with the data it
    formats. *)
Inductive line : Type :=
| InventoryNotFound (inventory_path : string)
| InvalidYAML (inventory_path : string)
| LoadFailed (inventory_path : string)
| Validating (inventory_path : string)
| Rule
| SyntaxValid
| StructureFailed
| ErrorLine (error : string)
| StructureValid
| WarningsHeader
| WarningLine (warning : string)
| PlaceholdersFound
| PlaceholderLine (path : string) (value : Py.value)
| PlaceholderAdvice
| NoPlaceholders
| IPFailed
| IPValid
| IPWarningsHeader
| SummaryValid
| SummaryPlaceholders
| SummaryErrors (total_errors : nat).

Definition load_inventory (w : world) (inventory_path : string)
  : io line Py.value :=
  if negb (path_exists w inventory_path) then
    (emit (InventoryNotFound inventory_path) ;; sys_exit 1)%io
  else
    match safe_load w inventory_path with
    | Loaded inventory => io_ret inventory
    | YAMLError => (emit (InvalidYAML inventory_path) ;; sys_exit 1)%io
    | LoadFailure => (emit (LoadFailed inventory_path) ;; sys_exit 1)%io
    end.

(** [try: m  except SystemExit: sys.exit(1)] *)
Definition on_SystemExit_exit_1 {A : Type} (m : io line A) : io line A :=
  match m with
  | (o, Raise (SystemExit _)) => (o, Raise (SystemExit 1))
  | r => r
  end.

Definition main (w : world) (inventory_arg : string) : io line unit :=
  (emit (Validating inventory_arg) ;;
   emit Rule ;;
   inventory <-
     on_SystemExit_exit_1
       (inventory <- load_inventory w inventory_arg ;;
        emit SyntaxValid ;;
        io_ret inventory) ;;
   ' (structure_errors, structure_warnings) <-
     lift (validate_inventory_structure inventory) ;;
   (if negb (is_empty structure_errors)
    then emit StructureFailed ;; emit_all (map ErrorLine structure_errors)
    else emit StructureValid) ;;
   (if negb (is_empty structure_warnings)
    then emit WarningsHeader ;; emit_all (map WarningLine structure_warnings)
    else io_ret tt) ;;
   let placeholders := find_placeholders inventory "" [] in
   (if negb (is_empty placeholders)
    then emit PlaceholdersFound ;;
         emit_all
           (map (fun item => PlaceholderLine (path item) (value item))
              placeholders) ;;
         emit PlaceholderAdvice
    else emit NoPlaceholders) ;;
   (if is_empty placeholders then
      ' (ip_errors, ip_warnings) <- lift (validate_ip_addresses inventory) ;;
      (if negb (is_empty ip_errors)
       then emit IPFailed ;; emit_all (map ErrorLine ip_errors)
       else emit IPValid) ;;
      (if negb (is_empty ip_warnings)
       then emit IPWarningsHeader ;; emit_all (map WarningLine ip_warnings)
       else io_ret tt)
    else io_ret tt) ;;
   emit Rule ;;
   let total_errors := List.length structure_errors in
   total_errors <-
     (if is_empty placeholders then
        ' (ip_errors, _) <- lift (validate_ip_addresses inventory) ;;
        io_ret (total_errors + List.length ip_errors)%nat
      else io_ret total_errors) ;;
   if (total_errors =? 0)%nat && is_empty placeholders then
     emit SummaryValid ;; sys_exit 0
   else if negb (is_empty placeholders) then
     emit SummaryPlaceholders ;; sys_exit 1
   else
     emit (SummaryErrors total_errors) ;; sys_exit 1)%io.

End CheckInventory.

(** ** [scripts/check_ssh_config.py] *)

Module CheckSshConfig.

(** One entry of the list built by [get_target_hosts]. *)
Record target : Type := Target {
  name : string;
  ip : Py.value;
  type : string
}.

(** Body of [for host_name, host_vars in ....items()]. *)
Definition add_target (host_type : string) (hosts : list target)
    (host : string * Py.value) : res (list target) :=
  let (host_name, host_vars) := host in
  present <- contains "ansible_host" host_vars ;;
  if present then
    address <- getitem host_vars "ansible_host" ;;
    Ok (hosts ++ [Target host_name address host_type])
  else Ok hosts.

(** [if group in inventory.get('all', {}).get('children', {}):
       for ... in inventory['all']['children'][group].get('hosts', {}).items()] *)
Definition add_group (inventory : Py.value) (group host_type : string)
    (hosts : list target) : res (list target) :=
  all_section <- Py.get inventory "all" (VDict []) ;;
  children <- Py.get all_section "children" (VDict []) ;;
  present <- contains group children ;;
  if present then
    all_section <- getitem inventory "all" ;;
    children <- getitem all_section "children" ;;
    group_section <- getitem children group ;;
    group_hosts <- Py.get group_section "hosts" (VDict []) ;;
    host_items <- Py.items group_hosts ;;
    for_each host_items (add_target host_type) hosts
  else Ok hosts.

Definition get_target_hosts (inventory : Py.value) : res (list target) :=
  let hosts : list target := [] in
  hosts <- add_group inventory "masters" "master" hosts ;;
  hosts <- add_group inventory "workers" "worker" hosts ;;
  Ok hosts.

(** The loop of [get_bastion_host]: it returns at the first host that
    has a connection address or an internal address. *)
Fixpoint bastion_loop (host_items : list (string * Py.value)) : res Py.value :=
  match host_items with
  | [] => Ok VNone
  | (host_name, host_vars) :: rest =>
      has_address <- contains "ansible_host" host_vars ;;
      if has_address then getitem host_vars "ansible_host"
      else
        has_internal <- contains "internal_ip" host_vars ;;
        if has_internal then getitem host_vars "internal_ip"
        else bastion_loop rest
  end.

Definition get_bastion_host (inventory : Py.value) : res Py.value :=
  all_section <- Py.get inventory "all" (VDict []) ;;
  children <- Py.get all_section "children" (VDict []) ;;
  present <- contains "bastion" children ;;
  if present then
    all_section <- getitem inventory "all" ;;
    children <- getitem all_section "children" ;;
    bastion <- getitem children "bastion" ;;
    bastion_hosts <- Py.get bastion "hosts" (VDict []) ;;
    host_items <- Py.items bastion_hosts ;;
    bastion_loop host_items
  else Ok VNone.

(** What [subprocess.run] gives: a completed process, the timeout
    exception, or any other exception with its text. *)
Inductive run_result : Type :=
| Completed (returncode : Z) (stdout : string)
| TimeoutExpired
| RunFailed (text : string).

(** The environment of a run.  [ssh_run host_ip user public_key key] is
    the outcome of the remote [grep] command of
    [check_public_key_in_authorized_keys]; [keygen_run host_ip file] the
    outcome of [ssh-keygen -F host_ip -f file]. *)
Record world : Type := World {
  expanduser : string -> string;
  path_exists : string -> bool;
  safe_load : string -> option Py.value;
  read_text : string -> option string;
  ssh_run : Py.value -> string -> string -> string -> run_result;
  keygen_run : string -> string -> run_result
}.

(** Lines written and calls of [subprocess.run], in order.  [Fingerprint]
    stands for the line that shows the second word of the public key, or
    [N/A]. *)
Inductive event : Type :=
| PrivateKeyNotFound (private_key_path : string)
| Loading (inventory_path : string)
| LoadFailed (inventory_path : string)
| NoTargets
| FoundTargets (count : nat)
| TargetLine (host : target)
| Extracting (private_key_path : string)
| PublicKeyNotFound (public_key_path : string)
| GenerateHint
| PublicKeyUnreadable (public_key_path : string)
| Fingerprint (public_key : string)
| Check1Header
| Checking (host : target)
| RunSsh (host_ip : Py.value)
| KeyFound
| KeyMissing (error_msg : option string)
| Check2Header
| KnownHostsFile (known_hosts_path : string)
| RunSshKeygen (host_ip : Py.value)
| KnownHostsWarning (host_ip : Py.value)
| HostKeyFound
| HostKeyMissing
| ResultHeader
| Complete (count : nat)
| Incomplete
| PublicKeyIssues (failed_hosts : list (target * option string))
| HostKeyIssues (missing_host_keys : list target)
| KeyscanAll (host_ips : string).

Definition load_inventory (w : world) (inventory_path : string)
  : io event Py.value :=
  match safe_load w inventory_path with
  | Some inventory => io_ret inventory
  | None => (emit (LoadFailed inventory_path) ;; sys_exit 1)%io
  end.

(** Characters removed by [str.strip()], among the code points below
    256. *)
Definition is_space (c : ascii) : bool :=
  let n := nat_of_ascii c in
  ((9 <=? n) && (n <=? 13) || (28 <=? n) && (n <=? 32)
   || (n =? 133) || (n =? 160))%nat.

Fixpoint lstrip (s : string) : string :=
  match s with
  | String c s' => if is_space c then lstrip s' else s
  | EmptyString => EmptyString
  end.

Fixpoint rstrip (s : string) : string :=
  match s with
  | String c s' =>
      let r := rstrip s' in
      if is_space c && String.eqb r "" then EmptyString else String c r
  | EmptyString => EmptyString
  end.

Definition strip (s : string) : string := rstrip (lstrip s).

(** The result is [None] where the source returns [None]. *)
Definition get_public_key_from_private (w : world) (private_key_path : string)
  : io event (option string) :=
  let public_key_path := (private_key_path ++ ".pub")%string in
  if negb (path_exists w public_key_path) then
    (emit (PublicKeyNotFound public_key_path) ;;
     emit GenerateHint ;;
     io_ret None)%io
  else
    match read_text w public_key_path with
    | Some text => io_ret (Some (strip text))
    | None => (emit (PublicKeyUnreadable public_key_path) ;; io_ret None)%io
    end.

Definition str_of_Z (z : Z) : string :=
  DecimalString.NilZero.string_of_int (Z.to_int z).

Definition check_public_key_in_authorized_keys (w : world)
    (host_ip : Py.value) (user public_key private_key_path : string)
  : io event (bool * option string) :=
  (emit (RunSsh host_ip) ;;
   match ssh_run w host_ip user public_key (expanduser w private_key_path) with
   | Completed returncode stdout =>
       if (returncode =? 0)%Z && substring_of "FOUND" stdout then
         io_ret (true, None)
       else if (returncode =? 0)%Z && substring_of "NOT_FOUND" stdout then
         io_ret (false, Some "Public key not found in authorized_keys")
       else
         io_ret (false,
                 Some ("SSH connection failed (return code: "
                         ++ str_of_Z returncode ++ ")")%string)
   | TimeoutExpired => io_ret (false, Some "SSH connection timeout")
   | RunFailed text => io_ret (false, Some ("Error: " ++ text)%string)
   end)%io.

Definition get_host_key_from_known_hosts (w : world) (host_ip : Py.value)
    (known_hosts_path : string) : io event bool :=
  if negb (path_exists w known_hosts_path) then io_ret false
  else
    (emit (RunSshKeygen host_ip) ;;
     match host_ip with
     | VStr address =>
         match keygen_run w address known_hosts_path with
         | Completed returncode _ => io_ret (returncode =? 0)%Z
         | TimeoutExpired => io_ret false
         | RunFailed _ => emit (KnownHostsWarning host_ip) ;; io_ret false
         end
     | _ => emit (KnownHostsWarning host_ip) ;; io_ret false
     end)%io.

(** Body of the loop of check 1; the state is [authorized_keys_ok] and
    [failed_hosts]. *)
Definition check1_step (w : world) (user public_key private_key_path : string)
    (st : bool * list (target * option string)) (host : target)
  : io event (bool * list (target * option string)) :=
  let (authorized_keys_ok, failed_hosts) := st in
  (emit (Checking host) ;;
   ' (found, error_msg) <-
     check_public_key_in_authorized_keys w (ip host) user public_key
       private_key_path ;;
   if found then emit KeyFound ;; io_ret (authorized_keys_ok, failed_hosts)
   else
     emit (KeyMissing error_msg) ;;
     io_ret (false, failed_hosts ++ [(host, error_msg)]))%io.

(** Body of the loop of check 2; the state is [known_hosts_ok] and
    [missing_host_keys]. *)
Definition check2_step (w : world) (known_hosts_path : string)
    (st : bool * list target) (host : target) : io event (bool * list target) :=
  let (known_hosts_ok, missing_host_keys) := st in
  (emit (Checking host) ;;
   found <- get_host_key_from_known_hosts w (ip host) known_hosts_path ;;
   if found then emit HostKeyFound ;; io_ret (known_hosts_ok, missing_host_keys)
   else
     emit HostKeyMissing ;;
     io_ret (false, missing_host_keys ++ [host]))%io.

(** [' '.join([h['ip'] for h in hosts])]: only strings can be joined. *)
Fixpoint join_ips (hosts : list target) : res string :=
  match hosts with
  | [] => Ok EmptyString
  | host :: hosts' =>
      match ip host with
      | VStr address =>
          rest <- join_ips hosts' ;;
          Ok (if CheckInventory.is_empty hosts' then address
              else address ++ " " ++ rest)%string
      | _ => Raise TypeError
      end
  end.

(** Truth value of the optional public key: [None] and the empty string
    are false. *)
Definition key_of (public_key : option string) : option string :=
  match public_key with
  | Some k => if String.eqb k "" then None else Some k
  | None => None
  end.

Definition main (w : world) (user key inventory_arg : string) : io event unit :=
  let private_key_path := expanduser w key in
  let known_hosts_path :=
    expanduser w ("~" ++ user ++ "/.ssh/known_hosts")%string in
  if negb (path_exists w private_key_path) then
    (emit (PrivateKeyNotFound private_key_path) ;; sys_exit 1)%io
  else
    (emit (Loading inventory_arg) ;;
     inventory <- load_inventory w inventory_arg ;;
     target_hosts <- lift (get_target_hosts inventory) ;;
     if CheckInventory.is_empty target_hosts then
       emit NoTargets ;; sys_exit 1
     else
       emit (FoundTargets (List.length target_hosts)) ;;
       emit_all (map TargetLine target_hosts) ;;
       emit (Extracting private_key_path) ;;
       public_key <- get_public_key_from_private w private_key_path ;;
       match key_of public_key with
       | None => sys_exit 1
       | Some public_key =>
           emit (Fingerprint public_key) ;;
           emit Check1Header ;;
           ' (authorized_keys_ok, failed_hosts) <-
             io_for_each target_hosts
               (check1_step w user public_key private_key_path) (true, []) ;;
           emit Check2Header ;;
           emit (KnownHostsFile known_hosts_path) ;;
           ' (known_hosts_ok, missing_host_keys) <-
             io_for_each target_hosts (check2_step w known_hosts_path)
               (true, []) ;;
           emit ResultHeader ;;
           if authorized_keys_ok && known_hosts_ok then
             emit (Complete (List.length target_hosts)) ;; sys_exit 0
           else
             emit Incomplete ;;
             (if negb authorized_keys_ok
              then emit (PublicKeyIssues failed_hosts) else io_ret tt) ;;
             (if negb known_hosts_ok
              then emit (HostKeyIssues missing_host_keys) ;;
                   host_ips <- lift (join_ips missing_host_keys) ;;
                   emit (KeyscanAll host_ips)
              else io_ret tt) ;;
             sys_exit 1
       end)%io.

End CheckSshConfig.

(** * Sample inventories and reference definitions *)

(** Inventories used as concrete inputs below. *)
Module Samples.

Definition newline : string := String (ascii_of_nat 10) EmptyString.

Definition common_fields (address : string) : list (string * Py.value) :=
  [ ("ansible_host", VStr address);
    ("ansible_hostname", VStr "node");
    ("ansible_user", VStr "ubuntu");
    ("ansible_ssh_private_key_file", VStr "~/.ssh/gcp_rke2_key") ].

Definition bastion1 : Py.value :=
  VDict (common_fields "10.0.0.2" ++ [("internal_ip", VStr "10.0.0.2")]).

Definition master1 : Py.value := VDict (common_fields "10.0.0.11").

Definition worker1 : Py.value :=
  VDict (common_fields "10.0.0.21"
           ++ [("mgmt_ip", VStr "10.0.0.21"); ("prod_data_ip", VStr "10.1.0.21")]).

Definition good_vars : list (string * Py.value) :=
  [ ("ansible_python_interpreter", VStr "/usr/bin/python3");
    ("control_vlan_network", VStr "10.0.0.0/24");
    ("control_vlan_gateway", VStr "10.0.0.1");
    ("data_vlan_network", VStr "10.1.0.0/24");
    ("data_vlan_gateway", VStr "10.1.0.1");
    ("lb_vip_control", VStr "10.0.0.100");
    ("lb_vip_data", VStr "10.1.0.100") ].

Definition inventory_with (vars workers : list (string * Py.value)) : Py.value :=
  VDict
    [ ("all",
       VDict
         [ ("vars", VDict vars);
           ("children",
            VDict
              [ ("bastion", VDict [("hosts", VDict [("bastion1", bastion1)])]);
                ("masters", VDict [("hosts", VDict [("master1", master1)])]);
                ("workers", VDict [("hosts", VDict workers)]) ]) ]) ].

(** A complete inventory. *)
Definition good_inventory : Py.value :=
  inventory_with good_vars [("worker1", worker1)].


(** A complete inventory with one more variable, a list holding an
    unresolved bastion address. *)
Definition listed_placeholder_inventory : Py.value :=
  inventory_with (good_vars ++ [("dns_servers", VList [VStr "<BASTION_IP>"])])
    [("worker1", worker1)].

(** The same marker as the value of a key. *)
Definition keyed_placeholder_inventory : Py.value :=
  inventory_with (good_vars ++ [("dns_server", VStr "<BASTION_IP>")])
    [("worker1", worker1)].

(** The file system seen by the inventory validator: the file exists and
    parses to [inventory]. *)
Definition validator_world (inventory : Py.value) : CheckInventory.world :=
  CheckInventory.World (fun _ => true) (fun _ => CheckInventory.Loaded inventory).

End Samples.

(** Where an address error can come from: a designated field that holds a
    string which the validator of that field rejects. *)
Module Sources.

Import CheckInventory.

Definition network_vars : list string :=
  ["control_vlan_network"; "data_vlan_network"].

Definition ip_vars : list string :=
  ["control_vlan_gateway"; "data_vlan_gateway"; "lb_vip_control"; "lb_vip_data"].

Definition host_ip_fields : list string :=
  ["ansible_host"; "internal_ip"; "mgmt_ip"; "prod_data_ip"].

(** [section[field]] is the string [s] and [validate] answers false. *)
Definition rejected_string (validate : string -> res bool)
    (section : Py.value) (field s : string) : Prop :=
  getitem section field = Ok (VStr s) /\ validate s = Ok false.

Inductive ip_error_source (inventory : Py.value) (msg : string) : Prop :=
| FromNetworkVar (all_section vars_section : Py.value) (var s : string) :
    Py.get inventory "all" (VDict []) = Ok all_section ->
    Py.get all_section "vars" (VDict []) = Ok vars_section ->
    In var network_vars ->
    rejected_string validate_ip_network vars_section var s ->
    msg = network_var_error var s ->
    ip_error_source inventory msg
| FromIPVar (all_section vars_section : Py.value) (var s : string) :
    Py.get inventory "all" (VDict []) = Ok all_section ->
    Py.get all_section "vars" (VDict []) = Ok vars_section ->
    In var ip_vars ->
    rejected_string validate_ip_address vars_section var s ->
    msg = ip_var_error var s ->
    ip_error_source inventory msg
| FromHostField (all_section children group_section hosts host_vars : Py.value)
    (groups host_items : list (string * Py.value))
    (group_name host_name field s : string) :
    Py.get inventory "all" (VDict []) = Ok all_section ->
    Py.get all_section "children" (VDict []) = Ok children ->
    Py.items children = Ok groups ->
    In (group_name, group_section) groups ->
    getitem group_section "hosts" = Ok hosts ->
    Py.items hosts = Ok host_items ->
    In (host_name, host_vars) host_items ->
    In field host_ip_fields ->
    rejected_string validate_ip_address host_vars field s ->
    msg = host_ip_error host_name field s ->
    ip_error_source inventory msg.

(** Every message of a list has such a source. *)
Definition sourced (inventory : Py.value) (errors : list string) : Prop :=
  forall msg, In msg errors -> ip_error_source inventory msg.

(** An inventory whose gateway is the integer 5 and whose master has the
    integer 7 as connection address; its data network is a malformed
    string. *)
Definition mixed_inventory : Py.value :=
  VDict
    [ ("all",
       VDict
         [ ("vars",
            VDict [ ("control_vlan_gateway", VInt 5);
                    ("data_vlan_network", VStr "10.0.0.0/99") ]);
           ("children",
            VDict
              [ ("masters",
                 VDict [("hosts",
                         VDict [("master1",
                                 VDict [("ansible_host", VInt 7)])])]) ]) ]) ].

End Sources.

(** The report the structural validator is specified to give, written
    group by group from sections 4.2 and 6 of the specification. *)
Module Report.

Import CheckInventory.


Definition missing (wanted : list string) (present : list (string * Py.value))
  : list string :=
  filter (fun k => negb (has_key k present)) wanted.




Definition vars_errors (all_section : list (string * Py.value)) : list string :=
  match assoc "vars" all_section with
  | None => ["Missing 'vars' section in 'all'"]
  | Some (VDict vars) =>
      map (fun var => ("Missing required variable: " ++ var)%string)
        (missing REQUIRED_VARS vars)
  | Some _ => []
  end.

Definition is_dict (v : Py.value) : bool :=
  match v with VDict _ => true | _ => false end.


Definition vars_well_shaped (all_section : list (string * Py.value)) : bool :=
  match assoc "vars" all_section with
  | None => true
  | Some vars => is_dict vars
  end.



End Report.

(** Environments of the trust checker used as concrete inputs, and the
    reading of an inventory as the groups of hosts of section 3. *)
Module Trust.

Import CheckSshConfig.

(** The private key ["key"] exists and its sibling ["key.pub"] does not;
    the inventory file parses to [inventory]. *)
Definition world_without_public_key (inventory : Py.value) : world :=
  World (fun p => p) (fun p => String.eqb p "key") (fun _ => Some inventory)
    (fun _ => None) (fun _ _ _ _ => TimeoutExpired) (fun _ _ => TimeoutExpired).

Definition one_master : Py.value :=
  VDict
    [ ("all",
       VDict
         [ ("children",
            VDict [("masters",
                    VDict [("hosts",
                            VDict [("master1", Samples.master1)])])]) ]) ].

Definition master1_target : target := Target "master1" (VStr "10.0.0.11") "master".

(** Every file exists; the remote command runs on every host and prints
    [NOT_FOUND] (the key is not in [authorized_keys]); every host key is
    in [known_hosts]. *)
Definition world_key_absent (inventory : Py.value) : world :=
  World (fun p => p) (fun _ => true) (fun _ => Some inventory)
    (fun _ => Some ("ssh-ed25519 AAAAC3Nza admin@bastion" ++ Samples.newline)%string)
    (fun _ _ _ _ => Completed 0 ("NOT_FOUND" ++ Samples.newline)%string)
    (fun _ _ => Completed 0 "").

(** The hosts of a group: the items of
    [inventory['all']['children'][group]['hosts']], each host record a
    mapping.  A group that is absent, or has no [hosts], has no host. *)
Fixpoint host_records (host_items : list (string * Py.value))
  : option (list (string * list (string * Py.value))) :=
  match host_items with
  | [] => Some []
  | (host_name, VDict host_vars) :: rest =>
      match host_records rest with
      | Some records => Some ((host_name, host_vars) :: records)
      | None => None
      end
  | _ => None
  end.

Definition hosts_of (inventory : Py.value) (group : string)
  : option (list (string * list (string * Py.value))) :=
  match inventory with
  | VDict top =>
      match assoc "all" top with
      | Some (VDict all_section) =>
          match assoc "children" all_section with
          | Some (VDict children) =>
              match assoc group children with
              | None => Some []
              | Some (VDict group_section) =>
                  match assoc "hosts" group_section with
                  | None => Some []
                  | Some (VDict host_items) => host_records host_items
                  | Some _ => None
                  end
              | Some _ => None
              end
          | _ => None
          end
      | _ => None
      end
  | _ => None
  end.

(** The targets of a list of host records: the records that have a
    connection address, in order. *)
Definition targets_of (host_type : string)
    (records : list (string * list (string * Py.value))) : list target :=
  flat_map
    (fun record =>
       match assoc "ansible_host" (snd record) with
       | Some address => [Target (fst record) address host_type]
       | None => []
       end)
    records.

Definition lacks_address (record : string * list (string * Py.value)) : bool :=
  negb (has_key "ansible_host" (snd record)).

(** Exceptions other than the request to exit: left uncaught, they end
    the process with status 1. *)
Definition ordinary (e : exn) : Prop :=
  match e with SystemExit _ => False | _ => True end.

(** Masters and workers are declared, none with a connection address. *)
Definition unaddressed_inventory : Py.value :=
  VDict
    [ ("all",
       VDict
         [ ("children",
            VDict
              [ ("masters",
                 VDict [("hosts",
                         VDict [("master1",
                                 VDict [("ansible_hostname", VStr "m1")])])]);
                ("workers",
                 VDict [("hosts",
                         VDict [("worker1",
                                 VDict [("ansible_hostname", VStr "w1")])])]) ]) ]) ].

End Trust.

(** Verdicts of the two per-host checks, and the hosts a run has
    announced with a [Checking] line. *)
Module Verdict.

Import CheckSshConfig.

Definition passes_check1 (w : world) (user public_key private_key_path : string)
    (host : target) : bool :=
  match snd (check_public_key_in_authorized_keys w (ip host) user public_key
               private_key_path) with
  | Ok (found, _) => found
  | Raise _ => false
  end.

Definition passes_check2 (w : world) (known_hosts_path : string) (host : target)
  : bool :=
  match snd (get_host_key_from_known_hosts w (ip host) known_hosts_path) with
  | Ok found => found
  | Raise _ => false
  end.

Fixpoint checked (out : list event) : list target :=
  match out with
  | [] => []
  | Checking host :: out' => host :: checked out'
  | _ :: out' => checked out'
  end.

End Verdict.

(** Address and network literals, as text: the dotted quad of four octets,
    the eight groups of one to four hexadecimal digits of an IPv6 address,
    possibly with one run of groups replaced by [::], and either followed
    by a slash and a prefix length in decimal. *)
Module Literals.

Import Ipaddress.

(** [sep.join(parts)] *)
Fixpoint join (sep : ascii) (parts : list string) : string :=
  match parts with
  | [] => EmptyString
  | [p] => p
  | p :: rest => p ++ String sep (join sep rest)
  end.

Definition dotted_quad (a b c d : nat) : string :=
  join "." [str_of_nat a; str_of_nat b; str_of_nat c; str_of_nat d].

Definition is_hextet (h : string) : bool :=
  negb (String.eqb h "") && (String.length h <=? 4)%nat
  && all_chars is_hex_digit h.

Definition compressed (hi lo : list string) : string :=
  join ":" hi ++ "::" ++ join ":" lo.

Definition with_prefix (address : string) (prefixlen : nat) : string :=
  address ++ "/" ++ str_of_nat prefixlen.

Inductive ipv4_literal : string -> Prop :=
| Quad (a b c d : nat) :
    a <= 255 -> b <= 255 -> c <= 255 -> d <= 255 ->
    ipv4_literal (dotted_quad a b c d).

Inductive ipv6_literal : string -> Prop :=
| Full (groups : list string) :
    List.length groups = 8 ->
    forallb is_hextet groups = true ->
    ipv6_literal (join ":" groups)
| Compressed (hi lo : list string) :
    List.length hi + List.length lo <= 7 ->
    forallb is_hextet hi = true ->
    forallb is_hextet lo = true ->
    ipv6_literal (compressed hi lo).



(** The parts on one side of a [::]: at an end of the text, where there is
    no group, splitting at the colons leaves one empty part. *)
Definition pad (groups : list string) : list string :=
  match groups with
  | [] => [EmptyString]
  | _ => groups
  end.

(** Characters that separate the parts of a literal; no part holds one. *)
Definition separator_free (p : string) : bool :=
  negb (has_char "." p || has_char ":" p || has_char "/" p || has_char "%" p).

(** What is checked, number by number, of the decimal text of an octet
    and of a prefix length. *)
Definition octet_checked (n : nat) : bool :=
  match parse_octet (str_of_nat n) with
  | Ok z => (z =? Z.of_nat n)%Z
  | Raise _ => false
  end
  && separator_free (str_of_nat n)
  && negb (String.eqb (str_of_nat n) "").


End Literals.

(** The scanner as section 4.3 of the specification describes it: every
    string-valued leaf is tested, items of sequences included, and the
    records come in traversal order. *)
Module Scanner.

Import CheckInventory.




End Scanner.

(** Notions used to state further properties of the two scripts. *)
Module Extra.

Import CheckInventory.

(** A record the scanner may return: its value is a string and its
    patterns are those, at least one, that the string matches. *)
Definition sound_finding (f : finding) : Prop :=
  exists s, value f = VStr s
            /\ placeholders f = check_placeholder (VStr s)
            /\ placeholders f <> [].

(** The numbered markers of the table: the text before the number, the
    text after it, and the pattern. *)
Definition numbered_markers : list (string * string * string) :=
  [ ("<MASTER", "_IP>", "<MASTER\d+_IP>");
    ("<WORKER", "_IP>", "<WORKER\d+_IP>");
    ("<MASTER", "_HOSTNAME>", "<MASTER\d+_HOSTNAME>");
    ("<WORKER", "_HOSTNAME>", "<WORKER\d+_HOSTNAME>");
    ("<WORKER", "_MGMT_IP>", "<WORKER\d+_MGMT_IP>");
    ("<WORKER", "_DATA_IP>", "<WORKER\d+_DATA_IP>") ].

(** The markers of the table that are fixed texts; each is its own
    pattern. *)
Definition fixed_markers : list string :=
  ["<BASTION_IP>"; "<BASTION_HOSTNAME>"; "<SSH_USER>"; "<SSH_KEY_NAME>"].

(** The texts a pattern of the table stands for: the fixed marker itself,
    or a numbered marker with one or more decimal digits as its number. *)
Inductive instance_of : string -> string -> Prop :=
| FixedInstance (marker : string) :
    In marker fixed_markers -> instance_of marker marker
| NumberedInstance (before after pattern d : string) :
    In (before, after, pattern) numbered_markers ->
    Ipaddress.isascii_isdigit d = true ->
    instance_of pattern (before ++ d ++ after).


(** The lines the validator writes for the result of the structural pass. *)
Definition structure_lines (errors warnings : list string)
  : list CheckInventory.line :=
  (if is_empty errors then [StructureValid]
   else StructureFailed :: map ErrorLine errors)
  ++ (if is_empty warnings then []
      else WarningsHeader :: map WarningLine warnings).



(** Values on which the test [k in v] raises: they are no container. *)
Definition no_container (v : Py.value) : bool :=
  match v with
  | VNone | VBool _ | VInt _ => true
  | _ => false
  end.

(** The atoms of a literal text. *)
Fixpoint literal (s : string) : list Re.atom :=
  match s with
  | EmptyString => []
  | String c s' => (Re.Lit c, false) :: literal s'
  end.

End Extra.

(** The run of the trust checker with its two loops written as maps and
    filters over the targets. *)
Module TrustReport.

Import CheckSshConfig.

(** What the remote check answers for a target. *)
Definition verdict1 (w : world) (user public_key private_key_path : string)
    (host : target) : bool * option string :=
  match snd (check_public_key_in_authorized_keys w (ip host) user public_key
               private_key_path) with
  | Ok answer => answer
  | Raise _ => (false, None)
  end.

Definition check1_lines (w : world) (user public_key private_key_path : string)
    (host : target) : list event :=
  [ Checking host; RunSsh (ip host);
    if fst (verdict1 w user public_key private_key_path host) then KeyFound
    else KeyMissing (snd (verdict1 w user public_key private_key_path host)) ].

Definition failed_hosts (w : world) (user public_key private_key_path : string)
    (hosts : list target) : list (target * option string) :=
  flat_map
    (fun host =>
       if fst (verdict1 w user public_key private_key_path host) then []
       else [(host, snd (verdict1 w user public_key private_key_path host))])
    hosts.

Definition check2_lines (w : world) (known_hosts_path : string) (host : target)
  : list event :=
  Checking host
    :: fst (get_host_key_from_known_hosts w (ip host) known_hosts_path)
    ++ [ if Verdict.passes_check2 w known_hosts_path host then HostKeyFound
         else HostKeyMissing ].

Definition missing_host_keys (w : world) (known_hosts_path : string)
    (hosts : list target) : list target :=
  filter (fun host => negb (Verdict.passes_check2 w known_hosts_path host)) hosts.

(** The lines after the result header, and how the run ends. *)
Definition verdict (w : world)
    (user public_key private_key_path known_hosts_path : string)
    (hosts : list target) : io event unit :=
  let ok1 :=
    forallb (Verdict.passes_check1 w user public_key private_key_path) hosts in
  let ok2 := forallb (Verdict.passes_check2 w known_hosts_path) hosts in
  let issues1 :=
    if ok1 then []
    else [PublicKeyIssues
            (failed_hosts w user public_key private_key_path hosts)] in
  let missing := missing_host_keys w known_hosts_path hosts in
  if ok1 && ok2 then ([Complete (List.length hosts)], Raise (SystemExit 0))
  else if ok2 then (Incomplete :: issues1, Raise (SystemExit 1))
  else
    match join_ips missing with
    | Ok host_ips =>
        (Incomplete :: issues1 ++ [HostKeyIssues missing; KeyscanAll host_ips],
         Raise (SystemExit 1))
    | Raise e => (Incomplete :: issues1 ++ [HostKeyIssues missing], Raise e)
    end.

Definition run (w : world) (user key inventory_arg : string) : io event unit :=
  let private_key_path := expanduser w key in
  let public_key_path := (private_key_path ++ ".pub")%string in
  let known_hosts_path :=
    expanduser w ("~" ++ user ++ "/.ssh/known_hosts")%string in
  if negb (path_exists w private_key_path) then
    ([PrivateKeyNotFound private_key_path], Raise (SystemExit 1))
  else
    match safe_load w inventory_arg with
    | None =>
        ([Loading inventory_arg; LoadFailed inventory_arg], Raise (SystemExit 1))
    | Some inventory =>
        match get_target_hosts inventory with
        | Raise e => ([Loading inventory_arg], Raise e)
        | Ok [] => ([Loading inventory_arg; NoTargets], Raise (SystemExit 1))
        | Ok hosts =>
            let head :=
              [Loading inventory_arg; FoundTargets (List.length hosts)]
                ++ map TargetLine hosts ++ [Extracting private_key_path] in
            if negb (path_exists w public_key_path) then
              (head ++ [PublicKeyNotFound public_key_path; GenerateHint],
               Raise (SystemExit 1))
            else
              match read_text w public_key_path with
              | None =>
                  (head ++ [PublicKeyUnreadable public_key_path],
                   Raise (SystemExit 1))
              | Some text =>
                  if String.eqb (strip text) "" then (head, Raise (SystemExit 1))
                  else
                    let public_key := strip text in
                    let (lines, result) :=
                      verdict w user public_key private_key_path
                        known_hosts_path hosts in
                    (head ++ [Fingerprint public_key; Check1Header]
                       ++ flat_map
                            (check1_lines w user public_key private_key_path)
                            hosts
                       ++ [Check2Header; KnownHostsFile known_hosts_path]
                       ++ flat_map (check2_lines w known_hosts_path) hosts
                       ++ ResultHeader :: lines,
                     result)
              end
        end
    end.

(** Every file exists but the [known_hosts] file of [ubuntu]; the remote
    command finds the key on every host. *)
Definition world_without_known_hosts (inventory : Py.value) : world :=
  World (fun p => p)
    (fun p => negb (String.eqb p "~ubuntu/.ssh/known_hosts"))
    (fun _ => Some inventory)
    (fun _ => Some "ssh-ed25519 AAAAC3Nza admin@bastion")
    (fun _ _ _ _ => Completed 0 "FOUND")
    (fun _ _ => Completed 0 "").

(** Every file exists; the remote command times out on [10.0.0.11] and
    finds the key elsewhere; every host key is known but that of
    [10.0.0.21]. *)
Definition world_of_failures (inventory : Py.value) : world :=
  World (fun p => p) (fun _ => true) (fun _ => Some inventory)
    (fun _ => Some "ssh-ed25519 AAAAC3Nza admin@bastion")
    (fun host_ip _ _ _ =>
       match host_ip with
       | VStr "10.0.0.11" => TimeoutExpired
       | _ => Completed 0 "FOUND"
       end)
    (fun host_ip _ =>
       if String.eqb host_ip "10.0.0.21" then Completed 1 "" else Completed 0 "").

(** The public key file holds [text]; everything else exists and every
    check passes. *)
Definition world_with_key_text (inventory : Py.value) (text : string) : world :=
  World (fun p => p) (fun _ => true) (fun _ => Some inventory)
    (fun _ => Some text)
    (fun _ _ _ _ => Completed 0 "FOUND")
    (fun _ _ => Completed 0 "").

(** A master whose connection address is left empty in the file. *)
Definition unset_address_inventory : Py.value :=
  VDict
    [ ("all",
       VDict
         [ ("children",
            VDict [("masters",
                    VDict [("hosts",
                            VDict [("master1",
                                    VDict [("ansible_host", VNone)])])])]) ]) ].

(** The lines of a run that belong to neither loop nor to the result. *)
Definition frame (ev : event) : bool :=
  match ev with
  | PrivateKeyNotFound _ | Loading _ | LoadFailed _ | NoTargets
  | FoundTargets _ | TargetLine _ | Extracting _ | PublicKeyNotFound _
  | GenerateHint | PublicKeyUnreadable _ | Fingerprint _ | Check1Header
  | Check2Header | KnownHostsFile _ | ResultHeader => true
  | _ => false
  end.

(** Documents that are no mapping: the method [get] is missing. *)
Definition no_mapping (v : Py.value) : bool :=
  match v with
  | VDict _ => false
  | _ => true
  end.

(** A bastion declared with its internal address only, after a host with
    no address at all. *)
Definition internal_bastion_inventory : Py.value :=
  VDict
    [ ("all",
       VDict
         [ ("children",
            VDict [("bastion",
                    VDict [("hosts",
                            VDict [("spare", VDict [("zone", VStr "a")]);
                                   ("bastion1",
                                    VDict [("internal_ip", VStr "10.0.0.2");
                                           ("zone", VStr "b")])])])]) ]) ].

(** A complete inventory but for the master, which is declared without
    any field: its record is [None]. *)
Definition bare_host_inventory : Py.value :=
  VDict
    [ ("all",
       VDict
         [ ("vars", VDict Samples.good_vars);
           ("children",
            VDict
              [ ("bastion", VDict [("hosts", VDict [("bastion1", Samples.bastion1)])]);
                ("masters", VDict [("hosts", VDict [("master1", VNone)])]);
                ("workers", VDict [("hosts", VDict [("worker1", Samples.worker1)])])
              ]) ]) ].

(** The calls of [ssh] and of [ssh-keygen] in a run, in order. *)
Fixpoint ssh_calls (out : list event) : list Py.value :=
  match out with
  | [] => []
  | RunSsh host_ip :: out' => host_ip :: ssh_calls out'
  | _ :: out' => ssh_calls out'
  end.

Fixpoint keygen_calls (out : list event) : list Py.value :=
  match out with
  | [] => []
  | RunSshKeygen host_ip :: out' => host_ip :: keygen_calls out'
  | _ :: out' => keygen_calls out'
  end.

(** The address [get_bastion_host] is to return for a list of host
    records: that of the first record that has one, the connection address
    before the internal one. *)
Fixpoint bastion_address (records : list (string * list (string * Py.value)))
  : Py.value :=
  match records with
  | [] => VNone
  | (_, host_vars) :: rest =>
      match assoc "ansible_host" host_vars with
      | Some address => address
      | None =>
          match assoc "internal_ip" host_vars with
          | Some address => address
          | None => bastion_address rest
          end
      end
  end.

End TrustReport.

(** * Theorems *)

(** Case analysis of a membership in a concrete list of events. *)
Ltac in_inv :=
  repeat match goal with
    | H : In _ (_ ++ _) |- _ => apply in_app_or in H; destruct H
    | H : In _ (map _ _) |- _ =>
        apply in_map_iff in H; destruct H as [? [? ?]]
    | H : In _ (_ :: _) |- _ => destruct H
    | H : In _ [] |- _ => destruct H
    | H : _ \/ _ |- _ => destruct H
    | H : False |- _ => destruct H
    | H : _ = _ |- _ => discriminate H
    end.

Section InventoryValidator.

Import CheckInventory.

(** C4. A document that does not contain the top-level key ['all'] (for
    a mapping: has no such key) gets exactly one error, the missing
    ['all'] diagnostic, and no warning; nothing else is checked. *)
Theorem structure_without_all_is_one_error (inventory : Py.value) :
  contains "all" inventory = Ok false ->
  validate_inventory_structure inventory
  = Ok (["Missing 'all' section at top level"], []).
Proof.
  intros Hno. unfold validate_inventory_structure. rewrite Hno. reflexivity.
Qed.

Lemma structure_without_all_is_one_error_witness :
  contains "all" (VDict [("children", VDict [])]) = Ok false
  /\ validate_inventory_structure (VDict [("children", VDict [])])
     = Ok (["Missing 'all' section at top level"], []).
Proof.
  split; [reflexivity |].
  apply structure_without_all_is_one_error. reflexivity.
Defined.



(** The scanner only tests the values of mapping keys.  An item of a
    sequence is passed to the recursive call, which tests nothing when
    the item is a string: a sequence of strings leaves the accumulator
    as it was. *)
Lemma find_placeholders_list_of_strings (items : list string) (path : string)
    (found : list finding) :
  find_placeholders (VList (map VStr items)) path found = found.
Proof.
  cbn. generalize 0%nat. induction items as [|item items IH]; intros i.
  - reflexivity.
  - cbn. apply IH.
Qed.

(** *** The scanner on documents without strings in sequences *)

(** Induction on a value, with the property available for the items of a
    sequence and for the values of a mapping. *)
Lemma value_nested_ind (P : Py.value -> Prop) :
  P VNone ->
  (forall b, P (VBool b)) ->
  (forall z, P (VInt z)) ->
  (forall s, P (VStr s)) ->
  (forall l, Forall P l -> P (VList l)) ->
  (forall kvs, Forall (fun kv => P (snd kv)) kvs -> P (VDict kvs)) ->
  forall v, P v.
Proof.
  intros HNone HBool HInt HStr HList HDict.
  fix IH 1.
  intros [| b | z | s | l | kvs];
    [exact HNone | apply HBool | apply HInt | apply HStr | |].
  - apply HList. revert l. fix IHl 1. intros [|x l]; constructor.
    + apply IH.
    + apply IHl.
  - apply HDict. revert kvs. fix IHl 1. intros [|[k x] kvs]; constructor.
    + apply IH.
    + apply IHl.
Qed.



(** C1. The string ["<BASTION_IP>"] matches the first pattern of the
    table, and is reported when it is the value of a key; as the only
    item of the list [all.vars.dns_servers] it is not tested, and the
    scanner returns no finding for that inventory. *)
Theorem find_placeholders_skips_string_in_list :
  check_placeholder (VStr "<BASTION_IP>") = ["<BASTION_IP>"]
  /\ find_placeholders Samples.keyed_placeholder_inventory "" []
     = [Finding "all.vars.dns_server" (VStr "<BASTION_IP>") ["<BASTION_IP>"]]
  /\ find_placeholders Samples.listed_placeholder_inventory "" [] = [].
Proof. repeat split; vm_compute; reflexivity. Qed.

(** The guard of [main]: once the scanner has found something, the address
    pass is not run and the status is 1. *)
Lemma main_with_findings_skips_ip_pass (w : world) (inventory_arg : string)
    (inventory : Py.value) (errors warnings : list string) :
  path_exists w inventory_arg = true ->
  safe_load w inventory_arg = Loaded inventory ->
  validate_inventory_structure inventory = Ok (errors, warnings) ->
  find_placeholders inventory "" [] <> [] ->
  exit_status (snd (main w inventory_arg)) = 1%Z
  /\ ~ In IPValid (fst (main w inventory_arg))
  /\ ~ In IPFailed (fst (main w inventory_arg)).
Proof.
  intros Hex Hload Hstruct Hph.
  unfold main, load_inventory. rewrite Hex, Hload. cbn.
  rewrite Hstruct. cbn.
  destruct (find_placeholders inventory "" []) as [|f fs]; [congruence |].
  destruct errors, warnings; cbn; (split; [reflexivity |]);
    split; intros H; in_inv.
Qed.

(** C3. The inventory [listed_placeholder_inventory] holds the marker
    ["<BASTION_IP>"] inside a list; the scanner misses it, so the
    address pass runs, the inventory is declared valid and the status is
    0. *)
Theorem main_misses_placeholder_in_list :
  main (Samples.validator_world Samples.listed_placeholder_inventory)
    "inventory.yml"
  = ([ Validating "inventory.yml"; Rule; SyntaxValid; StructureValid;
       NoPlaceholders; IPValid; Rule; SummaryValid ],
     Raise (SystemExit 0)).
Proof. vm_compute. reflexivity. Qed.

(** *** Errors of the address pass come from strings only *)

Lemma bind_Ok {A B : Type} (m : res A) (k : A -> res B) (b : B) :
  Py.bind m k = Ok b -> exists a, m = Ok a /\ k a = Ok b.
Proof. destruct m as [a|e]; cbn; [eauto | discriminate]. Qed.

(** A property of the loop state that the body keeps is kept by the
    loop. *)
Lemma for_each_invariant {A S : Type} (P : S -> Prop) (xs : list A)
    (body : S -> A -> res S) :
  (forall st x st', In x xs -> P st -> body st x = Ok st' -> P st') ->
  forall st st', P st -> for_each xs body st = Ok st' -> P st'.
Proof.
  induction xs as [|x xs IH]; intros Hbody st st' Hst Hrun; cbn in Hrun.
  - injection Hrun as <-. exact Hst.
  - apply bind_Ok in Hrun as [st1 [H1 Hrest]].
    apply (IH (fun st x st' Hin => Hbody st x st' (or_intror Hin)) st1);
      [| exact Hrest].
    apply (Hbody st x); [left; reflexivity | exact Hst | exact H1].
Qed.

(** One field: the list of errors is unchanged, or grows by the message
    of a rejected string. *)
Lemma check_field_cases (validate : string -> res bool)
    (message : string -> string) (section : Py.value) (field : string)
    (errors errors' : list string) :
  check_field validate message section field errors = Ok errors' ->
  errors' = errors
  \/ exists s, Sources.rejected_string validate section field s
               /\ errors' = errors ++ [message s].
Proof.
  unfold check_field. intros H.
  apply bind_Ok in H as [present [_ H]].
  destruct present; [| injection H as <-; left; reflexivity].
  apply bind_Ok in H as [value [Hget H]].
  destruct value; try (injection H as <-; left; reflexivity).
  apply bind_Ok in H as [valid [Hvalid H]].
  destruct valid; cbn in H; injection H as <-; [left; reflexivity |].
  right. exists s. split; [split; assumption | reflexivity].
Qed.

(** A field holding anything but a string adds no error. *)
Lemma check_field_non_string (validate : string -> res bool)
    (message : string -> string) (section value : Py.value) (field : string)
    (errors : list string) :
  contains field section = Ok true ->
  getitem section field = Ok value ->
  isinstance_str value = false ->
  check_field validate message section field errors = Ok errors.
Proof.
  intros Hin Hget Hns. unfold check_field. rewrite Hin. cbn. rewrite Hget. cbn.
  destruct value; try reflexivity. discriminate Hns.
Qed.

Lemma sourced_step (inventory : Py.value) (validate : string -> res bool)
    (message : string -> string) (section : Py.value) (field : string)
    (errors errors' : list string) :
  (forall s, Sources.rejected_string validate section field s ->
             Sources.ip_error_source inventory (message s)) ->
  Sources.sourced inventory errors ->
  check_field validate message section field errors = Ok errors' ->
  Sources.sourced inventory errors'.
Proof.
  intros Hsrc Herrs Hrun.
  apply check_field_cases in Hrun as [-> | [s [Hrej ->]]]; [exact Herrs |].
  intros msg Hin. apply in_app_or in Hin as [Hin | [<- | []]].
  - apply Herrs, Hin.
  - apply Hsrc, Hrej.
Qed.

(** C9. Every message returned by the address pass is the message of a
    designated field whose value is a string, rejected by the validator
    of that field; a field holding an integer or any other non-string
    value is therefore never reported. *)
Theorem ip_errors_only_for_strings (inventory : Py.value)
    (errors warnings : list string) :
  validate_ip_addresses inventory = Ok (errors, warnings) ->
  forall msg, In msg errors -> Sources.ip_error_source inventory msg.
Proof.
  unfold validate_ip_addresses. intros H.
  apply bind_Ok in H as [all_section [Hall H]].
  apply bind_Ok in H as [children [Hchildren H]].
  apply bind_Ok in H as [vars_section [Hvars H]].
  apply bind_Ok in H as [errors1 [H1 H]].
  apply bind_Ok in H as [errors2 [H2 H]].
  apply bind_Ok in H as [groups [Hgroups H]].
  apply bind_Ok in H as [errors3 [H3 H]].
  injection H as <- _.
  assert (S1 : Sources.sourced inventory errors1).
  { revert H1. apply (for_each_invariant (Sources.sourced inventory)); [| intros msg []].
    intros st var st' Hin Hst. apply sourced_step; [| exact Hst].
    intros s Hrej. eapply Sources.FromNetworkVar; eauto. }
  assert (S2 : Sources.sourced inventory errors2).
  { revert H2. apply (for_each_invariant (Sources.sourced inventory)); [| exact S1].
    intros st var st' Hin Hst. apply sourced_step; [| exact Hst].
    intros s Hrej. eapply Sources.FromIPVar; eauto. }
  change (Sources.sourced inventory errors3).
  revert H3. apply (for_each_invariant (Sources.sourced inventory)); [| exact S2].
  intros st [group_name group_section] st' Hgroup Hst Hrun.
  unfold check_group_ips in Hrun.
  apply bind_Ok in Hrun as [has_hosts [_ Hrun]].
  destruct has_hosts; cbn in Hrun; [| injection Hrun as <-; exact Hst].
  apply bind_Ok in Hrun as [hosts [Hhosts Hrun]].
  apply bind_Ok in Hrun as [host_items [Hitems Hrun]].
  revert Hrun. apply (for_each_invariant (Sources.sourced inventory)); [| exact Hst].
  clear st st' Hst. intros st [host_name host_vars] st' Hhost Hst Hrun.
  assert (Hfield : forall field s,
             In field Sources.host_ip_fields ->
             Sources.rejected_string validate_ip_address host_vars field s ->
             Sources.ip_error_source inventory
               (host_ip_error host_name field s)).
  { intros field s Hin Hrej. eapply Sources.FromHostField; eauto. }
  unfold check_host_ips in Hrun.
  apply bind_Ok in Hrun as [e1 [Hrun1 Hrun]].
  apply bind_Ok in Hrun as [e2 [Hrun2 Hrun]].
  assert (Se1 : Sources.sourced inventory e1).
  { revert Hrun1. apply sourced_step; [| exact Hst].
    intros s. apply Hfield. cbn; tauto. }
  assert (Se2 : Sources.sourced inventory e2).
  { revert Hrun2. apply sourced_step; [| exact Se1].
    intros s. apply Hfield. cbn; tauto. }
  revert Hrun. apply (for_each_invariant (Sources.sourced inventory)); [| exact Se2].
  intros st0 field st0' Hin Hst0. apply sourced_step; [| exact Hst0].
  intros s. apply Hfield. cbn in Hin |- *. tauto.
Qed.

Lemma ip_errors_only_for_strings_witness :
  validate_ip_addresses Sources.mixed_inventory
  = Ok (["Invalid network format in data_vlan_network: 10.0.0.0/99"], [])
  /\ Sources.ip_error_source Sources.mixed_inventory
       "Invalid network format in data_vlan_network: 10.0.0.0/99".
Proof.
  split; [reflexivity |].
  apply (ip_errors_only_for_strings Sources.mixed_inventory
           ["Invalid network format in data_vlan_network: 10.0.0.0/99"] []);
    [reflexivity | left; reflexivity].
Defined.

(** *** The structural validator against its specified report *)

(** The inner loop over a list of required names: one message for each
    name the mapping does not have, in order. *)
Lemma for_each_missing (mk : string -> string) (present : list (string * Py.value))
    (wanted errors : list string) :
  for_each wanted
    (fun errors field =>
       here <- contains field (VDict present) ;;
       if negb here then Ok (errors ++ [mk field]) else Ok errors)
    errors
  = Ok (errors ++ map mk (Report.missing wanted present)).
Proof.
  revert errors. induction wanted as [|field wanted IH]; intros errors; cbn.
  - rewrite app_nil_r. reflexivity.
  - destruct (has_key field present); cbn.
    + apply IH.
    + rewrite IH, <- app_assoc. reflexivity.
Qed.







End InventoryValidator.


Section TrustChecker.

Import CheckSshConfig.

(** *** Exceptions of the target extraction *)

Lemma bind_Raise {A B : Type} (m : res A) (k : A -> res B) (e : exn) :
  Py.bind m k = Raise e ->
  m = Raise e \/ exists a, m = Ok a /\ k a = Raise e.
Proof.
  destruct m as [a|e']; cbn; intros H; [right; eauto | left].
  injection H as ->. reflexivity.
Qed.

Lemma contains_ordinary (k : string) (v : Py.value) (e : exn) :
  contains k v = Raise e -> Trust.ordinary e.
Proof. destruct v; cbn; intros H; inversion H; exact I. Qed.

Lemma getitem_ordinary (v : Py.value) (k : string) (e : exn) :
  getitem v k = Raise e -> Trust.ordinary e.
Proof.
  destruct v as [| | | | |kvs]; cbn; try (intros H; inversion H; exact I).
  destruct (assoc k kvs); intros H; inversion H; exact I.
Qed.

Lemma get_ordinary (v : Py.value) (k : string) (d : Py.value) (e : exn) :
  Py.get v k d = Raise e -> Trust.ordinary e.
Proof.
  destruct v as [| | | | |kvs]; cbn; try (intros H; inversion H; exact I).
  destruct (assoc k kvs); intros H; inversion H.
Qed.

Lemma items_ordinary (v : Py.value) (e : exn) :
  Py.items v = Raise e -> Trust.ordinary e.
Proof. destruct v; cbn; intros H; inversion H; exact I. Qed.

Lemma for_each_ordinary {A S : Type} (xs : list A) (body : S -> A -> res S) :
  (forall st x e, body st x = Raise e -> Trust.ordinary e) ->
  forall st e, for_each xs body st = Raise e -> Trust.ordinary e.
Proof.
  intros Hbody. induction xs as [|x xs IH]; intros st e H; cbn in H.
  - discriminate H.
  - apply bind_Raise in H as [H | [st1 [_ H]]]; eauto.
Qed.

(** Steps through a failing sequence of operations. *)
Ltac ordinary_steps H :=
  repeat match type of H with
    | Py.bind _ _ = Raise _ => apply bind_Raise in H as [H | [? [_ H]]]
    | contains _ _ = Raise _ => exact (contains_ordinary _ _ _ H)
    | getitem _ _ = Raise _ => exact (getitem_ordinary _ _ _ H)
    | Py.get _ _ _ = Raise _ => exact (get_ordinary _ _ _ _ H)
    | Py.items _ = Raise _ => exact (items_ordinary _ _ H)
    | (if ?b then _ else _) = Raise _ => destruct b
    | Ok _ = Raise _ => discriminate H
    end.

Lemma add_target_ordinary (host_type : string) (hosts : list target)
    (host : string * Py.value) (e : exn) :
  add_target host_type hosts host = Raise e -> Trust.ordinary e.
Proof. destruct host. unfold add_target. intros H. ordinary_steps H. Qed.

Lemma add_group_ordinary (inventory : Py.value) (group host_type : string)
    (hosts : list target) (e : exn) :
  add_group inventory group host_type hosts = Raise e -> Trust.ordinary e.
Proof.
  unfold add_group. intros H. ordinary_steps H.
  revert H. apply for_each_ordinary. intros ? ? ?. apply add_target_ordinary.
Qed.

(** The target extraction never asks to exit: when it fails, the
    process ends with status 1 and a traceback. *)
Lemma get_target_hosts_ordinary (inventory : Py.value) (e : exn) :
  get_target_hosts inventory = Raise e -> Trust.ordinary e.
Proof.
  unfold get_target_hosts. intros H.
  apply bind_Raise in H as [H | [hosts [_ H]]];
    [exact (add_group_ordinary _ _ _ _ _ H) |].
  apply bind_Raise in H as [H | [hosts' [_ H]]];
    [exact (add_group_ordinary _ _ _ _ _ H) | discriminate H].
Qed.

Lemma exit_status_ordinary {A : Type} (e : exn) :
  Trust.ordinary e -> exit_status (@Raise A e) = 1%Z.
Proof. destruct e; cbn; intros H; [reflexivity .. | contradiction]. Qed.

(** *** The public key is read after the inventory *)

(** C2, as the specification orders the steps: with the private key in
    place and no sibling [.pub] file the run would report the missing
    public key whatever the inventory holds.  On an inventory without any
    master or worker the run ends on the empty target list instead, and
    the public key file is never looked for. *)
Lemma public_key_check_before_inventory_fails :
  path_exists (Trust.world_without_public_key (VDict []))
    (expanduser (Trust.world_without_public_key (VDict [])) "key") = true
  /\ path_exists (Trust.world_without_public_key (VDict []))
       (expanduser (Trust.world_without_public_key (VDict [])) "key" ++ ".pub")
     = false
  /\ main (Trust.world_without_public_key (VDict [])) "ubuntu" "key"
       "inventory.yml"
     = ([Loading "inventory.yml"; NoTargets], Raise (SystemExit 1))
  /\ ~ In (PublicKeyNotFound "key.pub")
         (fst (main (Trust.world_without_public_key (VDict [])) "ubuntu" "key"
                 "inventory.yml")).
Proof.
  repeat split; try reflexivity.
  cbn. intros H. in_inv.
Qed.

(** C2, amended.  With the private key in place and no sibling [.pub]
    file, the run ends with status 1 and starts no subprocess.  The
    inventory is loaded and the targets are extracted first: the missing
    public key is reported exactly when the inventory loads and has at
    least one target, after the targets have been listed. *)
Theorem missing_public_key_exits_1 (w : world) (user key inventory_arg : string) :
  path_exists w (expanduser w key) = true ->
  path_exists w (expanduser w key ++ ".pub") = false ->
  exit_status (snd (main w user key inventory_arg)) = 1%Z
  /\ (forall host_ip,
        ~ In (RunSsh host_ip) (fst (main w user key inventory_arg))
        /\ ~ In (RunSshKeygen host_ip) (fst (main w user key inventory_arg)))
  /\ (forall inventory targets,
        safe_load w inventory_arg = Some inventory ->
        get_target_hosts inventory = Ok targets ->
        targets <> [] ->
        main w user key inventory_arg
        = ([Loading inventory_arg; FoundTargets (List.length targets)]
             ++ map TargetLine targets
             ++ [Extracting (expanduser w key);
                 PublicKeyNotFound (expanduser w key ++ ".pub");
                 GenerateHint],
           Raise (SystemExit 1)))
  /\ (In (PublicKeyNotFound (expanduser w key ++ ".pub"))
        (fst (main w user key inventory_arg)) ->
      exists inventory targets,
        safe_load w inventory_arg = Some inventory
        /\ get_target_hosts inventory = Ok targets
        /\ targets <> []).
Proof.
  intros Hpriv Hpub. unfold main. rewrite Hpriv. cbn [negb].
  unfold load_inventory.
  destruct (safe_load w inventory_arg) as [inventory|] eqn:Hload.
  2: { cbn. split; [reflexivity | split; [| split]].
       - intros host_ip; split; intros H; in_inv.
       - intros inv ts Hinv. discriminate Hinv.
       - intros H; in_inv. }
  cbn [io_bind io_ret emit lift fst snd app].
  destruct (get_target_hosts inventory) as [targets|e] eqn:Htargets.
  2: { cbn. split; [| split; [| split]].
       - apply (exit_status_ordinary (A := unit)).
         exact (get_target_hosts_ordinary _ _ Htargets).
       - intros host_ip; split; intros H; in_inv.
       - intros inv ts Hinv Hts. injection Hinv as <-. congruence.
       - intros H; in_inv. }
  destruct targets as [|t targets].
  { cbn. split; [reflexivity | split; [| split]].
    - intros host_ip; split; intros H; in_inv.
    - intros inv ts Hinv Hts Hne. injection Hinv as <-. congruence.
    - intros H; in_inv. }
  unfold get_public_key_from_private. rewrite Hpub. cbn.
  split; [reflexivity | split; [| split]].
  - intros host_ip; split; intros H; in_inv.
  - intros inv ts Hinv Hts _. injection Hinv as <-.
    rewrite Htargets in Hts. injection Hts as <-.
    reflexivity.
  - intros _. exists inventory, (t :: targets). repeat split; congruence.
Qed.

Lemma missing_public_key_exits_1_witness :
  main (Trust.world_without_public_key Trust.one_master) "ubuntu" "key"
    "inventory.yml"
  = ([Loading "inventory.yml"; FoundTargets 1; TargetLine Trust.master1_target;
      Extracting "key"; PublicKeyNotFound "key.pub"; GenerateHint],
     Raise (SystemExit 1)).
Proof.
  exact (proj1 (proj2 (proj2
           (missing_public_key_exits_1
              (Trust.world_without_public_key Trust.one_master)
              "ubuntu" "key" "inventory.yml" eq_refl eq_refl)))
         Trust.one_master [Trust.master1_target] eq_refl eq_refl
         ltac:(discriminate)).
Defined.

(** *** Target extraction *)

Lemma add_targets_records (host_type : string)
    (host_items : list (string * Py.value)) :
  forall (records : list (string * list (string * Py.value)))
         (hosts : list target),
    Trust.host_records host_items = Some records ->
    for_each host_items (add_target host_type) hosts
    = Ok (hosts ++ Trust.targets_of host_type records).
Proof.
  induction host_items as [|[host_name host_vars] host_items IH];
    intros records hosts Hrec; cbn in Hrec.
  - injection Hrec as <-. cbn. rewrite app_nil_r. reflexivity.
  - destruct host_vars as [| | | | |vars]; try discriminate Hrec.
    destruct (Trust.host_records host_items) as [rest|]; [| discriminate Hrec].
    injection Hrec as <-. cbn [for_each add_target contains getitem Py.bind].
    unfold has_key. cbn [Trust.targets_of flat_map fst snd].
    fold (Trust.targets_of host_type rest).
    destruct (assoc "ansible_host" vars) as [address|]; cbn [Py.bind].
    + rewrite (IH rest _ eq_refl), <- app_assoc. reflexivity.
    + apply (IH rest _ eq_refl).
Qed.

Lemma add_group_records (inventory : Py.value) (group host_type : string)
    (records : list (string * list (string * Py.value))) (hosts : list target) :
  Trust.hosts_of inventory group = Some records ->
  add_group inventory group host_type hosts
  = Ok (hosts ++ Trust.targets_of host_type records).
Proof.
  unfold Trust.hosts_of, add_group. intros H.
  destruct inventory as [| | | | |top]; try discriminate H.
  cbn [Py.get getitem Py.bind].
  destruct (assoc "all" top) as [[| | | | |all_section]|]; try discriminate H.
  cbn [Py.get getitem Py.bind].
  destruct (assoc "children" all_section) as [[| | | | |children]|];
    try discriminate H.
  cbn [Py.get getitem contains Py.bind]. unfold has_key.
  destruct (assoc group children) as [[| | | | |group_section]|];
    try discriminate H; cbn [Py.get getitem Py.items Py.bind].
  - destruct (assoc "hosts" group_section) as [[| | | | |host_items]|];
      try discriminate H; cbn [Py.items Py.bind].
    + apply add_targets_records. exact H.
    + injection H as <-. cbn. rewrite app_nil_r. reflexivity.
  - injection H as <-. cbn. rewrite app_nil_r. reflexivity.
Qed.

Lemma targets_of_lacking (host_type : string)
    (records : list (string * list (string * Py.value))) :
  forallb Trust.lacks_address records = true ->
  Trust.targets_of host_type records = [].
Proof.
  induction records as [|[host_name vars] records IH]; cbn; [reflexivity |].
  unfold Trust.lacks_address at 1, has_key. cbn [snd].
  destruct (assoc "ansible_host" vars); cbn; [discriminate | exact IH].
Qed.

(** C10. The targets are the hosts of [masters] that have a connection
    address, in mapping order, followed by those of [workers]; a host
    without the field is left out.  When no host of either group has it,
    the list is empty and the run ends on the empty target list with
    status 1. *)
Theorem get_target_hosts_masters_then_workers (inventory : Py.value)
    (masters workers : list (string * list (string * Py.value))) :
  Trust.hosts_of inventory "masters" = Some masters ->
  Trust.hosts_of inventory "workers" = Some workers ->
  get_target_hosts inventory
  = Ok (Trust.targets_of "master" masters ++ Trust.targets_of "worker" workers)
  /\ (forallb Trust.lacks_address (masters ++ workers) = true ->
      get_target_hosts inventory = Ok []
      /\ forall (w : world) (user key inventory_arg : string),
           path_exists w (expanduser w key) = true ->
           safe_load w inventory_arg = Some inventory ->
           main w user key inventory_arg
           = ([Loading inventory_arg; NoTargets], Raise (SystemExit 1))).
Proof.
  intros Hm Hw.
  assert (Hrun : get_target_hosts inventory
                 = Ok (Trust.targets_of "master" masters
                         ++ Trust.targets_of "worker" workers)).
  { unfold get_target_hosts.
    rewrite (add_group_records _ _ _ _ _ Hm). cbn [Py.bind app].
    rewrite (add_group_records _ _ _ _ _ Hw). reflexivity. }
  split; [exact Hrun |].
  intros Hlack. rewrite forallb_app in Hlack.
  apply andb_prop in Hlack as [Hlm Hlw].
  rewrite (targets_of_lacking _ _ Hlm), (targets_of_lacking _ _ Hlw) in Hrun.
  split; [exact Hrun |].
  intros w user key inventory_arg Hpriv Hload.
  unfold main, load_inventory. rewrite Hpriv, Hload.
  cbn [negb io_bind io_ret emit lift fst snd app]. rewrite Hrun. reflexivity.
Qed.

Lemma get_target_hosts_masters_then_workers_witness :
  get_target_hosts Samples.good_inventory
  = Ok [ Target "master1" (VStr "10.0.0.11") "master";
         Target "worker1" (VStr "10.0.0.21") "worker" ]
  /\ main (Trust.world_without_public_key Trust.unaddressed_inventory)
       "ubuntu" "key" "inventory.yml"
     = ([Loading "inventory.yml"; NoTargets], Raise (SystemExit 1)).
Proof.
  split.
  - exact (proj1 (get_target_hosts_masters_then_workers Samples.good_inventory
                    [("master1", Samples.common_fields "10.0.0.11")]
                    [("worker1",
                      Samples.common_fields "10.0.0.21"
                        ++ [("mgmt_ip", VStr "10.0.0.21");
                            ("prod_data_ip", VStr "10.1.0.21")])]
                    eq_refl eq_refl)).
  - exact (proj2 (proj2 (get_target_hosts_masters_then_workers
                           Trust.unaddressed_inventory
                           [("master1", [("ansible_hostname", VStr "m1")])]
                           [("worker1", [("ansible_hostname", VStr "w1")])]
                           eq_refl eq_refl) eq_refl)
             (Trust.world_without_public_key Trust.unaddressed_inventory)
             "ubuntu" "key" "inventory.yml" eq_refl eq_refl).
Defined.

(** *** The two loops over the targets *)

Lemma checked_app (out out' : list event) :
  Verdict.checked (out ++ out') = Verdict.checked out ++ Verdict.checked out'.
Proof.
  induction out as [|ev out IH]; [reflexivity |].
  destruct ev; cbn; rewrite ?IH; reflexivity.
Qed.

(** The remote check always returns: every exception of the call is turned
    into a verdict. *)
Lemma check1_returns (w : world) (host_ip : Py.value)
    (user public_key private_key_path : string) :
  exists found error_msg,
    check_public_key_in_authorized_keys w host_ip user public_key
      private_key_path
    = ([RunSsh host_ip], Ok (found, error_msg)).
Proof.
  unfold check_public_key_in_authorized_keys.
  destruct (ssh_run w host_ip user public_key (expanduser w private_key_path))
    as [returncode stdout| |text]; cbn.
  - destruct ((returncode =? 0)%Z && substring_of "FOUND" stdout); cbn;
      [eauto |].
    destruct ((returncode =? 0)%Z && substring_of "NOT_FOUND" stdout); cbn;
      eauto.
  - eauto.
  - eauto.
Qed.

Lemma check2_returns (w : world) (host_ip : Py.value) (known_hosts_path : string) :
  exists out found,
    get_host_key_from_known_hosts w host_ip known_hosts_path = (out, Ok found)
    /\ Verdict.checked out = [].
Proof.
  unfold get_host_key_from_known_hosts.
  destruct (path_exists w known_hosts_path); cbn;
    [| do 2 eexists; split; reflexivity].
  destruct host_ip as [| | |address| |]; cbn;
    try (do 2 eexists; split; reflexivity).
  destruct (keygen_run w address known_hosts_path); cbn;
    do 2 eexists; split; reflexivity.
Qed.

(** Check 1 announces every target, in order, whatever the verdicts; its
    flag is the conjunction of the verdicts. *)
Lemma check1_loop (w : world) (user public_key private_key_path : string)
    (targets : list target) :
  forall (ok : bool) (failed : list (target * option string)),
  exists out failed',
    io_for_each targets (check1_step w user public_key private_key_path)
      (ok, failed)
    = (out,
       Ok (ok && forallb (Verdict.passes_check1 w user public_key
                            private_key_path) targets,
           failed'))
    /\ Verdict.checked out = targets.
Proof.
  induction targets as [|host targets IH]; intros ok failed.
  - exists [], failed. cbn. rewrite andb_true_r. split; reflexivity.
  - cbn [io_for_each forallb]. unfold check1_step at 1.
    unfold Verdict.passes_check1 at 1.
    destruct (check1_returns w (ip host) user public_key private_key_path)
      as [found [error_msg Hrun]].
    rewrite Hrun. cbn [io_bind emit io_ret fst snd app].
    destruct found; cbn [io_bind emit io_ret fst snd app].
    + destruct (IH ok failed) as [out [failed' [Hloop Hchecked]]].
      rewrite Hloop. eexists _, failed'.
      split; [reflexivity |]. cbn. rewrite Hchecked. reflexivity.
    + destruct (IH false (failed ++ [(host, error_msg)]))
        as [out [failed' [Hloop Hchecked]]].
      rewrite Hloop. eexists _, failed'. rewrite andb_false_r.
      split; [reflexivity |]. cbn. rewrite Hchecked. reflexivity.
Qed.

Lemma check2_loop (w : world) (known_hosts_path : string) (targets : list target) :
  forall (ok : bool) (missing : list target),
  exists out missing',
    io_for_each targets (check2_step w known_hosts_path) (ok, missing)
    = (out,
       Ok (ok && forallb (Verdict.passes_check2 w known_hosts_path) targets,
           missing'))
    /\ Verdict.checked out = targets.
Proof.
  induction targets as [|host targets IH]; intros ok missing.
  - exists [], missing. cbn. rewrite andb_true_r. split; reflexivity.
  - cbn [io_for_each forallb]. unfold check2_step at 1.
    unfold Verdict.passes_check2 at 1.
    destruct (check2_returns w (ip host) known_hosts_path)
      as [out2 [found [Hrun Hnone]]].
    rewrite Hrun. cbn [io_bind emit io_ret fst snd app].
    destruct found; cbn [io_bind emit io_ret fst snd app].
    + destruct (IH ok missing) as [out [missing' [Hloop Hchecked]]].
      rewrite Hloop. eexists _, missing'.
      split; [reflexivity |].
      cbn. rewrite !checked_app, Hnone. cbn. rewrite Hchecked. reflexivity.
    + destruct (IH false (missing ++ [host]))
        as [out [missing' [Hloop Hchecked]]].
      rewrite Hloop. eexists _, missing'. rewrite andb_false_r.
      split; [reflexivity |].
      cbn. rewrite !checked_app, Hnone. cbn. rewrite Hchecked. reflexivity.
Qed.

(** *** Aggregation of the verdicts *)

Lemma join_ips_raises (hosts : list target) (e : exn) :
  join_ips hosts = Raise e -> e = TypeError.
Proof.
  induction hosts as [|host hosts IH]; cbn; [discriminate |].
  destruct (ip host); try (intros H; injection H as <-; reflexivity).
  destruct (join_ips hosts) as [rest|e']; cbn; [discriminate |].
  intros H. injection H as <-. apply IH. reflexivity.
Qed.

Lemma checked_target_lines (targets : list target) :
  Verdict.checked (map TargetLine targets) = [].
Proof. induction targets; [reflexivity | exact IHtargets]. Qed.

(** Once the key files are there and the inventory has targets, both
    loops announce every target and the status is 0 exactly when every
    verdict of both checks is true. *)
Lemma main_exit_by_verdicts (w : world) (user key inventory_arg : string)
    (inventory : Py.value) (targets : list target) (text : string) :
  path_exists w (expanduser w key) = true ->
  safe_load w inventory_arg = Some inventory ->
  get_target_hosts inventory = Ok targets ->
  targets <> [] ->
  path_exists w (expanduser w key ++ ".pub") = true ->
  read_text w (expanduser w key ++ ".pub") = Some text ->
  strip text <> "" ->
  exit_status (snd (main w user key inventory_arg))
  = (if forallb (Verdict.passes_check1 w user (strip text) (expanduser w key))
          targets
        && forallb (Verdict.passes_check2 w
                      (expanduser w ("~" ++ user ++ "/.ssh/known_hosts")))
             targets
     then 0%Z else 1%Z)
  /\ Verdict.checked (fst (main w user key inventory_arg)) = targets ++ targets.
Proof.
  intros Hpriv Hload Htargets Hne Hpub Hread Hkey.
  unfold main, load_inventory. rewrite Hpriv, Hload.
  cbn [negb io_bind io_ret emit lift fst snd app]. rewrite Htargets.
  destruct targets as [|t targets]; [congruence |].
  set (ts := t :: targets) in *.
  change (CheckInventory.is_empty ts) with false.
  cbn [io_bind io_ret emit emit_all lift fst snd].
  unfold get_public_key_from_private. rewrite Hpub, Hread.
  cbn [negb io_bind io_ret emit emit_all lift fst snd key_of].
  destruct (String.eqb (strip text) "") eqn:Hempty;
    [apply String.eqb_eq in Hempty; contradiction |].
  destruct (check1_loop w user (strip text) (expanduser w key) ts true [])
    as [out1 [failed [H1 Hc1]]].
  destruct (check2_loop w (expanduser w ("~" ++ user ++ "/.ssh/known_hosts"))
              ts true [])
    as [out2 [missing [H2 Hc2]]].
  cbn [io_bind io_ret emit emit_all lift fst snd].
  rewrite H1. cbn [io_bind io_ret emit emit_all lift fst snd].
  rewrite H2. cbn [io_bind io_ret emit emit_all lift fst snd andb].
  destruct (forallb (Verdict.passes_check1 w user (strip text) (expanduser w key))
              ts);
    destruct (forallb (Verdict.passes_check2 w
                         (expanduser w ("~" ++ user ++ "/.ssh/known_hosts")))
                ts);
    cbn [io_bind io_ret emit emit_all lift sys_exit fst snd andb negb
           exit_status];
    try (destruct (join_ips missing) as [host_ips|e] eqn:Hjoin;
         [| apply join_ips_raises in Hjoin as ->];
         cbn [io_bind io_ret emit emit_all lift sys_exit fst snd andb negb
                exit_status]);
    (split; [reflexivity |]);
    repeat (rewrite ?checked_app, ?checked_target_lines, ?Hc1, ?Hc2;
            cbn [Verdict.checked app]);
    rewrite ?app_nil_r; reflexivity.
Qed.

(** *** The verdict on the output of the remote command *)

Lemma prefix_cons (c : ascii) (p s : string) :
  String.prefix (String c p) s = true ->
  exists s', s = String c s' /\ String.prefix p s' = true.
Proof.
  destruct s as [|a s]; cbn; [discriminate |].
  destruct (ascii_dec c a) as [<- |]; [eauto | discriminate].
Qed.

(** A text that contains [NOT_FOUND] contains [FOUND]. *)
Lemma NOT_FOUND_contains_FOUND (stdout : string) :
  substring_of "NOT_FOUND" stdout = true -> substring_of "FOUND" stdout = true.
Proof.
  induction stdout as [|c stdout IH]; cbn [substring_of]; intros H.
  - discriminate H.
  - apply orb_prop in H as [H | H].
    + apply prefix_cons in H as [rest [Heq H]]. injection Heq as -> ->.
      repeat (apply prefix_cons in H as [? [-> H]]).
      cbn. rewrite H. reflexivity.
    + rewrite (IH H). apply orb_true_r.
Qed.

(** So the test for [FOUND], which comes first, also takes the runs in
    which the remote command printed [NOT_FOUND]: the key is reported
    present. *)
Lemma key_absent_reported_found (w : world) (host_ip : Py.value)
    (user public_key private_key_path stdout : string) :
  ssh_run w host_ip user public_key (expanduser w private_key_path)
  = Completed 0 stdout ->
  substring_of "NOT_FOUND" stdout = true ->
  check_public_key_in_authorized_keys w host_ip user public_key private_key_path
  = ([RunSsh host_ip], Ok (true, None)).
Proof.
  intros Hrun Hout. unfold check_public_key_in_authorized_keys.
  rewrite Hrun. cbn. rewrite (NOT_FOUND_contains_FOUND _ Hout). reflexivity.
Qed.

(** C7.  One master; the remote command connects, does not find the key
    and prints [NOT_FOUND]; the host key is known.  The authorized-keys
    check reports the key as found and the run ends with status 0. *)
Theorem main_accepts_absent_key :
  ssh_run (Trust.world_key_absent Trust.one_master) (VStr "10.0.0.11") "ubuntu"
    "ssh-ed25519 AAAAC3Nza admin@bastion" "key"
  = Completed 0 ("NOT_FOUND" ++ Samples.newline)
  /\ check_public_key_in_authorized_keys
       (Trust.world_key_absent Trust.one_master) (VStr "10.0.0.11") "ubuntu"
       "ssh-ed25519 AAAAC3Nza admin@bastion" "key"
     = ([RunSsh (VStr "10.0.0.11")], Ok (true, None))
  /\ main (Trust.world_key_absent Trust.one_master) "ubuntu" "key"
       "inventory.yml"
     = ([ Loading "inventory.yml"; FoundTargets 1;
          TargetLine Trust.master1_target;
          Extracting "key"; Fingerprint "ssh-ed25519 AAAAC3Nza admin@bastion";
          Check1Header;
          Checking Trust.master1_target; RunSsh (VStr "10.0.0.11"); KeyFound;
          Check2Header; KnownHostsFile "~ubuntu/.ssh/known_hosts";
          Checking Trust.master1_target; RunSshKeygen (VStr "10.0.0.11");
          HostKeyFound;
          ResultHeader; Complete 1 ],
        Raise (SystemExit 0)).
Proof. repeat split; vm_compute; reflexivity. Qed.

(** Status 0 is reached on no other path: the key files are there, the
    inventory loads and has targets, and every verdict of both checks is
    true. *)
Lemma main_exit_0_verified (w : world) (user key inventory_arg : string) :
  exit_status (snd (main w user key inventory_arg)) = 0%Z ->
  path_exists w (expanduser w key) = true
  /\ path_exists w (expanduser w key ++ ".pub") = true
  /\ exists inventory targets text,
       safe_load w inventory_arg = Some inventory
       /\ get_target_hosts inventory = Ok targets
       /\ targets <> []
       /\ read_text w (expanduser w key ++ ".pub") = Some text
       /\ strip text <> ""
       /\ forallb (Verdict.passes_check1 w user (strip text) (expanduser w key))
            targets = true
       /\ forallb (Verdict.passes_check2 w
                     (expanduser w ("~" ++ user ++ "/.ssh/known_hosts")))
            targets = true.
Proof.
  intros H.
  destruct (path_exists w (expanduser w key)) eqn:Hpriv.
  2: { unfold main in H. rewrite Hpriv in H. discriminate H. }
  destruct (safe_load w inventory_arg) as [inventory|] eqn:Hload.
  2: { unfold main, load_inventory in H. rewrite Hpriv, Hload in H.
       discriminate H. }
  destruct (get_target_hosts inventory) as [targets|e] eqn:Htargets.
  2: { unfold main, load_inventory in H. rewrite Hpriv, Hload in H.
       cbn [negb io_bind io_ret emit lift fst snd app] in H.
       rewrite Htargets in H. cbn [io_bind lift fst snd] in H.
       rewrite (exit_status_ordinary (A := unit) e
                  (get_target_hosts_ordinary _ _ Htargets)) in H.
       discriminate H. }
  destruct targets as [|t targets].
  { unfold main, load_inventory in H. rewrite Hpriv, Hload in H.
    cbn [negb io_bind io_ret emit lift fst snd app] in H.
    rewrite Htargets in H. discriminate H. }
  destruct (path_exists w (expanduser w key ++ ".pub")) eqn:Hpub.
  2: { unfold main, load_inventory in H. rewrite Hpriv, Hload in H.
       cbn [negb io_bind io_ret emit lift fst snd app] in H.
       rewrite Htargets in H. unfold get_public_key_from_private in H.
       rewrite Hpub in H. discriminate H. }
  destruct (read_text w (expanduser w key ++ ".pub")) as [text|] eqn:Hread.
  2: { unfold main, load_inventory in H. rewrite Hpriv, Hload in H.
       cbn [negb io_bind io_ret emit lift fst snd app] in H.
       rewrite Htargets in H. unfold get_public_key_from_private in H.
       rewrite Hpub, Hread in H. discriminate H. }
  destruct (String.eqb (strip text) "") eqn:Hempty.
  { unfold main, load_inventory in H. rewrite Hpriv, Hload in H.
    cbn [negb io_bind io_ret emit lift fst snd app] in H.
    rewrite Htargets in H. unfold get_public_key_from_private in H.
    rewrite Hpub, Hread in H.
    cbn [CheckInventory.is_empty negb io_bind io_ret emit emit_all lift fst snd
           key_of] in H.
    rewrite Hempty in H. discriminate H. }
  apply String.eqb_neq in Hempty.
  assert (Hne : t :: targets <> []) by discriminate.
  destruct (main_exit_by_verdicts w user key inventory_arg inventory
              (t :: targets) text Hpriv Hload Htargets Hne Hpub Hread Hempty)
    as [Hstatus _].
  rewrite Hstatus in H.
  split; [reflexivity | split; [reflexivity |]].
  exists inventory, (t :: targets), text.
  destruct (forallb (Verdict.passes_check1 _ _ _ _) _);
    destruct (forallb (Verdict.passes_check2 _ _) _);
    try discriminate H.
  repeat split; auto.
Qed.

End TrustChecker.


Section AddressLiterals.

Import CheckInventory Literals.

(** *** Splitting and joining text *)

Lemma string_app_assoc (a b c : string) :
  ((a ++ b) ++ c = a ++ (b ++ c))%string.
Proof. induction a as [|x a IH]; cbn; [reflexivity | rewrite IH; reflexivity]. Qed.

Lemma has_char_app (c : ascii) (a b : string) :
  has_char c (a ++ b) = has_char c a || has_char c b.
Proof.
  induction a as [|x a IH]; cbn; [reflexivity |].
  rewrite IH, orb_assoc. reflexivity.
Qed.

Lemma eqb_app_cons_empty (a b : string) (c : ascii) :
  String.eqb (a ++ String c b) "" = false.
Proof. destruct a; reflexivity. Qed.

Lemma split_no_sep (sep : ascii) (a : string) :
  has_char sep a = false -> split sep a = [a].
Proof.
  induction a as [|c a IH]; cbn; [reflexivity |].
  intros H. apply orb_false_elim in H as [Hc Ha].
  rewrite Ascii.eqb_sym, Hc, (IH Ha). reflexivity.
Qed.

Lemma split_app_sep (sep : ascii) (a b : string) :
  has_char sep a = false ->
  split sep (a ++ String sep b) = a :: split sep b.
Proof.
  induction a as [|c a IH]; cbn.
  - intros _. rewrite Ascii.eqb_refl. reflexivity.
  - intros H. apply orb_false_elim in H as [Hc Ha].
    rewrite Ascii.eqb_sym, Hc, (IH Ha). reflexivity.
Qed.

Lemma split_join (sep : ascii) (parts : list string) :
  parts <> [] ->
  forallb (fun p => negb (has_char sep p)) parts = true ->
  split sep (join sep parts) = parts.
Proof.
  induction parts as [|p parts IH]; [congruence |].
  intros _ Hfree. cbn in Hfree. apply andb_prop in Hfree as [Hp Hrest].
  apply negb_true_iff in Hp.
  destruct parts as [|q parts].
  - cbn. apply split_no_sep, Hp.
  - change (join sep (p :: q :: parts))
      with (p ++ String sep (join sep (q :: parts)))%string.
    rewrite (split_app_sep _ _ _ Hp), IH; [reflexivity | congruence | exact Hrest].
Qed.

Lemma has_char_join (c sep : ascii) (parts : list string) :
  Ascii.eqb c sep = false ->
  forallb (fun p => negb (has_char c p)) parts = true ->
  has_char c (join sep parts) = false.
Proof.
  intros Hsep. induction parts as [|p parts IH]; [reflexivity |].
  intros Hfree. cbn in Hfree. apply andb_prop in Hfree as [Hp Hrest].
  apply negb_true_iff in Hp.
  destruct parts as [|q parts]; [exact Hp |].
  change (join sep (p :: q :: parts))
    with (p ++ String sep (join sep (q :: parts)))%string.
  rewrite has_char_app, Hp. cbn [has_char orb]. rewrite Hsep, (IH Hrest).
  reflexivity.
Qed.

Lemma join_app (sep : ascii) (xs ys : list string) :
  xs <> [] -> ys <> [] ->
  join sep (xs ++ ys) = (join sep xs ++ String sep (join sep ys))%string.
Proof.
  induction xs as [|x xs IH]; [congruence |]. intros _ Hys.
  destruct xs as [|x' xs].
  - destruct ys as [|y ys]; [congruence | reflexivity].
  - change (join sep ((x :: x' :: xs) ++ ys))
      with (x ++ String sep (join sep ((x' :: xs) ++ ys)))%string.
    rewrite IH; [| congruence | exact Hys].
    change (join sep (x :: x' :: xs))
      with (x ++ String sep (join sep (x' :: xs)))%string.
    rewrite string_app_assoc. reflexivity.
Qed.

Lemma partition_no_sep (sep : ascii) (s : string) :
  has_char sep s = false -> partition sep s = (s, false, EmptyString).
Proof.
  induction s as [|c s IH]; cbn; [reflexivity |].
  intros H. apply orb_false_elim in H as [Hc Hs].
  rewrite Ascii.eqb_sym, Hc, (IH Hs). reflexivity.
Qed.

(** *** Octets and prefix lengths, checked number by number *)

Lemma checked_below (P : nat -> bool) (N : nat) :
  forallb P (seq 0 (S N)) = true -> forall n, n <= N -> P n = true.
Proof.
  intros H n Hn. rewrite forallb_forall in H. apply H, in_seq. lia.
Qed.

Lemma octets_checked (n : nat) : n <= 255 -> octet_checked n = true.
Proof. apply checked_below. vm_compute. reflexivity. Qed.



Lemma separator_free_chars (p : string) :
  separator_free p = true ->
  has_char "." p = false /\ has_char ":" p = false
  /\ has_char "/" p = false /\ has_char "%" p = false.
Proof.
  unfold separator_free. intros H. apply negb_true_iff in H.
  apply orb_false_elim in H as [H Hpercent].
  apply orb_false_elim in H as [H Hslash].
  apply orb_false_elim in H as [Hdot Hcolon]. auto.
Qed.

Lemma octet_facts (n : nat) :
  n <= 255 ->
  parse_octet (str_of_nat n) = Ok (Z.of_nat n)
  /\ separator_free (str_of_nat n) = true
  /\ String.eqb (str_of_nat n) "" = false.
Proof.
  intros Hn. pose proof (octets_checked n Hn) as H. unfold octet_checked in H.
  apply andb_prop in H as [H Hne]. apply andb_prop in H as [Hparse Hfree].
  apply negb_true_iff in Hne.
  destruct (parse_octet (str_of_nat n)) as [z|e]; [| discriminate Hparse].
  apply Z.eqb_eq in Hparse as ->. auto.
Qed.


(** *** IPv4 literals *)

Lemma ipv4_literal_parses (s : string) :
  ipv4_literal s -> has_char "/" s = false /\ exists ip, IPv4Address s = Ok ip.
Proof.
  intros [a b c d Ha Hb Hc Hd]. unfold dotted_quad.
  destruct (octet_facts a Ha) as [Pa [Fa Na]].
  destruct (octet_facts b Hb) as [Pb [Fb _]].
  destruct (octet_facts c Hc) as [Pc [Fc _]].
  destruct (octet_facts d Hd) as [Pd [Fd _]].
  destruct (separator_free_chars _ Fa) as [Da [_ [Sa _]]].
  destruct (separator_free_chars _ Fb) as [Db [_ [Sb _]]].
  destruct (separator_free_chars _ Fc) as [Dc [_ [Sc _]]].
  destruct (separator_free_chars _ Fd) as [Dd [_ [Sd _]]].
  assert (Hslash : has_char "/"
                     (join "." [str_of_nat a; str_of_nat b; str_of_nat c;
                                str_of_nat d]) = false).
  { apply has_char_join; [reflexivity |].
    cbn [forallb]. rewrite Sa, Sb, Sc, Sd. reflexivity. }
  split; [exact Hslash |].
  unfold IPv4Address. rewrite Hslash. unfold v4_ip_int_from_string.
  rewrite split_join;
    [| discriminate | cbn [forallb]; rewrite Da, Db, Dc, Dd; reflexivity].
  cbn [join]. rewrite eqb_app_cons_empty.
  cbn [List.length Nat.eqb negb map_res]. rewrite Pa, Pb, Pc, Pd.
  cbn [Py.bind reraise_ValueError]. eauto.
Qed.

(** *** Groups of hexadecimal digits *)

Lemma hex_digits_free (c : ascii) (h : string) :
  is_hex_digit c = false ->
  all_chars is_hex_digit h = true ->
  has_char c h = false.
Proof.
  intros Hc. induction h as [|x h IH]; cbn; [reflexivity |].
  intros H. apply andb_prop in H as [Hx Hh]. rewrite (IH Hh), orb_false_r.
  destruct (Ascii.eqb_spec c x) as [-> |]; [congruence | reflexivity].
Qed.

Lemma hextet_facts (h : string) :
  is_hextet h = true ->
  String.eqb h "" = false
  /\ (exists z, parse_hextet h = Ok z)
  /\ separator_free h = true.
Proof.
  unfold is_hextet. intros H.
  apply andb_prop in H as [H Hhex]. apply andb_prop in H as [Hne Hlen].
  apply negb_true_iff in Hne. apply Nat.leb_le in Hlen.
  split; [exact Hne | split].
  - unfold parse_hextet, int16. rewrite Hhex, Hne. cbn [negb].
    destruct (Nat.ltb_spec 4 (String.length h)); [lia | eauto].
  - unfold separator_free.
    rewrite !(fun c Hc => hex_digits_free c h Hc Hhex) by reflexivity.
    reflexivity.
Qed.

(** A part of a literal is a group or the empty text standing by a
    [::]. *)
Lemma part_free (p : string) :
  p = EmptyString \/ is_hextet p = true -> separator_free p = true.
Proof.
  intros [-> | H]; [reflexivity | apply (hextet_facts _ H)].
Qed.

Lemma hextets_nonempty (groups : list string) :
  forallb is_hextet groups = true ->
  forallb (fun p => negb (String.eqb p "")) groups = true.
Proof.
  induction groups as [|g groups IH]; cbn; [reflexivity |].
  intros H. apply andb_prop in H as [Hg Hrest].
  destruct (hextet_facts _ Hg) as [-> _]. exact (IH Hrest).
Qed.

Lemma hextets_shift_in (groups : list string) :
  forallb is_hextet groups = true ->
  forall ip_int, exists z, shift_in_hextets groups ip_int = Ok z.
Proof.
  unfold shift_in_hextets.
  induction groups as [|g groups IH]; cbn [forallb for_each]; intros H ip_int.
  - eauto.
  - apply andb_prop in H as [Hg Hrest].
    destruct (hextet_facts _ Hg) as [_ [[z Hz] _]]. rewrite Hz. cbn [Py.bind].
    apply (IH Hrest).
Qed.

(** *** The search for [::] *)

Lemma find_skip_nonempty (inner : list string) :
  forallb (fun p => negb (String.eqb p "")) inner = true ->
  forall i skip_index, find_skip inner i skip_index = Ok skip_index.
Proof.
  induction inner as [|p inner IH]; cbn; [reflexivity |].
  intros H i skip_index. apply andb_prop in H as [Hp Hrest].
  apply negb_true_iff in Hp. rewrite Hp. apply (IH Hrest).
Qed.

Lemma find_skip_once (before after : list string) :
  forallb (fun p => negb (String.eqb p "")) before = true ->
  forallb (fun p => negb (String.eqb p "")) after = true ->
  forall i,
    find_skip (before ++ EmptyString :: after) i None
    = Ok (Some (i + List.length before)).
Proof.
  induction before as [|p before IH]; cbn [app forallb List.length find_skip];
    intros Hb Ha i.
  - cbn. rewrite (find_skip_nonempty _ Ha), Nat.add_0_r. reflexivity.
  - apply andb_prop in Hb as [Hp Hrest]. apply negb_true_iff in Hp.
    rewrite Hp, (IH Hrest Ha). f_equal. f_equal. lia.
Qed.

(** *** Text without a dot is no IPv4 address *)

Lemma IPv4Address_needs_dots (s : string) :
  has_char "." s = false -> IPv4Address s = Raise AddressValueError.
Proof.
  intros H. unfold IPv4Address, v4_ip_int_from_string.
  destruct (has_char "/" s); [reflexivity |].
  destruct (String.eqb s ""); [reflexivity |].
  rewrite (split_no_sep _ _ H). reflexivity.
Qed.

(** *** IPv6 literals *)

Lemma join_two_nonempty (sep : ascii) (p q : string) (rest : list string) :
  String.eqb (join sep (p :: q :: rest)) "" = false.
Proof.
  change (join sep (p :: q :: rest))
    with (p ++ String sep (join sep (q :: rest)))%string.
  apply eqb_app_cons_empty.
Qed.

Lemma separator_free_colon (parts : list string) :
  forallb separator_free parts = true ->
  forallb (fun p => negb (has_char ":" p)) parts = true.
Proof.
  induction parts as [|p parts IH]; cbn; [reflexivity |].
  intros H. apply andb_prop in H as [Hp Hrest].
  destruct (separator_free_chars _ Hp) as [_ [-> _]]. exact (IH Hrest).
Qed.

Lemma hextets_separator_free (groups : list string) :
  forallb is_hextet groups = true -> forallb separator_free groups = true.
Proof.
  induction groups as [|g groups IH]; cbn; [reflexivity |].
  intros H. apply andb_prop in H as [Hg Hrest].
  destruct (hextet_facts _ Hg) as [_ [_ ->]]. exact (IH Hrest).
Qed.

(** Rewrites with what is known of each group of an explicit list. *)
Ltac use_hextets :=
  repeat match goal with
    | H : is_hextet ?g = true |- _ =>
        let Hne := fresh "Hne" in
        let z := fresh "z" in
        let Hz := fresh "Hz" in
        let Hfree := fresh "Hfree" in
        destruct (hextet_facts g H) as [Hne [[z Hz] Hfree]];
        let Hdot := fresh "Hdot" in
        destruct (separator_free_chars g Hfree) as [Hdot _];
        clear H Hfree
    end.

Lemma v6_full_parses (groups : list string) :
  List.length groups = 8 ->
  forallb is_hextet groups = true ->
  exists ip, v6_ip_int_from_string (join ":" groups) = Ok ip.
Proof.
  intros Hlen Hhex.
  assert (Hsplit : split ":" (join ":" groups) = groups).
  { apply split_join; [destruct groups; discriminate |].
    apply separator_free_colon, hextets_separator_free, Hhex. }
  do 9 (destruct groups as [|? groups]; try discriminate Hlen). clear Hlen.
  cbn [forallb] in Hhex.
  repeat match type of Hhex with
    | (_ && _) = true => let H := fresh "Hg" in apply andb_prop in Hhex as [H Hhex]
    end.
  clear Hhex. use_hextets.
  unfold v6_ip_int_from_string. cbv zeta. rewrite Hsplit, join_two_nonempty.
  clear Hsplit.
  repeat (cbn [List.length Nat.ltb Nat.leb Nat.eqb Nat.add Nat.sub last hd
                 firstn skipn find_skip Py.bind negb HEXTET_COUNT
                 shift_in_hextets for_each reraise_ValueError is_ValueError];
          repeat match goal with
            | H : _ = _ |- _ => rewrite H
            end).
  eauto.
Qed.

Lemma pad_nonempty (groups : list string) : pad groups <> [].
Proof. destruct groups; discriminate. Qed.

Lemma join_pad (groups : list string) : join ":" (pad groups) = join ":" groups.
Proof. destruct groups; reflexivity. Qed.

Lemma compressed_as_join (hi lo : list string) :
  compressed hi lo = join ":" (pad hi ++ EmptyString :: pad lo).
Proof.
  rewrite join_app; [| apply pad_nonempty | discriminate].
  rewrite join_pad. unfold compressed.
  destruct lo as [|l lo]; reflexivity.
Qed.

Lemma pad_separator_free (groups : list string) :
  forallb is_hextet groups = true -> forallb separator_free (pad groups) = true.
Proof.
  destruct groups; [reflexivity | apply hextets_separator_free].
Qed.

Lemma v6_compressed_parses (hi lo : list string) :
  List.length hi + List.length lo <= 7 ->
  forallb is_hextet hi = true ->
  forallb is_hextet lo = true ->
  exists ip, v6_ip_int_from_string (compressed hi lo) = Ok ip.
Proof.
  intros Hlen Hhi Hlo. rewrite compressed_as_join.
  assert (Hsplit : split ":" (join ":" (pad hi ++ EmptyString :: pad lo))
                   = pad hi ++ EmptyString :: pad lo).
  { apply split_join; [destruct (pad hi); discriminate |].
    apply separator_free_colon. rewrite forallb_app. cbn [forallb].
    rewrite (pad_separator_free _ Hhi), (pad_separator_free _ Hlo).
    reflexivity. }
  destruct hi as [|? [|? [|? [|? [|? [|? [|? [|? hi]]]]]]]];
    cbn [List.length] in Hlen; try (exfalso; lia);
    destruct lo as [|? [|? [|? [|? [|? [|? [|? [|? lo]]]]]]]];
    cbn [List.length] in Hlen; try (exfalso; lia);
    clear Hlen; cbn [forallb] in Hhi, Hlo;
    repeat match goal with
      | H : (_ && _) = true |- _ =>
          let H1 := fresh "Hg" in
          let H2 := fresh "Hg" in
          apply andb_prop in H as [H1 H2]
      | H : true = true |- _ => clear H
      end;
    use_hextets;
    cbn [pad app] in Hsplit |- *;
    unfold v6_ip_int_from_string; cbv zeta;
    rewrite Hsplit, join_two_nonempty; clear Hsplit;
    repeat (cbn [List.length Nat.ltb Nat.leb Nat.eqb Nat.add Nat.sub last hd
                   firstn skipn find_skip Py.bind negb HEXTET_COUNT has_char
                   String.eqb shift_in_hextets for_each reraise_ValueError
                   is_ValueError];
            repeat match goal with
              | H : _ = _ |- _ => rewrite H
              end);
    eauto.
Qed.

Lemma forallb_weaken {A : Type} (f g : A -> bool) (l : list A) :
  (forall x, f x = true -> g x = true) ->
  forallb f l = true -> forallb g l = true.
Proof.
  intros Hfg. induction l as [|x l IH]; cbn; [reflexivity |].
  intros H. apply andb_prop in H as [Hx Hl]. rewrite (Hfg _ Hx), (IH Hl).
  reflexivity.
Qed.

(** Text joined with colons from parts without separators holds no dot,
    slash or percent sign. *)
Lemma colon_joined_free (parts : list string) :
  forallb separator_free parts = true ->
  has_char "." (join ":" parts) = false
  /\ has_char "/" (join ":" parts) = false
  /\ has_char "%" (join ":" parts) = false.
Proof.
  intros H. repeat split; (apply has_char_join; [reflexivity |]);
    revert H; apply forallb_weaken; intros p Hp;
    destruct (separator_free_chars _ Hp) as [Hdot [_ [Hslash Hpercent]]];
    rewrite ?Hdot, ?Hslash, ?Hpercent; reflexivity.
Qed.

Lemma ipv6_literal_parses (s : string) :
  ipv6_literal s ->
  has_char "/" s = false
  /\ IPv4Address s = Raise AddressValueError
  /\ exists ip, IPv6Address s = Ok (ip, None).
Proof.
  intros Hlit.
  assert (Hfree : has_char "." s = false /\ has_char "/" s = false
                  /\ has_char "%" s = false).
  { destruct Hlit as [groups _ Hhex | hi lo _ Hhi Hlo].
    - apply colon_joined_free, hextets_separator_free, Hhex.
    - rewrite compressed_as_join. apply colon_joined_free.
      rewrite forallb_app. cbn [forallb].
      rewrite (pad_separator_free _ Hhi), (pad_separator_free _ Hlo).
      reflexivity. }
  destruct Hfree as [Hdot [Hslash Hpercent]].
  split; [exact Hslash | split; [apply IPv4Address_needs_dots, Hdot |]].
  assert (Hparse : exists ip, v6_ip_int_from_string s = Ok ip).
  { destruct Hlit as [groups Hlen Hhex | hi lo Hlen Hhi Hlo].
    - apply v6_full_parses; assumption.
    - apply v6_compressed_parses; assumption. }
  destruct Hparse as [ip Hip]. exists ip.
  unfold IPv6Address, split_scope_id.
  rewrite Hslash, (partition_no_sep _ _ Hpercent). cbn. rewrite Hip. reflexivity.
Qed.

(** *** The two validators on literals *)


Lemma split_with_prefix (address : string) (prefixlen : nat) :
  has_char "/" address = false ->
  has_char "/" (str_of_nat prefixlen) = false ->
  split_addr_prefix (with_prefix address prefixlen)
  = Ok (address, Some (str_of_nat prefixlen)).
Proof.
  intros Ha Hp. unfold split_addr_prefix, with_prefix.
  change (address ++ "/" ++ str_of_nat prefixlen)%string
    with (address ++ String "/" (str_of_nat prefixlen))%string.
  rewrite (split_app_sep _ _ _ Ha), (split_no_sep _ _ Hp). reflexivity.
Qed.


(** *** The validators always answer *)

(** Case analysis on every test of the goal. *)
Ltac split_tests :=
  repeat match goal with
    | |- context [if ?b then _ else _] => destruct b
    end.

Lemma parse_octet_raises (s : string) (e : exn) :
  parse_octet s = Raise e -> e = ValueError.
Proof.
  unfold parse_octet, int10. split_tests; cbn; split_tests;
    intros H; inversion H; reflexivity.
Qed.

Lemma parse_hextet_raises (s : string) (e : exn) :
  parse_hextet s = Raise e -> e = ValueError.
Proof.
  unfold parse_hextet, int16. split_tests; intros H; inversion H; reflexivity.
Qed.

Lemma map_res_raises {A B : Type} (f : A -> res B) (l : list A) (e0 e : exn) :
  (forall a e', f a = Raise e' -> e' = e0) ->
  map_res f l = Raise e -> e = e0.
Proof.
  intros Hf. induction l as [|a l IH]; cbn; [discriminate |].
  destruct (f a) as [b|e'] eqn:Hfa; cbn.
  - destruct (map_res f l) as [bs|e'']; cbn; [discriminate |].
    intros H. injection H as <-. apply IH. reflexivity.
  - intros H. injection H as <-. exact (Hf _ _ Hfa).
Qed.

Lemma v4_ip_int_from_string_raises (s : string) (e : exn) :
  v4_ip_int_from_string s = Raise e -> e = AddressValueError.
Proof.
  unfold v4_ip_int_from_string. split_tests; try (intros H; inversion H; reflexivity).
  destruct (map_res parse_octet (split "." s)) as [bs|e'] eqn:Hmap; cbn;
    [discriminate |].
  rewrite (map_res_raises _ _ ValueError _ parse_octet_raises Hmap). cbn.
  intros H. inversion H. reflexivity.
Qed.

Lemma IPv4Address_raises (s : string) (e : exn) :
  IPv4Address s = Raise e -> e = AddressValueError.
Proof.
  unfold IPv4Address. destruct (has_char "/" s).
  - intros H. inversion H. reflexivity.
  - apply v4_ip_int_from_string_raises.
Qed.

Lemma find_skip_raises (inner : list string) (i : nat) (skip_index : option nat)
    (e : exn) :
  find_skip inner i skip_index = Raise e -> e = AddressValueError.
Proof.
  revert i skip_index. induction inner as [|p inner IH]; cbn; intros i skip_index.
  - discriminate.
  - destruct (String.eqb p ""); [destruct skip_index |]; try apply IH.
    intros H. inversion H. reflexivity.
Qed.

Lemma shift_in_hextets_raises (ps : list string) (ip_int : Z) (e : exn) :
  shift_in_hextets ps ip_int = Raise e -> e = ValueError.
Proof.
  unfold shift_in_hextets. revert ip_int.
  induction ps as [|p ps IH]; cbn; intros ip_int; [discriminate |].
  destruct (parse_hextet p) as [h|e'] eqn:Hp; cbn.
  - apply IH.
  - intros H. injection H as <-. exact (parse_hextet_raises _ _ Hp).
Qed.

Lemma v6_ip_int_from_string_raises (s : string) (e : exn) :
  v6_ip_int_from_string s = Raise e -> e = AddressValueError.
Proof.
  unfold v6_ip_int_from_string. cbv zeta.
  destruct (String.eqb s ""); [intros H; inversion H; reflexivity |].
  destruct (_ <? 3)%nat; [intros H; inversion H; reflexivity |].
  intros H. apply bind_Raise in H as [H | [parts [_ H]]].
  { destruct (has_char "." _); [| discriminate H].
    destruct (IPv4Address _) as [ip|e'] eqn:Hv4; [discriminate H |].
    rewrite (IPv4Address_raises _ _ Hv4) in H. inversion H. reflexivity. }
  destruct (_ <? _)%nat; [inversion H; reflexivity |].
  apply bind_Raise in H as [H | [skip_index [_ H]]];
    [exact (find_skip_raises _ _ _ _ H) |].
  apply bind_Raise in H as [H | [[[parts_hi parts_lo] parts_skipped] [_ H]]].
  { destruct skip_index as [skip_index|].
    - apply bind_Raise in H as [H | [hi [_ H]]];
        [revert H; split_tests; intros H; inversion H; reflexivity |].
      apply bind_Raise in H as [H | [lo [_ H]]];
        revert H; split_tests; intros H; inversion H; reflexivity.
    - revert H; split_tests; intros H; inversion H; reflexivity. }
  unfold reraise_ValueError in H.
  match type of H with
  | match ?m with _ => _ end = _ => destruct m as [ip|e'] eqn:Hshift
  end; [discriminate H |].
  apply bind_Raise in Hshift as [Hshift | [ip [_ Hshift]]];
    rewrite (shift_in_hextets_raises _ _ _ Hshift) in H;
    inversion H; reflexivity.
Qed.

Lemma IPv6Address_raises (s : string) (e : exn) :
  IPv6Address s = Raise e -> e = AddressValueError.
Proof.
  unfold IPv6Address, split_scope_id.
  destruct (has_char "/" s); [intros H; inversion H; reflexivity |].
  destruct (partition "%" s) as [[addr sep] scope_id].
  split_tests; cbn; try (intros H; inversion H; reflexivity).
  all: destruct (v6_ip_int_from_string addr) as [ip|e'] eqn:Hv6; cbn;
    [discriminate |];
    rewrite (v6_ip_int_from_string_raises _ _ Hv6);
    intros H; inversion H; reflexivity.
Qed.













End AddressLiterals.


Section ScannerProperties.

Import CheckInventory.

(** *** The accumulator of the scanner *)

(** X1. The list passed as [found] is only extended: scanning with an
    accumulator gives the accumulator followed by what the scan of the
    same data finds from an empty one. *)
Theorem find_placeholders_extends_found (data : Py.value) :
  forall (path : string) (found : list finding),
    find_placeholders data path found
    = found ++ find_placeholders data path [].
Proof.
  induction data as [| b | z | s | l IH | kvs IH] using value_nested_ind;
    intros path found; try (cbn; rewrite app_nil_r; reflexivity).
  - cbn [find_placeholders]. generalize 0%nat. revert found.
    induction l as [|item l IHl]; intros found i.
    + rewrite app_nil_r. reflexivity.
    + apply Forall_cons_iff in IH as [Hitem Hrest].
      rewrite (IHl Hrest (find_placeholders item (list_path path i) found)).
      rewrite (IHl Hrest (find_placeholders item (list_path path i) [])).
      rewrite (Hitem _ found), app_assoc. reflexivity.
  - cbn [find_placeholders]. revert found.
    induction kvs as [|[key value] kvs IHl]; intros found.
    + rewrite app_nil_r. reflexivity.
    + apply Forall_cons_iff in IH as [Hvalue Hrest]. cbn [snd] in Hvalue.
      destruct (negb (is_empty (check_placeholder value))).
      * rewrite (IHl Hrest (found ++ _)), (IHl Hrest ([] ++ _)).
        rewrite app_assoc. reflexivity.
      * rewrite (IHl Hrest (find_placeholders value _ found)).
        rewrite (IHl Hrest (find_placeholders value _ [])).
        rewrite (Hvalue _ found), app_assoc. reflexivity.
Qed.

(** *** What the scanner reports *)

Lemma find_placeholders_keeps_sound (data : Py.value) :
  forall (path : string) (found : list finding),
    Forall Extra.sound_finding found ->
    Forall Extra.sound_finding (find_placeholders data path found).
Proof.
  induction data as [| b | z | s | l IH | kvs IH] using value_nested_ind;
    intros path found Hfound; try exact Hfound.
  - cbn [find_placeholders]. generalize 0%nat. revert found Hfound.
    induction l as [|item l IHl]; intros found Hfound i; [exact Hfound |].
    apply Forall_cons_iff in IH as [Hitem Hrest].
    apply (IHl Hrest). apply Hitem, Hfound.
  - cbn [find_placeholders]. revert found Hfound.
    induction kvs as [|[key value] kvs IHl]; intros found Hfound;
      [exact Hfound |].
    apply Forall_cons_iff in IH as [Hvalue Hrest]. cbn [snd] in Hvalue.
    destruct (is_empty (check_placeholder value)) eqn:Hempty; cbn [negb].
    + apply (IHl Hrest). apply Hvalue, Hfound.
    + apply (IHl Hrest). apply Forall_app. split; [exact Hfound |].
      constructor; [| constructor].
      destruct value as [| | | s | |]; try discriminate Hempty.
      exists s. cbn [CheckInventory.value placeholders].
      repeat split. intros Hnil. rewrite Hnil in Hempty. discriminate Hempty.
Qed.

(** X2. Whatever the document, every record the scanner returns holds a
    string value together with the patterns of the table that this string
    matches, and there is at least one: a value that matches nothing, or
    that is not a string, is never reported. *)
Theorem find_placeholders_sound (data : Py.value) (path : string) (f : finding) :
  In f (find_placeholders data path []) -> Extra.sound_finding f.
Proof.
  intros Hin.
  pose proof (find_placeholders_keeps_sound data path [] (Forall_nil _)) as H.
  rewrite Forall_forall in H. apply H, Hin.
Qed.

Lemma find_placeholders_sound_witness :
  Extra.sound_finding
    (Finding "all.vars.dns_server" (VStr "<BASTION_IP>") ["<BASTION_IP>"]).
Proof.
  apply (find_placeholders_sound Samples.keyed_placeholder_inventory "").
  left. reflexivity.
Defined.



(** *** What the patterns match *)

Lemma search_compiled_prefixed (re : list Re.atom) (pre s : string) :
  Re.search_compiled re s = true -> Re.search_compiled re (pre ++ s) = true.
Proof.
  intros H. induction pre as [|c pre IH]; [exact H |].
  cbn [append Re.search_compiled]. rewrite IH. apply orb_true_r.
Qed.

Lemma match_here_literal (a : string) (re : list Re.atom) (s : string) :
  Re.match_here (Extra.literal a ++ re) (a ++ s) = Re.match_here re s.
Proof.
  induction a as [|c a IH]; [reflexivity |].
  cbn [Extra.literal app append Re.match_here Re.accepts].
  rewrite Ascii.eqb_refl, IH. destruct (Re.match_here re s); reflexivity.
Qed.

Lemma match_here_nil (s : string) : Re.match_here [] s = true.
Proof. destruct s; reflexivity. Qed.

Lemma match_here_digits (d : string) (re : list Re.atom) (s : string) :
  Ipaddress.isascii_isdigit d = true ->
  Re.match_here re s = true ->
  Re.match_here ((Re.Digit, true) :: re) (d ++ s) = true.
Proof.
  unfold Ipaddress.isascii_isdigit. intros Hd Hs.
  apply andb_prop in Hd as [Hne Hall].
  induction d as [|c d IH]; [discriminate Hne |].
  cbn in Hall. apply andb_prop in Hall as [Hc Hrest].
  cbn [append Re.match_here Re.accepts]. rewrite Hc.
  destruct d as [|c' d].
  - cbn [append]. rewrite Hs. reflexivity.
  - rewrite (IH eq_refl Hrest).
    destruct (Re.match_here re (String c' d ++ s)); reflexivity.
Qed.

Lemma match_here_literal_inv (a : string) (re : list Re.atom) :
  forall s,
    Re.match_here (Extra.literal a ++ re) s = true ->
    exists rest, s = (a ++ rest)%string /\ Re.match_here re rest = true.
Proof.
  induction a as [|c a IH]; intros s H; [exists s; split; [reflexivity | exact H] |].
  cbn [Extra.literal app] in H. destruct s as [|x s]; [discriminate H |].
  cbn [Re.match_here Re.accepts] in H.
  destruct (Ascii.eqb x c) eqn:Hx; [| discriminate H].
  apply Ascii.eqb_eq in Hx. subst x.
  destruct (Re.match_here (Extra.literal a ++ re) s) eqn:Hrest;
    [| discriminate H].
  destruct (IH s Hrest) as [rest [-> Hre]].
  exists rest. split; [reflexivity | exact Hre].
Qed.

Lemma match_here_digits_inv (re : list Re.atom) :
  forall s,
    Re.match_here ((Re.Digit, true) :: re) s = true ->
    exists d rest,
      Ipaddress.isascii_isdigit d = true
      /\ s = (d ++ rest)%string /\ Re.match_here re rest = true.
Proof.
  induction s as [|c s IH]; intros H; [discriminate H |].
  cbn [Re.match_here Re.accepts] in H.
  destruct (Re.is_digit c) eqn:Hc; [| discriminate H].
  destruct (Re.match_here re s) eqn:Hre.
  - exists (String c EmptyString), s.
    split; [| split; [reflexivity | exact Hre]].
    unfold Ipaddress.isascii_isdigit. cbn. rewrite Hc. reflexivity.
  - destruct (IH H) as [d [rest [Hd [-> Hrest]]]].
    exists (String c d), rest. split; [| split; [reflexivity | exact Hrest]].
    unfold Ipaddress.isascii_isdigit in Hd |- *.
    apply andb_prop in Hd as [_ Hall]. cbn. rewrite Hc, Hall. reflexivity.
Qed.

Lemma search_compiled_inv (re : list Re.atom) :
  forall s,
    Re.search_compiled re s = true ->
    exists pre rest, s = (pre ++ rest)%string /\ Re.match_here re rest = true.
Proof.
  induction s as [|c s IH]; intros H; cbn [Re.search_compiled] in H;
    apply orb_prop in H as [H | H].
  - exists EmptyString, EmptyString. split; [reflexivity | exact H].
  - discriminate H.
  - exists EmptyString, (String c s). split; [reflexivity | exact H].
  - destruct (IH H) as [pre [rest [-> Hrest]]].
    exists (String c pre), rest. split; [reflexivity | exact Hrest].
Qed.

Lemma search_compiled_here (re : list Re.atom) (s : string) :
  Re.match_here re s = true -> Re.search_compiled re s = true.
Proof. intros H. destruct s; cbn [Re.search_compiled]; rewrite H; reflexivity. Qed.

(** The patterns of the table, compiled. *)
Lemma patterns_compiled (pattern : string) :
  In pattern PLACEHOLDER_PATTERNS ->
  In pattern Extra.fixed_markers
  /\ Re.compile pattern = Extra.literal pattern ++ []
  \/ exists before after,
       In (before, after, pattern) Extra.numbered_markers
       /\ Re.compile pattern
          = Extra.literal before ++ (Re.Digit, true) :: Extra.literal after ++ [].
Proof.
  intros Hin. cbn in Hin.
  repeat (destruct Hin as [<- | Hin];
          [first [ left; split; [cbn; tauto | reflexivity]
                 | right; do 2 eexists; split; [cbn; eauto 10 | reflexivity] ] |]).
  contradiction.
Qed.

(** X4. A pattern of the table is reported for a string exactly when the
    string holds an instance of its marker: the fixed text of the four
    fixed markers, or, for the six numbered ones, the marker with one or
    more decimal digits as its number.  The instance may stand anywhere in
    the string. *)
Theorem placeholder_reported_iff_marker_present (pattern s : string) :
  In pattern (check_placeholder (VStr s))
  <-> exists pre text post,
        Extra.instance_of pattern text /\ s = (pre ++ text ++ post)%string.
Proof.
  unfold check_placeholder. rewrite filter_In. unfold Re.search. split.
  - intros [Hin Hsearch].
    apply search_compiled_inv in Hsearch as [pre [rest [-> Hhere]]].
    destruct (patterns_compiled pattern Hin)
      as [[Hfixed Hc] | [before [after [Hnum Hc]]]]; rewrite Hc in Hhere.
    + apply match_here_literal_inv in Hhere as [post [-> _]].
      exists pre, pattern, post. split; [| reflexivity].
      apply Extra.FixedInstance. exact Hfixed.
    + apply match_here_literal_inv in Hhere as [rest1 [-> Hhere]].
      apply match_here_digits_inv in Hhere as [d [rest2 [Hd [-> Hhere]]]].
      apply match_here_literal_inv in Hhere as [post [-> _]].
      exists pre, (before ++ d ++ after)%string, post.
      split; [apply (Extra.NumberedInstance _ _ _ _ Hnum Hd) |].
      rewrite !string_app_assoc. reflexivity.
  - intros [pre [text [post [Hinst ->]]]].
    destruct Hinst as [marker Hfixed | before after pattern d Hnum Hd].
    + assert (Hshape : In marker PLACEHOLDER_PATTERNS
                       /\ Re.compile marker = Extra.literal marker ++ []).
      { cbn in Hfixed.
        repeat (destruct Hfixed as [<- | Hfixed];
                [split; [cbn; tauto | reflexivity] |]).
        contradiction. }
      destruct Hshape as [Hin Hc]. split; [exact Hin |]. rewrite Hc.
      apply search_compiled_prefixed, search_compiled_here.
      rewrite match_here_literal. apply match_here_nil.
    + assert (Hshape : In pattern PLACEHOLDER_PATTERNS
                       /\ Re.compile pattern
                          = Extra.literal before
                              ++ (Re.Digit, true) :: Extra.literal after ++ []).
      { cbn in Hnum.
        repeat (destruct Hnum as [Heq | Hnum];
                [injection Heq as <- <- <-; split; [cbn; tauto | reflexivity] |]).
        contradiction. }
      destruct Hshape as [Hin Hc]. split; [exact Hin |]. rewrite Hc.
      apply search_compiled_prefixed, search_compiled_here.
      rewrite !string_app_assoc.
      rewrite match_here_literal. apply match_here_digits; [exact Hd |].
      rewrite match_here_literal. apply match_here_nil.
Qed.

Lemma placeholder_reported_iff_marker_present_witness :
  In "<WORKER\d+_MGMT_IP>"
    (check_placeholder (VStr "ip: <WORKER12_MGMT_IP>/24")).
Proof.
  apply (proj2 (placeholder_reported_iff_marker_present
                  "<WORKER\d+_MGMT_IP>" "ip: <WORKER12_MGMT_IP>/24")).
  exists "ip: ", "<WORKER12_MGMT_IP>", "/24". split; [| reflexivity].
  apply (Extra.NumberedInstance "<WORKER" "_MGMT_IP>" "<WORKER\d+_MGMT_IP>" "12");
    [cbn; tauto | reflexivity].
Defined.

Lemma search_needs_first_char (c : ascii) (plus : bool) (re : list Re.atom)
    (s : string) :
  Ipaddress.has_char c s = false ->
  Re.search_compiled ((Re.Lit c, plus) :: re) s = false.
Proof.
  induction s as [|x s IH]; [reflexivity |].
  cbn [Ipaddress.has_char]. intros H. apply orb_false_elim in H as [Hx Hs].
  cbn [Re.search_compiled Re.match_here Re.accepts].
  rewrite Ascii.eqb_sym, Hx, (IH Hs). reflexivity.
Qed.

(** X5. Every pattern of the table starts with [<]: a string without that
    character matches none of them and is never reported. *)
Theorem no_angle_bracket_no_placeholder (s : string) :
  Ipaddress.has_char "<" s = false -> check_placeholder (VStr s) = [].
Proof.
  intros H. unfold check_placeholder, PLACEHOLDER_PATTERNS, Re.search.
  cbn [filter].
  repeat match goal with
    | |- context [Re.search_compiled (Re.compile ?p) s] =>
        let re := eval vm_compute in (Re.compile p) in
        change (Re.compile p) with re;
        rewrite (search_needs_first_char _ _ _ _ H)
    end.
  reflexivity.
Qed.

Lemma no_angle_bracket_no_placeholder_witness :
  check_placeholder (VStr "10.0.0.11") = [].
Proof. exact (no_angle_bracket_no_placeholder "10.0.0.11" eq_refl). Defined.

End ScannerProperties.


(** Steps through a failing sequence of operations on values; what is left
    are the loops. *)
Ltac raise_steps H :=
  repeat match type of H with
    | Py.bind _ _ = Raise _ => apply bind_Raise in H as [H | [? [_ H]]]
    | contains _ _ = Raise _ => exact (contains_ordinary _ _ _ H)
    | getitem _ _ = Raise _ => exact (getitem_ordinary _ _ _ H)
    | Py.get _ _ _ = Raise _ => exact (get_ordinary _ _ _ _ H)
    | Py.items _ = Raise _ => exact (items_ordinary _ _ H)
    | (if ?b then _ else _) = Raise _ => destruct b
    | (let (_, _) := ?p in _) = Raise _ => destruct p
    | Ok _ = Raise _ => discriminate H
    end.

Section ValidatorRuns.

Import CheckInventory.

(** *** Exceptions of the two passes *)

Lemma check_host_ordinary (group : string) (errors : list string)
    (host : string * Py.value) (e : exn) :
  check_host group errors host = Raise e -> Trust.ordinary e.
Proof.
  destruct host as [host_name host_vars]. unfold check_host.
  destruct (host_type_of group); [| discriminate].
  apply for_each_ordinary. intros st field e' H. raise_steps H.
Qed.

Lemma check_group_ordinary (children : Py.value)
    (acc : list string * list string) (group : string) (e : exn) :
  check_group children acc group = Raise e -> Trust.ordinary e.
Proof.
  destruct acc as [errors warnings]. unfold check_group. intros H.
  raise_steps H.
  revert H. apply for_each_ordinary. intros ? ? ?. apply check_host_ordinary.
Qed.

Lemma validate_inventory_structure_ordinary (inventory : Py.value) (e : exn) :
  validate_inventory_structure inventory = Raise e -> Trust.ordinary e.
Proof.
  unfold validate_inventory_structure. intros H. raise_steps H.
  - revert H. apply for_each_ordinary. intros st var e' H'.
    unfold check_var in H'. raise_steps H'.
  - revert H. apply for_each_ordinary. intros ? ? ?. apply check_group_ordinary.
Qed.



(** *** The exit status of the validator *)



(** X7. As soon as the scanner returns a record, the run is decided by it:
    the result of the structural pass is printed, every record is listed
    with its path and value, the address pass is not run, the summary is
    the one about placeholders, without any count of errors even when the
    structural pass found some, and the status is 1. *)
Theorem findings_decide_the_run (w : world) (inventory_arg : string)
    (inventory : Py.value) (errors warnings : list string) :
  path_exists w inventory_arg = true ->
  safe_load w inventory_arg = Loaded inventory ->
  validate_inventory_structure inventory = Ok (errors, warnings) ->
  find_placeholders inventory "" [] <> [] ->
  main w inventory_arg
  = ([Validating inventory_arg; Rule; SyntaxValid]
       ++ Extra.structure_lines errors warnings
       ++ PlaceholdersFound
       :: map (fun item => PlaceholderLine (path item) (value item))
            (find_placeholders inventory "" [])
       ++ [PlaceholderAdvice; Rule; SummaryPlaceholders],
     Raise (SystemExit 1)).
Proof.
  intros Hex Hload Hstruct Hfound.
  unfold main, load_inventory, Extra.structure_lines. rewrite Hex, Hload.
  cbn [negb io_bind io_ret emit emit_all lift fst snd on_SystemExit_exit_1 app].
  rewrite Hstruct.
  destruct (find_placeholders inventory "" []) as [|f fs]; [congruence |].
  destruct errors, warnings; cbn; rewrite <- ?app_assoc; reflexivity.
Qed.

Lemma findings_decide_the_run_witness :
  main (Samples.validator_world Samples.keyed_placeholder_inventory)
    "inventory.yml"
  = ([ Validating "inventory.yml"; Rule; SyntaxValid; StructureValid;
       PlaceholdersFound;
       PlaceholderLine "all.vars.dns_server" (VStr "<BASTION_IP>");
       PlaceholderAdvice; Rule; SummaryPlaceholders ],
     Raise (SystemExit 1)).
Proof.
  exact (findings_decide_the_run
           (Samples.validator_world Samples.keyed_placeholder_inventory)
           "inventory.yml" Samples.keyed_placeholder_inventory [] []
           eq_refl eq_refl eq_refl ltac:(discriminate)).
Defined.

(** *** Early returns of the structural pass *)

Lemma vars_pass_report (all_section : list (string * Py.value)) :
  Report.vars_well_shaped all_section = true ->
  (has_vars <- contains "vars" (VDict all_section) ;;
   if negb has_vars then Ok ([] ++ ["Missing 'vars' section in 'all'"])
   else
     vars_section <- getitem (VDict all_section) "vars" ;;
     for_each REQUIRED_VARS (check_var vars_section) [])
  = Ok (Report.vars_errors all_section).
Proof.
  unfold Report.vars_well_shaped, Report.vars_errors.
  cbn [contains getitem Py.bind]. unfold has_key.
  destruct (assoc "vars" all_section) as [vars|]; [| reflexivity].
  destruct vars as [| | | | |vars]; try discriminate. intros _.
  cbn [negb Py.bind].
  exact (for_each_missing
           (fun var => ("Missing required variable: " ++ var)%string)
           vars REQUIRED_VARS []).
Qed.

(** X8. Without a [children] section under [all] the structural pass
    stops after the variables: it returns the errors of the variables, in
    the order of the table of required variables, followed by the one
    error about [children], with no warning, and no group is looked at. *)
Theorem structure_without_children
    (top all_section : list (string * Py.value)) :
  assoc "all" top = Some (VDict all_section) ->
  Report.vars_well_shaped all_section = true ->
  assoc "children" all_section = None ->
  validate_inventory_structure (VDict top)
  = Ok (Report.vars_errors all_section
          ++ ["Missing 'children' section in 'all'"], []).
Proof.
  intros Hall Hvars Hchildren.
  pose proof (vars_pass_report all_section Hvars) as Hpass.
  unfold validate_inventory_structure.
  cbn [contains getitem Py.bind] in Hpass |- *. unfold has_key in Hpass |- *.
  rewrite Hall. cbn [negb Py.bind contains getitem]. unfold has_key.
  rewrite Hpass, Hchildren. reflexivity.
Qed.

Lemma structure_without_children_witness :
  validate_inventory_structure
    (VDict [("all", VDict [("vars", VDict [("lb_vip_data", VStr "10.1.0.100")])])])
  = Ok ([ "Missing required variable: ansible_python_interpreter";
          "Missing required variable: control_vlan_network";
          "Missing required variable: control_vlan_gateway";
          "Missing required variable: data_vlan_network";
          "Missing required variable: data_vlan_gateway";
          "Missing required variable: lb_vip_control";
          "Missing 'children' section in 'all'" ], []).
Proof.
  exact (structure_without_children
           [("all", VDict [("vars", VDict [("lb_vip_data", VStr "10.1.0.100")])])]
           [("vars", VDict [("lb_vip_data", VStr "10.1.0.100")])]
           eq_refl eq_refl eq_refl).
Defined.

(** X9. A document that is no container ([None], which an empty file
    parses to, a boolean or an integer) is not reported as invalid: the
    structural pass raises [TypeError] on its first test, and the run ends
    there, uncaught, with status 1, right after the line that declares the
    YAML syntax valid. *)
Theorem no_container_document_crashes (w : world) (inventory_arg : string)
    (inventory : Py.value) :
  Extra.no_container inventory = true ->
  path_exists w inventory_arg = true ->
  safe_load w inventory_arg = Loaded inventory ->
  validate_inventory_structure inventory = Raise TypeError
  /\ main w inventory_arg
     = ([Validating inventory_arg; Rule; SyntaxValid], Raise TypeError)
  /\ exit_status (snd (main w inventory_arg)) = 1%Z.
Proof.
  intros Hkind Hex Hload.
  assert (Hraise : validate_inventory_structure inventory = Raise TypeError).
  { destruct inventory; try discriminate Hkind; reflexivity. }
  assert (Hmain : main w inventory_arg
                  = ([Validating inventory_arg; Rule; SyntaxValid],
                     Raise TypeError)).
  { unfold main, load_inventory. rewrite Hex, Hload.
    cbn [negb io_bind io_ret emit emit_all lift fst snd on_SystemExit_exit_1 app].
    rewrite Hraise. reflexivity. }
  split; [exact Hraise | split; [exact Hmain |]]. rewrite Hmain. reflexivity.
Qed.

Lemma no_container_document_crashes_witness :
  main (Samples.validator_world VNone) "inventory.yml"
  = ([Validating "inventory.yml"; Rule; SyntaxValid], Raise TypeError).
Proof.
  exact (proj1 (proj2 (no_container_document_crashes
                         (Samples.validator_world VNone) "inventory.yml" VNone
                         eq_refl eq_refl eq_refl))).
Defined.

(** *** The address pass misses no rejected string *)

Lemma check_field_grows (validate : string -> res bool)
    (message : string -> string) (section : Py.value) (field : string)
    (errors errors' : list string) :
  check_field validate message section field errors = Ok errors' ->
  incl errors errors'.
Proof.
  intros H. apply check_field_cases in H as [-> | [s [_ ->]]].
  - apply incl_refl.
  - apply incl_appl, incl_refl.
Qed.

Lemma check_field_reports (validate : string -> res bool)
    (message : string -> string) (section : Py.value) (field s : string)
    (errors errors' : list string) :
  Sources.rejected_string validate section field s ->
  check_field validate message section field errors = Ok errors' ->
  In (message s) errors'.
Proof.
  intros [Hget Hrej]. unfold check_field.
  destruct section as [| | | | |kvs]; try discriminate Hget.
  cbn [contains getitem Py.bind] in Hget |- *. unfold has_key.
  destruct (assoc field kvs) as [value|]; [| discriminate Hget].
  injection Hget as ->. cbn [Py.bind]. rewrite Hrej. cbn [Py.bind negb].
  intros H. injection H as <-. apply in_or_app. right. left. reflexivity.
Qed.

(** A loop whose body only extends the list only extends it. *)
Lemma for_each_grows {A B : Type} (xs : list A)
    (body : list B -> A -> res (list B)) :
  (forall st x st', In x xs -> body st x = Ok st' -> incl st st') ->
  forall st st', for_each xs body st = Ok st' -> incl st st'.
Proof.
  intros Hbody st st' Hrun.
  apply (for_each_invariant (fun cur => incl st cur) xs body) with (st := st);
    [| apply incl_refl | exact Hrun].
  intros cur x cur' Hin Hcur Hstep.
  exact (incl_tran Hcur (Hbody cur x cur' Hin Hstep)).
Qed.

(** What the body adds at one element of the loop is in the result. *)
Lemma for_each_keeps {A B : Type} (m : B) (x : A) (xs : list A)
    (body : list B -> A -> res (list B)) :
  (forall st y st', In y xs -> body st y = Ok st' -> incl st st') ->
  (forall st st', body st x = Ok st' -> In m st') ->
  In x xs ->
  forall st st', for_each xs body st = Ok st' -> In m st'.
Proof.
  induction xs as [|y ys IH]; intros Hgrow Hhit Hin st st' Hrun; [destruct Hin |].
  cbn in Hrun. apply bind_Ok in Hrun as [st1 [H1 Hrest]].
  assert (Hgrow' : forall st y st',
             In y ys -> body st y = Ok st' -> incl st st').
  { intros cur z cur' Hz. apply Hgrow. right. exact Hz. }
  destruct Hin as [-> | Hin].
  - apply (for_each_grows ys body Hgrow' st1 st' Hrest). exact (Hhit st st1 H1).
  - exact (IH Hgrow' Hhit Hin st1 st' Hrest).
Qed.

Lemma check_host_ips_grows (errors errors' : list string)
    (host : string * Py.value) :
  check_host_ips errors host = Ok errors' -> incl errors errors'.
Proof.
  destruct host as [host_name host_vars]. unfold check_host_ips. intros H.
  apply bind_Ok in H as [errors1 [H1 H]].
  apply bind_Ok in H as [errors2 [H2 H]].
  apply check_field_grows in H1. apply check_field_grows in H2.
  apply for_each_grows in H;
    [| intros st x st' _ Hstep; exact (check_field_grows _ _ _ _ _ _ Hstep)].
  exact (incl_tran H1 (incl_tran H2 H)).
Qed.

Lemma check_host_ips_reports (errors errors' : list string)
    (host_name : string) (host_vars : Py.value) (field s : string) :
  In field Sources.host_ip_fields ->
  Sources.rejected_string validate_ip_address host_vars field s ->
  check_host_ips errors (host_name, host_vars) = Ok errors' ->
  In (host_ip_error host_name field s) errors'.
Proof.
  intros Hfield Hrej. unfold check_host_ips. intros H.
  apply bind_Ok in H as [errors1 [H1 H]].
  apply bind_Ok in H as [errors2 [H2 H]].
  pose proof (check_field_grows _ _ _ _ _ _ H2) as Hgrow2.
  assert (Hgrow3 : incl errors2 errors').
  { apply (for_each_grows _ _
             (fun st x st' _ Hstep => check_field_grows _ _ _ _ _ _ Hstep)
             _ _ H). }
  destruct Hfield as [<- | [<- | Hfield]].
  - apply Hgrow3, Hgrow2. exact (check_field_reports _ _ _ _ _ _ _ Hrej H1).
  - apply Hgrow3. exact (check_field_reports _ _ _ _ _ _ _ Hrej H2).
  - revert H.
    apply (for_each_keeps (host_ip_error host_name field s) field
             ["mgmt_ip"; "prod_data_ip"]).
    + intros st x st' _ Hstep. exact (check_field_grows _ _ _ _ _ _ Hstep).
    + intros st st' Hstep. exact (check_field_reports _ _ _ _ _ _ _ Hrej Hstep).
    + exact Hfield.
Qed.

Lemma check_group_ips_grows (errors errors' : list string)
    (group : string * Py.value) :
  check_group_ips errors group = Ok errors' -> incl errors errors'.
Proof.
  destruct group as [group_name group_section]. unfold check_group_ips.
  intros H. apply bind_Ok in H as [has_hosts [_ H]].
  destruct has_hosts; cbn [negb] in H;
    [| injection H as <-; apply incl_refl].
  apply bind_Ok in H as [hosts [_ H]].
  apply bind_Ok in H as [host_items [_ H]].
  apply (for_each_grows host_items check_host_ips); [| exact H].
  intros st x st' _ Hstep. exact (check_host_ips_grows _ _ _ Hstep).
Qed.

Lemma check_group_ips_reports (errors errors' : list string)
    (group_name : string) (group_section hosts host_vars : Py.value)
    (host_items : list (string * Py.value)) (host_name field s : string) :
  getitem group_section "hosts" = Ok hosts ->
  Py.items hosts = Ok host_items ->
  In (host_name, host_vars) host_items ->
  In field Sources.host_ip_fields ->
  Sources.rejected_string validate_ip_address host_vars field s ->
  check_group_ips errors (group_name, group_section) = Ok errors' ->
  In (host_ip_error host_name field s) errors'.
Proof.
  intros Hhosts Hitems Hhost Hfield Hrej. unfold check_group_ips.
  destruct group_section as [| | | | |kvs]; try discriminate Hhosts.
  cbn [contains getitem Py.bind] in Hhosts |- *. unfold has_key.
  destruct (assoc "hosts" kvs) as [value|]; [| discriminate Hhosts].
  injection Hhosts as ->. cbn [negb Py.bind]. rewrite Hitems. cbn [Py.bind].
  apply (for_each_keeps (host_ip_error host_name field s)
           (host_name, host_vars) host_items check_host_ips).
  - intros st x st' _ Hstep. exact (check_host_ips_grows _ _ _ Hstep).
  - intros st st' Hstep.
    exact (check_host_ips_reports _ _ _ _ _ _ Hfield Hrej Hstep).
  - exact Hhost.
Qed.

(** X10. The address pass misses nothing it is meant to test: when it
    returns, every designated field (the two network variables, the four
    address variables, the four address fields of every host of every
    group under [children]) that holds a string rejected by its validator
    has its message among the errors, and the list of warnings is empty. *)
Theorem ip_errors_complete (inventory : Py.value)
    (errors warnings : list string) :
  validate_ip_addresses inventory = Ok (errors, warnings) ->
  warnings = []
  /\ forall msg, Sources.ip_error_source inventory msg -> In msg errors.
Proof.
  unfold validate_ip_addresses. intros H.
  apply bind_Ok in H as [all_section [Hall H]].
  apply bind_Ok in H as [children [Hchildren H]].
  apply bind_Ok in H as [vars_section [Hvars H]].
  apply bind_Ok in H as [errors1 [H1 H]].
  apply bind_Ok in H as [errors2 [H2 H]].
  apply bind_Ok in H as [groups [Hgroups H]].
  apply bind_Ok in H as [errors3 [H3 H]].
  injection H as <- <-. split; [reflexivity |].
  assert (G2 : incl errors1 errors2).
  { apply (for_each_grows _ _
             (fun st x st' _ Hstep => check_field_grows _ _ _ _ _ _ Hstep)
             _ _ H2). }
  assert (G3 : incl errors2 errors3).
  { apply (for_each_grows groups check_group_ips); [| exact H3].
    intros st x st' _ Hstep. exact (check_group_ips_grows _ _ _ Hstep). }
  intros msg Hsrc.
  destruct Hsrc as
    [all' vars' var s Hall' Hvars' Hvar Hrej ->
    |all' vars' var s Hall' Hvars' Hvar Hrej ->
    |all' children' group_section hosts host_vars groups' host_items
       group_name host_name field s
       Hall' Hchildren' Hgroups' Hgroup Hhosts Hitems Hhost Hfield Hrej ->].
  - rewrite Hall in Hall'. injection Hall' as <-.
    rewrite Hvars in Hvars'. injection Hvars' as <-.
    apply G3, G2. revert H1.
    apply (for_each_keeps (network_var_error var s) var
             ["control_vlan_network"; "data_vlan_network"]
             (fun errors var =>
                check_field validate_ip_network (network_var_error var)
                  vars_section var errors)).
    + intros st x st' _ Hstep. exact (check_field_grows _ _ _ _ _ _ Hstep).
    + intros st st' Hstep. exact (check_field_reports _ _ _ _ _ _ _ Hrej Hstep).
    + exact Hvar.
  - rewrite Hall in Hall'. injection Hall' as <-.
    rewrite Hvars in Hvars'. injection Hvars' as <-.
    apply G3. revert H2.
    apply (for_each_keeps (ip_var_error var s) var
             ["control_vlan_gateway"; "data_vlan_gateway";
              "lb_vip_control"; "lb_vip_data"]
             (fun errors var =>
                check_field validate_ip_address (ip_var_error var)
                  vars_section var errors)).
    + intros st x st' _ Hstep. exact (check_field_grows _ _ _ _ _ _ Hstep).
    + intros st st' Hstep. exact (check_field_reports _ _ _ _ _ _ _ Hrej Hstep).
    + exact Hvar.
  - rewrite Hall in Hall'. injection Hall' as <-.
    rewrite Hchildren in Hchildren'. injection Hchildren' as <-.
    rewrite Hgroups in Hgroups'. injection Hgroups' as <-.
    revert H3.
    apply (for_each_keeps (host_ip_error host_name field s)
             (group_name, group_section) groups check_group_ips).
    + intros st x st' _ Hstep. exact (check_group_ips_grows _ _ _ Hstep).
    + intros st st' Hstep.
      exact (check_group_ips_reports _ _ _ _ _ _ _ _ _ _
               Hhosts Hitems Hhost Hfield Hrej Hstep).
    + exact Hgroup.
Qed.

Lemma ip_errors_complete_witness :
  In "Invalid network format in data_vlan_network: 10.0.0.0/99"
     ["Invalid network format in data_vlan_network: 10.0.0.0/99"].
Proof.
  refine (proj2 (ip_errors_complete Sources.mixed_inventory
                   ["Invalid network format in data_vlan_network: 10.0.0.0/99"]
                   [] _) _ _).
  - vm_compute. reflexivity.
  - apply (Sources.FromNetworkVar Sources.mixed_inventory _
             (VDict
                [ ("vars",
                   VDict [ ("control_vlan_gateway", VInt 5);
                           ("data_vlan_network", VStr "10.0.0.0/99") ]);
                  ("children",
                   VDict
                     [ ("masters",
                        VDict [("hosts",
                                VDict [("master1",
                                        VDict [("ansible_host", VInt 7)])])]) ]) ])
             (VDict [ ("control_vlan_gateway", VInt 5);
                      ("data_vlan_network", VStr "10.0.0.0/99") ])
             "data_vlan_network" "10.0.0.0/99").
    + reflexivity.
    + reflexivity.
    + right. left. reflexivity.
    + split; vm_compute; reflexivity.
    + reflexivity.
Defined.

End ValidatorRuns.

(** ** Edges of the two address validators *)

Section AddressEdges.

Import CheckInventory Literals.

(** X11. Whatever the text, an address the address validator accepts is
    accepted by the network validator too: a network variable that holds a
    bare address, with no prefix length, passes the address pass. *)
Theorem accepted_address_is_accepted_network (s : string) :
  validate_ip_address s = Ok true -> validate_ip_network s = Ok true.
Proof.
  unfold validate_ip_address, validate_ip_network, ip_address, ip_network.
  destruct (IPv4Address s) as [ip|e] eqn:Hv4.
  - intros _.
    assert (Hslash : has_char "/" s = false).
    { unfold IPv4Address in Hv4. destruct (has_char "/" s);
        [discriminate Hv4 | reflexivity]. }
    unfold IPv4Network, split_addr_prefix. rewrite (split_no_sep _ _ Hslash).
    cbn [Py.bind]. rewrite Hv4.
    change (v4_make_netmask None)
      with (Ok (ip_int_from_prefix IPV4LENGTH IPV4LENGTH, IPV4LENGTH)).
    cbn [Py.bind]. destruct (negb _); reflexivity.
  - pose proof (IPv4Address_raises _ _ Hv4) as He. subst e.
    destruct (IPv6Address s) as [[ip scope]|e'] eqn:Hv6.
    + intros _.
      assert (Hslash : has_char "/" s = false).
      { unfold IPv6Address in Hv6. destruct (has_char "/" s);
          [discriminate Hv6 | reflexivity]. }
      unfold IPv4Network, IPv6Network, split_addr_prefix.
      rewrite (split_no_sep _ _ Hslash).
      cbn [Py.bind]. rewrite Hv4, Hv6.
      change (v6_make_netmask None)
        with (Ok (ip_int_from_prefix IPV6LENGTH IPV6LENGTH, IPV6LENGTH)).
      cbn [Py.bind]. destruct (negb _); reflexivity.
    + rewrite (IPv6Address_raises _ _ Hv6). discriminate.
Qed.

Lemma accepted_address_is_accepted_network_witness :
  validate_ip_network "10.0.0.1" = Ok true.
Proof.
  apply (accepted_address_is_accepted_network "10.0.0.1").
  vm_compute. reflexivity.
Defined.

(** X12. No text with a slash is an address: the address validator
    answers invalid on it, so a network in CIDR form written in an address
    field is always reported. *)
Theorem address_with_slash_rejected (s : string) :
  has_char "/" s = true -> validate_ip_address s = Ok false.
Proof.
  intros H. unfold validate_ip_address, ip_address, IPv4Address, IPv6Address.
  rewrite H. reflexivity.
Qed.

Lemma address_with_slash_rejected_witness :
  validate_ip_address "10.0.0.0/24" = Ok false.
Proof.
  apply (address_with_slash_rejected "10.0.0.0/24"). reflexivity.
Defined.

(** *** Decimal text of a number *)

Lemma uint_digits (d : Decimal.uint) :
  all_chars Re.is_digit (DecimalString.NilEmpty.string_of_uint d) = true.
Proof. induction d; cbn; try reflexivity; exact IHd. Qed.

Lemma uint_value (d : Decimal.uint) :
  forall acc,
    int10_aux (Z.of_nat acc) (DecimalString.NilEmpty.string_of_uint d)
    = Z.of_nat (Nat.of_uint_acc d acc).
Proof.
  induction d; intros acc;
    cbn [DecimalString.NilEmpty.string_of_uint int10_aux Nat.of_uint_acc];
    [reflexivity | ..];
    rewrite <- IHd; f_equal; rewrite Nat.tail_mul_spec;
    unfold digit_value;
    match goal with
    | |- context [Z.of_nat (nat_of_ascii ?c)] =>
        let v := eval vm_compute in (Z.of_nat (nat_of_ascii c)) in
        change (Z.of_nat (nat_of_ascii c)) with v
    end; lia.
Qed.

Lemma str_of_nat_facts (n : nat) :
  String.eqb (str_of_nat n) "" = false
  /\ all_chars Re.is_digit (str_of_nat n) = true
  /\ int10_aux 0 (str_of_nat n) = Z.of_nat n.
Proof.
  unfold str_of_nat. split; [| split].
  - pose proof (DecimalNat.Unsigned.of_to n) as Hn.
    destruct (Nat.to_uint n) eqn:Hd; try reflexivity.
    cbn in Hn. subst n. discriminate Hd.
  - apply uint_digits.
  - change 0%Z with (Z.of_nat 0). rewrite uint_value.
    f_equal. apply DecimalNat.Unsigned.of_to.
Qed.

Lemma digits_free (c : ascii) (s : string) :
  Re.is_digit c = false ->
  all_chars Re.is_digit s = true ->
  has_char c s = false.
Proof.
  intros Hc. induction s as [|x s IH]; cbn; [reflexivity |].
  intros H. apply andb_prop in H as [Hx Hs]. rewrite (IH Hs), orb_false_r.
  destruct (Ascii.eqb c x) eqn:E; [| reflexivity].
  apply Ascii.eqb_eq in E. subst x. congruence.
Qed.

Lemma prefix_too_long (max_prefixlen : Z) (n : nat) :
  (max_prefixlen < Z.of_nat n)%Z ->
  prefix_from_prefix_string max_prefixlen (str_of_nat n)
  = Raise NetmaskValueError.
Proof.
  intros Hn. destruct (str_of_nat_facts n) as [Hne [Hdigits Hvalue]].
  unfold prefix_from_prefix_string, isascii_isdigit, int10.
  rewrite Hne, Hdigits, Hvalue. cbn [negb andb].
  destruct (int_max_str_digits <? String.length (str_of_nat n))%nat;
    [reflexivity |].
  cbn [reraise_ValueError Py.bind].
  replace (Z.of_nat n <=? max_prefixlen)%Z with false
    by (symmetry; apply Z.leb_gt; exact Hn).
  rewrite andb_false_r. reflexivity.
Qed.

Lemma v4_ip_int_needs_dots (s : string) :
  has_char "." s = false -> v4_ip_int_from_string s = Raise AddressValueError.
Proof.
  intros H. unfold v4_ip_int_from_string.
  destruct (String.eqb s ""); [reflexivity |].
  rewrite (split_no_sep _ _ H). reflexivity.
Qed.

Lemma IPv6Address_needs_colons (s : string) :
  has_char ":" s = false -> has_char "%" s = false ->
  IPv6Address s = Raise AddressValueError.
Proof.
  intros Hcolon Hpercent. unfold IPv6Address, split_scope_id.
  destruct (has_char "/" s); [reflexivity |].
  rewrite (partition_no_sep _ _ Hpercent). cbn [negb Py.bind].
  unfold v6_ip_int_from_string.
  destruct (String.eqb s ""); [reflexivity |].
  rewrite (split_no_sep _ _ Hcolon). reflexivity.
Qed.

Lemma ipv4_literal_free (s : string) :
  ipv4_literal s -> has_char ":" s = false /\ has_char "%" s = false.
Proof.
  intros [a b c d Ha Hb Hc Hd]. unfold dotted_quad.
  destruct (octet_facts a Ha) as [_ [Fa _]].
  destruct (octet_facts b Hb) as [_ [Fb _]].
  destruct (octet_facts c Hc) as [_ [Fc _]].
  destruct (octet_facts d Hd) as [_ [Fd _]].
  destruct (separator_free_chars _ Fa) as [_ [Ca [_ Pa]]].
  destruct (separator_free_chars _ Fb) as [_ [Cb [_ Pb]]].
  destruct (separator_free_chars _ Fc) as [_ [Cc [_ Pc]]].
  destruct (separator_free_chars _ Fd) as [_ [Cd [_ Pd]]].
  split; (apply has_char_join; [reflexivity |]); cbn [forallb].
  - rewrite Ca, Cb, Cc, Cd. reflexivity.
  - rewrite Pa, Pb, Pc, Pd. reflexivity.
Qed.

(** X13. A prefix length beyond the range of the family is never
    accepted: whatever the IPv4 literal and the number above 32, whatever
    the IPv6 literal and the number above 128, the network validator
    answers invalid on the literal followed by a slash and the number. *)
Theorem out_of_range_prefix_rejected (address : string) (prefixlen : nat) :
  ipv4_literal address /\ 32 < prefixlen
  \/ ipv6_literal address /\ 128 < prefixlen ->
  validate_ip_network (with_prefix address prefixlen) = Ok false.
Proof.
  destruct (str_of_nat_facts prefixlen) as [_ [Hdigits _]].
  pose proof (digits_free "/" _ eq_refl Hdigits) as Hps.
  pose proof (digits_free "." _ eq_refl Hdigits) as Hpd.
  unfold validate_ip_network, ip_network, IPv4Network, IPv6Network.
  intros [[H4 Hp] | [H6 Hp]].
  - destruct (ipv4_literal_parses _ H4) as [Hslash [ip Hip]].
    destruct (ipv4_literal_free _ H4) as [Hcolon Hpercent].
    rewrite (split_with_prefix _ _ Hslash Hps). cbn [Py.bind].
    rewrite Hip, (IPv6Address_needs_colons _ Hcolon Hpercent).
    cbn [Py.bind]. unfold v4_make_netmask.
    rewrite (prefix_too_long IPV4LENGTH prefixlen)
      by (unfold IPV4LENGTH; lia).
    unfold prefix_from_ip_string. rewrite (v4_ip_int_needs_dots _ Hpd).
    reflexivity.
  - destruct (ipv6_literal_parses _ H6) as [Hslash [Hv4 [ip Hip]]].
    rewrite (split_with_prefix _ _ Hslash Hps). cbn [Py.bind].
    rewrite Hv4, Hip. cbn [Py.bind]. unfold v6_make_netmask.
    rewrite (prefix_too_long IPV6LENGTH prefixlen)
      by (unfold IPV6LENGTH; lia).
    reflexivity.
Qed.

Lemma out_of_range_prefix_rejected_witness :
  validate_ip_network "10.0.0.0/4300" = Ok false
  /\ validate_ip_network "2001:db8::/129" = Ok false.
Proof.
  split.
  - apply (out_of_range_prefix_rejected (dotted_quad 10 0 0 0) 4300).
    left. split; [apply Quad; lia | lia].
  - apply (out_of_range_prefix_rejected (compressed ["2001"; "db8"] []) 129).
    right. split; [| lia].
    apply Compressed; [cbn; lia | reflexivity | reflexivity].
Defined.

End AddressEdges.

(** ** Runs of the trust checker *)

Section TrustRuns.

Import CheckSshConfig.

(** *** The two loops as maps and filters *)

Lemma check1_loop_report (w : world) (user public_key private_key_path : string)
    (targets : list target) :
  forall (ok : bool) (failed : list (target * option string)),
    io_for_each targets (check1_step w user public_key private_key_path)
      (ok, failed)
    = (flat_map (TrustReport.check1_lines w user public_key private_key_path)
         targets,
       Ok (ok && forallb (Verdict.passes_check1 w user public_key
                            private_key_path) targets,
           failed ++ TrustReport.failed_hosts w user public_key
                       private_key_path targets)).
Proof.
  induction targets as [|host targets IH]; intros ok failed.
  - cbn. rewrite andb_true_r, app_nil_r. reflexivity.
  - destruct (check1_returns w (ip host) user public_key private_key_path)
      as [found [error_msg Hrun]].
    assert (Hverdict : TrustReport.verdict1 w user public_key private_key_path
                         host = (found, error_msg)).
    { unfold TrustReport.verdict1. rewrite Hrun. reflexivity. }
    assert (Hpass : Verdict.passes_check1 w user public_key private_key_path
                      host = found).
    { unfold Verdict.passes_check1. rewrite Hrun. reflexivity. }
    cbn [io_for_each forallb flat_map TrustReport.failed_hosts].
    unfold check1_step, TrustReport.check1_lines.
    rewrite Hrun, Hverdict, Hpass. cbn [io_bind emit io_ret fst snd app].
    fold (TrustReport.failed_hosts w user public_key private_key_path targets).
    destruct found; cbn [io_bind emit io_ret fst snd app];
      rewrite IH, ?andb_false_r, <- ?app_assoc; reflexivity.
Qed.

Lemma check2_loop_report (w : world) (known_hosts_path : string)
    (targets : list target) :
  forall (ok : bool) (missing : list target),
    io_for_each targets (check2_step w known_hosts_path) (ok, missing)
    = (flat_map (TrustReport.check2_lines w known_hosts_path) targets,
       Ok (ok && forallb (Verdict.passes_check2 w known_hosts_path) targets,
           missing ++ TrustReport.missing_host_keys w known_hosts_path targets)).
Proof.
  induction targets as [|host targets IH]; intros ok missing.
  - cbn. rewrite andb_true_r, app_nil_r. reflexivity.
  - destruct (check2_returns w (ip host) known_hosts_path)
      as [out2 [found [Hrun _]]].
    assert (Hpass : Verdict.passes_check2 w known_hosts_path host = found).
    { unfold Verdict.passes_check2. rewrite Hrun. reflexivity. }
    cbn [io_for_each forallb flat_map TrustReport.missing_host_keys filter].
    unfold check2_step, TrustReport.check2_lines.
    rewrite Hrun, Hpass. cbn [io_bind emit io_ret fst snd app].
    fold (TrustReport.missing_host_keys w known_hosts_path targets).
    destruct found; cbn [io_bind emit io_ret fst snd app negb];
      rewrite IH, ?andb_false_r, <- !app_assoc; reflexivity.
Qed.

(** The run of the script is the run written with maps and filters. *)
Lemma main_run (w : world) (user key inventory_arg : string) :
  main w user key inventory_arg = TrustReport.run w user key inventory_arg.
Proof.
  unfold main, TrustReport.run, load_inventory.
  destruct (path_exists w (expanduser w key)); [| reflexivity].
  destruct (safe_load w inventory_arg) as [inventory|]; [| reflexivity].
  cbn [negb io_bind io_ret emit lift fst snd app].
  destruct (get_target_hosts inventory) as [targets|e]; [| reflexivity].
  destruct targets as [|t targets]; [reflexivity |].
  set (ts := t :: targets).
  change (CheckInventory.is_empty ts) with false.
  cbn [io_bind io_ret emit emit_all lift fst snd].
  unfold get_public_key_from_private.
  destruct (path_exists w (expanduser w key ++ ".pub")).
  2: { cbn. rewrite <- !app_assoc. reflexivity. }
  destruct (read_text w (expanduser w key ++ ".pub")) as [text|].
  2: { cbn. rewrite <- !app_assoc. reflexivity. }
  cbn [negb io_bind io_ret emit emit_all lift fst snd key_of].
  destruct (String.eqb (strip text) "").
  { cbn. reflexivity. }
  cbn [io_bind io_ret emit emit_all lift fst snd].
  rewrite check1_loop_report. cbn [io_bind io_ret emit emit_all lift fst snd].
  rewrite check2_loop_report. cbn [io_bind io_ret emit emit_all lift fst snd andb].
  unfold TrustReport.verdict. cbn [app].
  destruct (forallb (Verdict.passes_check1 w user (strip text) (expanduser w key))
              ts);
    destruct (forallb (Verdict.passes_check2 w
                         (expanduser w ("~" ++ user ++ "/.ssh/known_hosts")))
                ts);
    cbn [io_bind io_ret emit emit_all lift sys_exit fst snd andb negb app];
    try (destruct (join_ips _) as [host_ips|e];
         cbn [io_bind io_ret emit emit_all lift sys_exit fst snd andb negb app]);
    rewrite ?app_nil_r, <- ?app_assoc; cbn [app];
    rewrite ?app_nil_r, <- ?app_assoc; reflexivity.
Qed.

(** *** Exit status *)

Lemma main_status_cases (w : world) (user key inventory_arg : string) :
  exit_status (snd (main w user key inventory_arg)) = 0%Z
  \/ exit_status (snd (main w user key inventory_arg)) = 1%Z.
Proof.
  rewrite main_run. unfold TrustReport.run.
  destruct (path_exists w (expanduser w key)); [| right; reflexivity].
  destruct (safe_load w inventory_arg) as [inventory|]; [| right; reflexivity].
  cbn [negb].
  destruct (get_target_hosts inventory) as [targets|e] eqn:Htargets.
  2: { right. apply exit_status_ordinary.
       exact (get_target_hosts_ordinary _ _ Htargets). }
  destruct targets as [|t targets]; [right; reflexivity |].
  destruct (path_exists w (expanduser w key ++ ".pub")); [| right; reflexivity].
  destruct (read_text w (expanduser w key ++ ".pub")) as [text|];
    [| right; reflexivity].
  cbn [negb]. destruct (String.eqb (strip text) ""); [right; reflexivity |].
  unfold TrustReport.verdict.
  destruct (forallb (Verdict.passes_check1 _ _ _ _) _);
    destruct (forallb (Verdict.passes_check2 _ _) _); cbn [andb];
    try (left; reflexivity); try (right; reflexivity).
  all: destruct (join_ips _) as [host_ips|e] eqn:Hjoin; [right; reflexivity |].
  all: apply join_ips_raises in Hjoin; subst e; right; reflexivity.
Qed.


(** X15. Without the [known_hosts] file of the user no run succeeds: the
    status is 1 whatever the inventory and the answers of the hosts. *)
Theorem missing_known_hosts_file_fails (w : world)
    (user key inventory_arg : string) :
  path_exists w (expanduser w ("~" ++ user ++ "/.ssh/known_hosts")) = false ->
  exit_status (snd (main w user key inventory_arg)) = 1%Z.
Proof.
  intros Hmissing.
  destruct (main_status_cases w user key inventory_arg) as [H0 | H1];
    [| exact H1].
  apply main_exit_0_verified in H0
    as [_ [_ [inventory [targets [text [_ [_ [Hne [_ [_ [_ H2]]]]]]]]]]].
  destruct targets as [|t targets]; [congruence |].
  cbn [forallb] in H2. apply andb_prop in H2 as [H2 _].
  unfold Verdict.passes_check2, get_host_key_from_known_hosts in H2.
  rewrite Hmissing in H2. discriminate H2.
Qed.

Lemma missing_known_hosts_file_fails_witness :
  exit_status
    (snd (main (TrustReport.world_without_known_hosts Samples.good_inventory)
            "ubuntu" "key" "inventory.yml")) = 1%Z.
Proof.
  apply (missing_known_hosts_file_fails
           (TrustReport.world_without_known_hosts Samples.good_inventory)
           "ubuntu" "key" "inventory.yml").
  reflexivity.
Defined.

(** *** Calls made by a run *)

Lemma ssh_calls_app (out out' : list event) :
  TrustReport.ssh_calls (out ++ out')
  = TrustReport.ssh_calls out ++ TrustReport.ssh_calls out'.
Proof.
  induction out as [|ev out IH]; [reflexivity |].
  destruct ev; cbn; rewrite ?IH; reflexivity.
Qed.

Lemma keygen_calls_app (out out' : list event) :
  TrustReport.keygen_calls (out ++ out')
  = TrustReport.keygen_calls out ++ TrustReport.keygen_calls out'.
Proof.
  induction out as [|ev out IH]; [reflexivity |].
  destruct ev; cbn; rewrite ?IH; reflexivity.
Qed.

Lemma calls_target_lines (targets : list target) :
  TrustReport.ssh_calls (map TargetLine targets) = []
  /\ TrustReport.keygen_calls (map TargetLine targets) = [].
Proof. induction targets; [split; reflexivity | exact IHtargets]. Qed.

Lemma calls_check1 (w : world) (user public_key private_key_path : string)
    (targets : list target) :
  TrustReport.ssh_calls
    (flat_map (TrustReport.check1_lines w user public_key private_key_path)
       targets) = map ip targets
  /\ TrustReport.keygen_calls
       (flat_map (TrustReport.check1_lines w user public_key private_key_path)
          targets) = [].
Proof.
  induction targets as [|host targets [IHs IHk]]; [split; reflexivity |].
  cbn [flat_map map]. unfold TrustReport.check1_lines at 1 3.
  destruct (fst (TrustReport.verdict1 _ _ _ _ host)); cbn; rewrite ?IHs, ?IHk;
    split; reflexivity.
Qed.

Lemma calls_known_hosts (w : world) (host_ip : Py.value)
    (known_hosts_path : string) :
  TrustReport.ssh_calls
    (fst (get_host_key_from_known_hosts w host_ip known_hosts_path)) = []
  /\ TrustReport.keygen_calls
       (fst (get_host_key_from_known_hosts w host_ip known_hosts_path))
     = (if path_exists w known_hosts_path then [host_ip] else []).
Proof.
  unfold get_host_key_from_known_hosts.
  destruct (path_exists w known_hosts_path); [| split; reflexivity].
  destruct host_ip as [| | |address| |]; try (split; reflexivity).
  cbn. destruct (keygen_run w address known_hosts_path); split; reflexivity.
Qed.

Lemma calls_check2 (w : world) (known_hosts_path : string)
    (targets : list target) :
  TrustReport.ssh_calls
    (flat_map (TrustReport.check2_lines w known_hosts_path) targets) = []
  /\ TrustReport.keygen_calls
       (flat_map (TrustReport.check2_lines w known_hosts_path) targets)
     = (if path_exists w known_hosts_path then map ip targets else []).
Proof.
  induction targets as [|host targets [IHs IHk]].
  - destruct (path_exists w known_hosts_path); split; reflexivity.
  - cbn [flat_map map]. unfold TrustReport.check2_lines at 1 3.
    destruct (calls_known_hosts w (ip host) known_hosts_path) as [Hs Hk].
    cbn [TrustReport.ssh_calls TrustReport.keygen_calls app].
    rewrite !ssh_calls_app, !keygen_calls_app, Hs, Hk, IHs, IHk.
    destruct (Verdict.passes_check2 w known_hosts_path host);
      destruct (path_exists w known_hosts_path); split; reflexivity.
Qed.

Lemma calls_verdict (w : world)
    (user public_key private_key_path known_hosts_path : string)
    (targets : list target) :
  TrustReport.ssh_calls
    (fst (TrustReport.verdict w user public_key private_key_path
            known_hosts_path targets)) = []
  /\ TrustReport.keygen_calls
       (fst (TrustReport.verdict w user public_key private_key_path
               known_hosts_path targets)) = [].
Proof.
  unfold TrustReport.verdict.
  destruct (forallb (Verdict.passes_check1 _ _ _ _) _);
    destruct (forallb (Verdict.passes_check2 _ _) _); cbn [andb];
    try (split; reflexivity).
  all: destruct (join_ips _); split; reflexivity.
Qed.

(** X16. Once the key files are read and the inventory has targets, a
    failure on one target stops neither loop: every target is announced by
    both checks, the remote command is run once on every target, in the
    order of the targets, and so is [ssh-keygen] when the [known_hosts]
    file exists; when it does not, [ssh-keygen] is never run. *)
Theorem every_target_checked (w : world) (user key inventory_arg : string)
    (inventory : Py.value) (targets : list target) (text : string) :
  path_exists w (expanduser w key) = true ->
  safe_load w inventory_arg = Some inventory ->
  get_target_hosts inventory = Ok targets ->
  targets <> [] ->
  path_exists w (expanduser w key ++ ".pub") = true ->
  read_text w (expanduser w key ++ ".pub") = Some text ->
  strip text <> "" ->
  Verdict.checked (fst (main w user key inventory_arg)) = targets ++ targets
  /\ TrustReport.ssh_calls (fst (main w user key inventory_arg))
     = map ip targets
  /\ TrustReport.keygen_calls (fst (main w user key inventory_arg))
     = (if path_exists w (expanduser w ("~" ++ user ++ "/.ssh/known_hosts"))
        then map ip targets else []).
Proof.
  intros Hpriv Hload Htargets Hne Hpub Hread Hkey.
  split.
  { exact (proj2 (main_exit_by_verdicts w user key inventory_arg inventory
                    targets text Hpriv Hload Htargets Hne Hpub Hread Hkey)). }
  rewrite main_run. unfold TrustReport.run.
  rewrite Hpriv, Hload, Htargets, Hpub, Hread. cbn [negb].
  destruct targets as [|t targets]; [congruence |].
  set (ts := t :: targets) in *.
  apply String.eqb_neq in Hkey. rewrite Hkey.
  destruct (calls_verdict w user (strip text) (expanduser w key)
              (expanduser w ("~" ++ user ++ "/.ssh/known_hosts")) ts)
    as [Vs Vk].
  destruct (TrustReport.verdict w user (strip text) (expanduser w key)
              (expanduser w ("~" ++ user ++ "/.ssh/known_hosts")) ts)
    as [lines result].
  cbn [fst] in Vs, Vk |- *.
  destruct (calls_target_lines ts) as [Ts Tk].
  destruct (calls_check1 w user (strip text) (expanduser w key) ts) as [As Ak].
  destruct (calls_check2 w (expanduser w ("~" ++ user ++ "/.ssh/known_hosts"))
              ts) as [Bs Bk].
  split.
  - repeat (rewrite ?ssh_calls_app, ?Ts, ?As, ?Bs;
            cbn [TrustReport.ssh_calls app]).
    rewrite Vs, app_nil_r. reflexivity.
  - repeat (rewrite ?keygen_calls_app, ?Tk, ?Ak, ?Bk;
            cbn [TrustReport.keygen_calls app]).
    rewrite Vk, app_nil_r. reflexivity.
Qed.

Lemma every_target_checked_witness :
  TrustReport.ssh_calls
    (fst (main (TrustReport.world_of_failures Samples.good_inventory)
            "ubuntu" "key" "inventory.yml"))
  = [VStr "10.0.0.11"; VStr "10.0.0.21"].
Proof.
  exact (proj1 (proj2 (every_target_checked
                         (TrustReport.world_of_failures Samples.good_inventory)
                         "ubuntu" "key" "inventory.yml" Samples.good_inventory
                         [ Target "master1" (VStr "10.0.0.11") "master";
                           Target "worker1" (VStr "10.0.0.21") "worker" ]
                         "ssh-ed25519 AAAAC3Nza admin@bastion"
                         eq_refl eq_refl eq_refl ltac:(discriminate)
                         eq_refl eq_refl ltac:(discriminate)))).
Defined.

(** *** Where the lines of a run come from *)

Lemma known_hosts_events (w : world) (host_ip : Py.value)
    (known_hosts_path : string) (ev : event) :
  In ev (fst (get_host_key_from_known_hosts w host_ip known_hosts_path)) ->
  ev = RunSshKeygen host_ip \/ ev = KnownHostsWarning host_ip.
Proof.
  unfold get_host_key_from_known_hosts.
  destruct (path_exists w known_hosts_path); [| intros []].
  destruct host_ip as [| | |address| |]; cbn;
    try (intros [<- | [<- | []]]; auto).
  destruct (keygen_run w address known_hosts_path); cbn;
    intros H; repeat destruct H as [H | H]; subst; auto; destruct H.
Qed.

Lemma verdict_events (w : world)
    (user public_key private_key_path known_hosts_path : string)
    (targets : list target) (ev : event) :
  In ev (fst (TrustReport.verdict w user public_key private_key_path
                known_hosts_path targets)) ->
  ev = Complete (List.length targets)
  \/ ev = Incomplete
  \/ ev = PublicKeyIssues
            (TrustReport.failed_hosts w user public_key private_key_path
               targets)
  \/ ev = HostKeyIssues
            (TrustReport.missing_host_keys w known_hosts_path targets)
  \/ exists host_ips, ev = KeyscanAll host_ips.
Proof.
  unfold TrustReport.verdict.
  destruct (forallb (Verdict.passes_check1 _ _ _ _) _);
    destruct (forallb (Verdict.passes_check2 _ _) _); cbn [andb];
    try destruct (join_ips _); cbn [fst app];
    intros H; repeat destruct H as [H | H]; subst; eauto 8; destruct H.
Qed.

(** Splits a membership in a run into its segments. *)
Ltac run_segments H :=
  repeat match type of H with
    | In _ (_ ++ _) => apply in_app_or in H as [H | H]
    | In _ (map _ _) => apply in_map_iff in H as [? [H _]]
    | In _ (_ :: _) => destruct H as [H | H]
    | In _ [] => destruct H
    end.

Lemma run_events (w : world) (user key inventory_arg : string) (ev : event) :
  In ev (fst (TrustReport.run w user key inventory_arg)) ->
  (exists public_key host,
      In ev (TrustReport.check1_lines w user public_key (expanduser w key) host))
  \/ (exists host,
         In ev (TrustReport.check2_lines w
                  (expanduser w ("~" ++ user ++ "/.ssh/known_hosts")) host))
  \/ (exists public_key targets,
         In ev (fst (TrustReport.verdict w user public_key (expanduser w key)
                       (expanduser w ("~" ++ user ++ "/.ssh/known_hosts"))
                       targets)))
  \/ TrustReport.frame ev = true.
Proof.
  unfold TrustReport.run.
  destruct (path_exists w (expanduser w key)).
  2: { intros H; cbn [negb fst] in H; run_segments H; subst ev; auto 6. }
  destruct (safe_load w inventory_arg) as [inventory|].
  2: { intros H; cbn [negb fst] in H; run_segments H; subst ev; auto 6. }
  cbn [negb].
  destruct (get_target_hosts inventory) as [targets|e].
  2: { intros H; cbn [negb fst] in H; run_segments H; subst ev; auto 6. }
  destruct targets as [|t targets].
  { intros H; cbn [negb fst] in H; run_segments H; subst ev; auto 6. }
  set (ts := t :: targets).
  destruct (path_exists w (expanduser w key ++ ".pub")).
  2: { intros H; cbn [negb fst] in H; run_segments H; subst ev; auto 6. }
  destruct (read_text w (expanduser w key ++ ".pub")) as [text|].
  2: { intros H; cbn [negb fst] in H; run_segments H; subst ev; auto 6. }
  cbn [negb]. destruct (String.eqb (strip text) "").
  { intros H; cbn [negb fst] in H; run_segments H; subst ev; auto 6. }
  destruct (TrustReport.verdict w user (strip text) (expanduser w key)
              (expanduser w ("~" ++ user ++ "/.ssh/known_hosts")) ts)
    as [lines result] eqn:Hv.
  intros H. cbn [fst] in H. run_segments H; try (subst ev; auto; fail).
  - apply in_flat_map in H as [host [_ H]]. left. eauto.
  - apply in_flat_map in H as [host [_ H]]. right. left. eauto.
  - right. right. left. exists (strip text), ts. rewrite Hv. exact H.
Qed.

(** X17. The answer [Public key not found in authorized_keys] is never
    given: whatever the remote command returns, the check does not return
    that message, and no run of the script prints it for a target or lists
    it in the summary. *)
Theorem not_found_diagnostic_never_given (w : world)
    (user key inventory_arg : string) :
  (forall host_ip public_key private_key_path found,
     snd (check_public_key_in_authorized_keys w host_ip user public_key
            private_key_path)
     <> Ok (found, Some "Public key not found in authorized_keys"))
  /\ ~ In (KeyMissing (Some "Public key not found in authorized_keys"))
         (fst (main w user key inventory_arg))
  /\ (forall failed host,
        In (PublicKeyIssues failed) (fst (main w user key inventory_arg)) ->
        ~ In (host, Some "Public key not found in authorized_keys") failed).
Proof.
  assert (Hnever : forall public_key private_key_path host,
             snd (TrustReport.verdict1 w user public_key private_key_path host)
             <> Some "Public key not found in authorized_keys").
  { intros public_key private_key_path host.
    unfold TrustReport.verdict1, check_public_key_in_authorized_keys.
    destruct (ssh_run w (ip host) user public_key
                (expanduser w private_key_path))
      as [returncode stdout| |text]; cbn; try discriminate.
    destruct (returncode =? 0)%Z; cbn [andb]; [| cbn; discriminate].
    destruct (substring_of "FOUND" stdout) eqn:Hfound; cbn; [discriminate |].
    destruct (substring_of "NOT_FOUND" stdout) eqn:Hnot; cbn; [| discriminate].
    apply NOT_FOUND_contains_FOUND in Hnot. congruence. }
  split; [| split].
  - intros host_ip public_key private_key_path found H.
    apply (Hnever public_key private_key_path (Target "" host_ip "")).
    unfold TrustReport.verdict1. cbn [ip]. rewrite H. reflexivity.
  - rewrite main_run. intros H.
    apply run_events in H
      as [[public_key [host H]] | [[host H] | [[public_key [targets H]] | H]]].
    + unfold TrustReport.check1_lines in H.
      destruct H as [H | [H | [H | []]]]; try discriminate H.
      destruct (fst (TrustReport.verdict1 _ _ _ _ host)); [discriminate H |].
      injection H as H. exact (Hnever _ _ _ H).
    + unfold TrustReport.check2_lines in H.
      destruct H as [H | H]; [discriminate H |].
      apply in_app_or in H as [H | H].
      * apply known_hosts_events in H as [H | H]; discriminate H.
      * destruct (Verdict.passes_check2 _ _ host);
          destruct H as [H | []]; discriminate H.
    + apply verdict_events in H as [H | [H | [H | [H | [ips H]]]]];
        discriminate H.
    + discriminate H.
  - intros failed host. rewrite main_run. intros H Hin.
    apply run_events in H
      as [[public_key [host' H]] | [[host' H] | [[public_key [targets H]] | H]]].
    + unfold TrustReport.check1_lines in H.
      destruct H as [H | [H | [H | []]]]; try discriminate H.
      destruct (fst (TrustReport.verdict1 _ _ _ _ host')); discriminate H.
    + unfold TrustReport.check2_lines in H.
      destruct H as [H | H]; [discriminate H |].
      apply in_app_or in H as [H | H].
      * apply known_hosts_events in H as [H | H]; discriminate H.
      * destruct (Verdict.passes_check2 _ _ host');
          destruct H as [H | []]; discriminate H.
    + apply verdict_events in H as [H | [H | [H | [H | [ips H]]]]];
        try discriminate H.
      injection H as ->. unfold TrustReport.failed_hosts in Hin.
      apply in_flat_map in Hin as [host' [_ Hin]].
      destruct (fst (TrustReport.verdict1 _ _ _ _ host')); [destruct Hin |].
      destruct Hin as [Hin | []]. injection Hin as _ Hin.
      exact (Hnever _ _ _ Hin).
    + discriminate H.
Qed.

(** *** Addresses that are no strings *)

Lemma join_ips_non_string (hosts : list target) (host : target) :
  In host hosts -> isinstance_str (ip host) = false ->
  join_ips hosts = Raise TypeError.
Proof.
  intros Hin Hns. induction hosts as [|h hosts IH]; [destruct Hin |].
  cbn [join_ips]. destruct Hin as [-> | Hin].
  - destruct (ip host); try reflexivity. discriminate Hns.
  - rewrite (IH Hin). destruct (ip h); reflexivity.
Qed.

Lemma non_string_fails_check2 (w : world) (known_hosts_path : string)
    (host : target) :
  isinstance_str (ip host) = false ->
  Verdict.passes_check2 w known_hosts_path host = false.
Proof.
  intros Hns. unfold Verdict.passes_check2, get_host_key_from_known_hosts.
  destruct (path_exists w known_hosts_path); [| reflexivity].
  destruct (ip host); try reflexivity. discriminate Hns.
Qed.

Lemma ends_app {A : Type} (x : A) (l1 l2 : list A) :
  (exists out, l2 = out ++ [x]) -> exists out, l1 ++ l2 = out ++ [x].
Proof. intros [out ->]. exists (l1 ++ out). apply app_assoc. Qed.

Lemma ends_cons {A : Type} (x a : A) (l : list A) :
  (exists out, l = out ++ [x]) -> exists out, a :: l = out ++ [x].
Proof. intros [out ->]. exists (a :: out). reflexivity. Qed.

(** X18. A target whose connection address is no string (the key is left
    without a value in the file, or holds a number) makes the run end
    with an uncaught [TypeError], status 1: the target fails check 2, and
    joining the addresses of the hosts with missing keys raises.  The list
    of those hosts is the last thing written; the closing advice is not. *)
Theorem non_string_address_crashes (w : world) (user key inventory_arg : string)
    (inventory : Py.value) (targets : list target) (text : string)
    (host : target) :
  path_exists w (expanduser w key) = true ->
  safe_load w inventory_arg = Some inventory ->
  get_target_hosts inventory = Ok targets ->
  path_exists w (expanduser w key ++ ".pub") = true ->
  read_text w (expanduser w key ++ ".pub") = Some text ->
  strip text <> "" ->
  In host targets ->
  isinstance_str (ip host) = false ->
  snd (main w user key inventory_arg) = Raise TypeError
  /\ exit_status (snd (main w user key inventory_arg)) = 1%Z
  /\ exists out,
       fst (main w user key inventory_arg)
       = out ++ [HostKeyIssues
                   (TrustReport.missing_host_keys w
                      (expanduser w ("~" ++ user ++ "/.ssh/known_hosts"))
                      targets)].
Proof.
  intros Hpriv Hload Htargets Hpub Hread Hkey Hin Hns.
  pose proof (non_string_fails_check2 w
                (expanduser w ("~" ++ user ++ "/.ssh/known_hosts")) host Hns)
    as Hfail.
  assert (Hok2 : forallb (Verdict.passes_check2 w
                            (expanduser w ("~" ++ user ++ "/.ssh/known_hosts")))
                   targets = false).
  { destruct (forallb _ targets) eqn:Hall; [| reflexivity].
    rewrite forallb_forall in Hall. rewrite (Hall host Hin) in Hfail.
    discriminate Hfail. }
  assert (Hjoin : join_ips (TrustReport.missing_host_keys w
                              (expanduser w ("~" ++ user ++ "/.ssh/known_hosts"))
                              targets) = Raise TypeError).
  { apply (join_ips_non_string _ host); [| exact Hns].
    unfold TrustReport.missing_host_keys. apply filter_In.
    split; [exact Hin | rewrite Hfail; reflexivity]. }
  rewrite main_run. unfold TrustReport.run.
  rewrite Hpriv, Hload, Htargets, Hpub, Hread. cbn [negb].
  destruct targets as [|t targets]; [destruct Hin |].
  set (ts := t :: targets) in *.
  apply String.eqb_neq in Hkey. rewrite Hkey.
  unfold TrustReport.verdict. rewrite Hok2, andb_false_r, Hjoin.
  cbn [fst snd]. split; [reflexivity | split; [reflexivity |]].
  repeat first [ exists []; reflexivity | apply ends_app | apply ends_cons ].
Qed.

Lemma non_string_address_crashes_witness :
  snd (main (TrustReport.world_with_key_text
               TrustReport.unset_address_inventory "ssh-ed25519 AAAA")
         "ubuntu" "key" "inventory.yml") = Raise TypeError.
Proof.
  exact (proj1 (non_string_address_crashes
                  (TrustReport.world_with_key_text
                     TrustReport.unset_address_inventory "ssh-ed25519 AAAA")
                  "ubuntu" "key" "inventory.yml"
                  TrustReport.unset_address_inventory
                  [Target "master1" VNone "master"] "ssh-ed25519 AAAA"
                  (Target "master1" VNone "master")
                  eq_refl eq_refl eq_refl eq_refl eq_refl ltac:(discriminate)
                  (or_introl eq_refl) eq_refl)).
Defined.

(** *** The public key text *)

Lemma lstrip_blank (text : string) :
  all_chars is_space text = true -> lstrip text = "".
Proof.
  induction text as [|c text IH]; [reflexivity |].
  cbn [all_chars lstrip]. intros H. apply andb_prop in H as [Hc Htext].
  rewrite Hc. exact (IH Htext).
Qed.

(** X19. A public key file that holds white space only ends the run with
    status 1 and without a word of explanation: the last line written is
    the one that announces the extraction of the key, and no host is
    contacted. *)
Theorem blank_public_key_exits_silently (w : world)
    (user key inventory_arg : string) (inventory : Py.value)
    (targets : list target) (text : string) :
  path_exists w (expanduser w key) = true ->
  safe_load w inventory_arg = Some inventory ->
  get_target_hosts inventory = Ok targets ->
  targets <> [] ->
  path_exists w (expanduser w key ++ ".pub") = true ->
  read_text w (expanduser w key ++ ".pub") = Some text ->
  all_chars is_space text = true ->
  main w user key inventory_arg
  = ([Loading inventory_arg; FoundTargets (List.length targets)]
       ++ map TargetLine targets ++ [Extracting (expanduser w key)],
     Raise (SystemExit 1)).
Proof.
  intros Hpriv Hload Htargets Hne Hpub Hread Hblank.
  rewrite main_run. unfold TrustReport.run.
  rewrite Hpriv, Hload, Htargets, Hpub, Hread. cbn [negb].
  destruct targets as [|t targets]; [congruence |].
  unfold strip. rewrite (lstrip_blank _ Hblank). reflexivity.
Qed.

Lemma blank_public_key_exits_silently_witness :
  main (TrustReport.world_with_key_text Trust.one_master
          (String " " Samples.newline))
    "ubuntu" "key" "inventory.yml"
  = ([Loading "inventory.yml"; FoundTargets 1; TargetLine Trust.master1_target;
      Extracting "key"],
     Raise (SystemExit 1)).
Proof.
  exact (blank_public_key_exits_silently
           (TrustReport.world_with_key_text Trust.one_master
              (String " " Samples.newline))
           "ubuntu" "key" "inventory.yml" Trust.one_master
           [Trust.master1_target] (String " " Samples.newline)
           eq_refl eq_refl eq_refl ltac:(discriminate) eq_refl eq_refl eq_refl).
Defined.

(** *** Documents that are no mapping *)

(** X20. An inventory file that parses to anything but a mapping (an
    empty file gives [None]) is not reported as having no target: the
    extraction of the targets raises [AttributeError], and the run ends
    there, uncaught, with status 1, after the line that announces the
    loading. *)
Theorem no_mapping_inventory_crashes (w : world)
    (user key inventory_arg : string) (inventory : Py.value) :
  path_exists w (expanduser w key) = true ->
  safe_load w inventory_arg = Some inventory ->
  TrustReport.no_mapping inventory = true ->
  get_target_hosts inventory = Raise AttributeError
  /\ main w user key inventory_arg
     = ([Loading inventory_arg], Raise AttributeError)
  /\ exit_status (snd (main w user key inventory_arg)) = 1%Z.
Proof.
  intros Hpriv Hload Hkind.
  assert (Hraise : get_target_hosts inventory = Raise AttributeError).
  { destruct inventory; try discriminate Hkind; reflexivity. }
  assert (Hmain : main w user key inventory_arg
                  = ([Loading inventory_arg], Raise AttributeError)).
  { rewrite main_run. unfold TrustReport.run.
    rewrite Hpriv, Hload, Hraise. reflexivity. }
  split; [exact Hraise | split; [exact Hmain |]]. rewrite Hmain. reflexivity.
Qed.

Lemma no_mapping_inventory_crashes_witness :
  main (TrustReport.world_with_key_text VNone "ssh-ed25519 AAAA")
    "ubuntu" "key" "inventory.yml"
  = ([Loading "inventory.yml"], Raise AttributeError).
Proof.
  exact (proj1 (proj2 (no_mapping_inventory_crashes
                         (TrustReport.world_with_key_text VNone "ssh-ed25519 AAAA")
                         "ubuntu" "key" "inventory.yml" VNone
                         eq_refl eq_refl eq_refl))).
Defined.

(** *** The bastion *)

Lemma bastion_loop_records (host_items : list (string * Py.value)) :
  forall records : list (string * list (string * Py.value)),
    Trust.host_records host_items = Some records ->
    bastion_loop host_items = Ok (TrustReport.bastion_address records).
Proof.
  induction host_items as [|[host_name host_vars] host_items IH];
    intros records Hrec; cbn in Hrec.
  - injection Hrec as <-. reflexivity.
  - destruct host_vars as [| | | | |vars]; try discriminate Hrec.
    destruct (Trust.host_records host_items) as [rest|]; [| discriminate Hrec].
    injection Hrec as <-.
    cbn [bastion_loop contains getitem Py.bind TrustReport.bastion_address].
    unfold has_key.
    destruct (assoc "ansible_host" vars) as [address|]; [reflexivity |].
    cbn [Py.bind].
    destruct (assoc "internal_ip" vars) as [address|]; [reflexivity |].
    apply (IH rest eq_refl).
Qed.

(** X21. On an inventory whose bastion group is absent or holds host
    records, [get_bastion_host] returns the address of the first host that
    has one, its connection address if it has both and its internal
    address otherwise; hosts with neither are passed over, and the answer
    is [None] when no host has an address or the group is absent. *)
Theorem get_bastion_host_first_address (inventory : Py.value)
    (records : list (string * list (string * Py.value))) :
  Trust.hosts_of inventory "bastion" = Some records ->
  get_bastion_host inventory = Ok (TrustReport.bastion_address records).
Proof.
  unfold Trust.hosts_of, get_bastion_host. intros H.
  destruct inventory as [| | | | |top]; try discriminate H.
  cbn [Py.get getitem Py.bind].
  destruct (assoc "all" top) as [[| | | | |all_section]|]; try discriminate H.
  cbn [Py.get getitem Py.bind].
  destruct (assoc "children" all_section) as [[| | | | |children]|];
    try discriminate H.
  cbn [Py.get getitem contains Py.bind]. unfold has_key.
  destruct (assoc "bastion" children) as [[| | | | |group_section]|];
    try discriminate H; cbn [Py.get getitem Py.items Py.bind].
  - destruct (assoc "hosts" group_section) as [[| | | | |host_items]|];
      try discriminate H; cbn [Py.items Py.bind].
    + apply bastion_loop_records. exact H.
    + injection H as <-. reflexivity.
  - injection H as <-. reflexivity.
Qed.

Lemma get_bastion_host_first_address_witness :
  get_bastion_host TrustReport.internal_bastion_inventory
  = Ok (VStr "10.0.0.2").
Proof.
  exact (get_bastion_host_first_address TrustReport.internal_bastion_inventory
           [ ("spare", [("zone", VStr "a")]);
             ("bastion1", [("internal_ip", VStr "10.0.0.2");
                           ("zone", VStr "b")]) ]
           eq_refl).
Defined.

(** *** The summary of a failed run *)

Lemma verdict_issues (w : world)
    (user public_key private_key_path known_hosts_path : string)
    (targets : list target) :
  (forall failed,
     In (PublicKeyIssues failed)
        (fst (TrustReport.verdict w user public_key private_key_path
                known_hosts_path targets))
     <-> forallb (Verdict.passes_check1 w user public_key private_key_path)
           targets = false
         /\ failed = TrustReport.failed_hosts w user public_key
                       private_key_path targets)
  /\ (forall missing,
        In (HostKeyIssues missing)
           (fst (TrustReport.verdict w user public_key private_key_path
                   known_hosts_path targets))
        <-> forallb (Verdict.passes_check2 w known_hosts_path) targets = false
            /\ missing = TrustReport.missing_host_keys w known_hosts_path
                           targets).
Proof.
  unfold TrustReport.verdict.
  destruct (forallb (Verdict.passes_check1 _ _ _ _) _);
    destruct (forallb (Verdict.passes_check2 _ _) _); cbn [andb];
    try destruct (join_ips _); cbn [fst app];
    (split; intros l;
     (split;
      [ intros H; run_segments H; try discriminate H;
        injection H as <-; split; reflexivity
      | intros [H ->]; try discriminate H; cbn; auto 6 ])).
Qed.

Lemma failed_hosts_are_failing (w : world)
    (user public_key private_key_path : string) (targets : list target) :
  map fst (TrustReport.failed_hosts w user public_key private_key_path targets)
  = filter
      (fun host =>
         negb (Verdict.passes_check1 w user public_key private_key_path host))
      targets.
Proof.
  induction targets as [|host targets IH]; [reflexivity |].
  cbn [TrustReport.failed_hosts flat_map filter].
  fold (TrustReport.failed_hosts w user public_key private_key_path targets).
  replace (Verdict.passes_check1 w user public_key private_key_path host)
    with (fst (TrustReport.verdict1 w user public_key private_key_path host)).
  - destruct (fst (TrustReport.verdict1 _ _ _ _ host)); cbn; rewrite IH;
      reflexivity.
  - unfold TrustReport.verdict1, Verdict.passes_check1.
    destruct (snd (check_public_key_in_authorized_keys _ _ _ _ _))
      as [[found msg]|e]; reflexivity.
Qed.

(** X22. After both loops the summary of a failed run names exactly the
    failing targets: the list of public key issues is written exactly when
    some target fails check 1 and holds those targets, in the order of the
    targets, each with the message of its check; the list of missing host
    keys is written exactly when some target fails check 2 and holds
    those targets, in order. *)
Theorem summary_lists_failing_targets (w : world)
    (user key inventory_arg : string) (inventory : Py.value)
    (targets : list target) (text : string) :
  path_exists w (expanduser w key) = true ->
  safe_load w inventory_arg = Some inventory ->
  get_target_hosts inventory = Ok targets ->
  targets <> [] ->
  path_exists w (expanduser w key ++ ".pub") = true ->
  read_text w (expanduser w key ++ ".pub") = Some text ->
  strip text <> "" ->
  (forall failed,
     In (PublicKeyIssues failed) (fst (main w user key inventory_arg))
     <-> forallb (Verdict.passes_check1 w user (strip text) (expanduser w key))
           targets = false
         /\ failed = TrustReport.failed_hosts w user (strip text)
                       (expanduser w key) targets)
  /\ map fst (TrustReport.failed_hosts w user (strip text) (expanduser w key)
                targets)
     = filter
         (fun host =>
            negb (Verdict.passes_check1 w user (strip text) (expanduser w key)
                    host))
         targets
  /\ (forall host error_msg,
        In (host, error_msg)
           (TrustReport.failed_hosts w user (strip text) (expanduser w key)
              targets) ->
        snd (check_public_key_in_authorized_keys w (ip host) user (strip text)
               (expanduser w key))
        = Ok (false, error_msg))
  /\ (forall missing,
        In (HostKeyIssues missing) (fst (main w user key inventory_arg))
        <-> forallb (Verdict.passes_check2 w
                       (expanduser w ("~" ++ user ++ "/.ssh/known_hosts")))
              targets = false
            /\ missing
               = filter
                   (fun host =>
                      negb (Verdict.passes_check2 w
                              (expanduser w
                                 ("~" ++ user ++ "/.ssh/known_hosts"))
                              host))
                   targets).
Proof.
  intros Hpriv Hload Htargets Hne Hpub Hread Hkey.
  destruct (verdict_issues w user (strip text) (expanduser w key)
              (expanduser w ("~" ++ user ++ "/.ssh/known_hosts")) targets)
    as [V1 V2].
  assert (Hout : forall ev,
             (forall l, ev <> KeyMissing l) ->
             TrustReport.frame ev = false ->
             (forall host, ev <> Checking host) ->
             (forall host_ip, ev <> RunSsh host_ip) ->
             (forall host_ip, ev <> RunSshKeygen host_ip) ->
             (forall host_ip, ev <> KnownHostsWarning host_ip) ->
             ev <> KeyFound -> ev <> HostKeyFound -> ev <> HostKeyMissing ->
             In ev (fst (main w user key inventory_arg))
             <-> In ev (fst (TrustReport.verdict w user (strip text)
                               (expanduser w key)
                               (expanduser w
                                  ("~" ++ user ++ "/.ssh/known_hosts"))
                               targets))).
  { intros ev E1 E2 E3 E4 E5 E6 E7 E8 E9.
    rewrite main_run. unfold TrustReport.run.
    rewrite Hpriv, Hload, Htargets, Hpub, Hread. cbn [negb].
    destruct targets as [|t targets]; [congruence |].
    set (ts := t :: targets) in *.
    pose proof Hkey as Hkey'. apply String.eqb_neq in Hkey'. rewrite Hkey'.
    destruct (TrustReport.verdict w user (strip text) (expanduser w key)
                (expanduser w ("~" ++ user ++ "/.ssh/known_hosts")) ts)
      as [lines result].
    cbn [fst]. split.
    - intros H. run_segments H;
        try (subst ev; discriminate E2); try exact H.
      + apply in_flat_map in H as [host [_ H]].
        unfold TrustReport.check1_lines in H.
        destruct H as [H | [H | [H | []]]];
          [ exfalso; exact (E3 _ (eq_sym H))
          | exfalso; exact (E4 _ (eq_sym H)) |].
        destruct (fst (TrustReport.verdict1 _ _ _ _ host));
          exfalso; [exact (E7 (eq_sym H)) | exact (E1 _ (eq_sym H))].
      + apply in_flat_map in H as [host [_ H]].
        unfold TrustReport.check2_lines in H.
        destruct H as [H | H]; [exfalso; exact (E3 _ (eq_sym H)) |].
        apply in_app_or in H as [H | H].
        * apply known_hosts_events in H as [H | H]; exfalso;
            [exact (E5 _ H) | exact (E6 _ H)].
        * destruct (Verdict.passes_check2 _ _ host);
            destruct H as [H | []]; exfalso;
            [exact (E8 (eq_sym H)) | exact (E9 (eq_sym H))].
    - intros H. apply in_or_app. right. apply in_or_app. right.
      apply in_or_app. right. apply in_or_app. right.
      apply in_or_app. right. right. exact H. }
  split; [| split; [| split]].
  - intros failed. rewrite <- V1. apply Hout; try discriminate; reflexivity.
  - apply failed_hosts_are_failing.
  - intros host error_msg Hin. unfold TrustReport.failed_hosts in Hin.
    apply in_flat_map in Hin as [host' [_ Hin]].
    unfold TrustReport.verdict1 in Hin.
    destruct (check1_returns w (ip host') user (strip text) (expanduser w key))
      as [found [msg Hrun]].
    rewrite Hrun in Hin. cbn [fst snd] in Hin.
    destruct found; [destruct Hin |].
    destruct Hin as [Hin | []]. injection Hin as <- <-.
    rewrite Hrun. reflexivity.
  - intros missing. unfold TrustReport.missing_host_keys in V2.
    rewrite <- V2. apply Hout; try discriminate; reflexivity.
Qed.

Lemma summary_lists_failing_targets_witness :
  In (PublicKeyIssues
        [(Target "master1" (VStr "10.0.0.11") "master",
          Some "SSH connection timeout")])
     (fst (main (TrustReport.world_of_failures Samples.good_inventory)
             "ubuntu" "key" "inventory.yml"))
  /\ In (HostKeyIssues [Target "worker1" (VStr "10.0.0.21") "worker"])
        (fst (main (TrustReport.world_of_failures Samples.good_inventory)
                "ubuntu" "key" "inventory.yml")).
Proof.
  pose proof (summary_lists_failing_targets
                (TrustReport.world_of_failures Samples.good_inventory)
                "ubuntu" "key" "inventory.yml" Samples.good_inventory
                [ Target "master1" (VStr "10.0.0.11") "master";
                  Target "worker1" (VStr "10.0.0.21") "worker" ]
                "ssh-ed25519 AAAAC3Nza admin@bastion"
                eq_refl eq_refl eq_refl ltac:(discriminate)
                eq_refl eq_refl ltac:(discriminate))
    as [H1 [_ [_ H2]]].
  split.
  - apply (proj2 (H1 _)). split; reflexivity.
  - apply (proj2 (H2 _)). split; reflexivity.
Defined.

End TrustRuns.

(** ** The report of a run without placeholder *)

Section ValidatorReport.

Import CheckInventory.




End ValidatorReport.

(** ** Hosts declared without any field *)

Section BareHosts.

(** A loop raises when its body raises at one of the elements, whatever
    the state it is reached in. *)
Lemma for_each_raises_at {A S : Type} (xs : list A) (body : S -> A -> res S)
    (x : A) :
  In x xs ->
  (forall st, exists e, body st x = Raise e) ->
  forall st, exists e, for_each xs body st = Raise e.
Proof.
  induction xs as [|y xs IH]; intros Hin Hx st; [destruct Hin |].
  cbn [for_each]. destruct (body st y) as [st1|e] eqn:Hbody; cbn [Py.bind].
  - destruct Hin as [-> | Hin].
    + destruct (Hx st) as [e He]. congruence.
    + exact (IH Hin Hx st1).
  - eauto.
Qed.

Lemma getitem_dict (v value : Py.value) (k : string) :
  getitem v k = Ok value ->
  exists items, v = VDict items /\ assoc k items = Some value.
Proof.
  destruct v as [| | | | |items]; try discriminate. cbn [getitem].
  destruct (assoc k items) as [x|] eqn:Hassoc; [| discriminate].
  intros H. injection H as <-. exists items. split; [reflexivity | exact Hassoc].
Qed.

Lemma check_host_bare (group host_name : string) (host_vars : Py.value)
    (errors : list string) :
  In group CheckInventory.REQUIRED_GROUPS ->
  Extra.no_container host_vars = true ->
  CheckInventory.check_host group errors (host_name, host_vars)
  = Raise TypeError.
Proof.
  intros Hgroup Hbare.
  destruct host_vars; try discriminate Hbare;
    destruct Hgroup as [<- | [<- | [<- | []]]]; reflexivity.
Qed.

Lemma check_group_bare (children group_section : Py.value)
    (group host_name : string) (host_items : list (string * Py.value))
    (host_vars : Py.value) (acc : list string * list string) :
  In group CheckInventory.REQUIRED_GROUPS ->
  getitem children group = Ok group_section ->
  getitem group_section "hosts" = Ok (VDict host_items) ->
  In (host_name, host_vars) host_items ->
  Extra.no_container host_vars = true ->
  exists e, CheckInventory.check_group children acc group = Raise e.
Proof.
  intros Hgroup Hsection Hhosts Hin Hbare. destruct acc as [errors warnings].
  apply getitem_dict in Hsection as [groups [-> Hsection]].
  apply getitem_dict in Hhosts as [fields [-> Hhosts]].
  unfold CheckInventory.check_group. cbn [contains getitem Py.bind].
  unfold has_key. rewrite Hsection. cbn [negb Py.bind contains getitem].
  unfold has_key. rewrite Hhosts. cbn [negb Py.bind].
  destruct host_items as [|item host_items]; [destruct Hin |].
  cbn [truthy negb Py.items Py.bind].
  destruct (for_each_raises_at (item :: host_items)
              (CheckInventory.check_host group) (host_name, host_vars) Hin
              (fun st => ex_intro _ TypeError
                           (check_host_bare group host_name host_vars st
                              Hgroup Hbare))
              errors) as [e ->].
  exists e. reflexivity.
Qed.

(** X24. A host of a required group that is declared without any field
    (its record is [None], a boolean or a number) is not reported as
    missing its fields: the structural pass raises on it, and the run of
    the validator ends there, uncaught, with status 1, right after the
    line that declares the YAML syntax valid. *)
Theorem bare_host_crashes_validator (w : CheckInventory.world)
    (inventory_arg : string)
    (inventory all_section children group_section host_vars : Py.value)
    (group host_name : string) (host_items : list (string * Py.value)) :
  CheckInventory.path_exists w inventory_arg = true ->
  CheckInventory.safe_load w inventory_arg = CheckInventory.Loaded inventory ->
  getitem inventory "all" = Ok all_section ->
  getitem all_section "children" = Ok children ->
  In group CheckInventory.REQUIRED_GROUPS ->
  getitem children group = Ok group_section ->
  getitem group_section "hosts" = Ok (VDict host_items) ->
  In (host_name, host_vars) host_items ->
  Extra.no_container host_vars = true ->
  exists e,
    CheckInventory.validate_inventory_structure inventory = Raise e
    /\ Trust.ordinary e
    /\ CheckInventory.main w inventory_arg
       = ([CheckInventory.Validating inventory_arg; CheckInventory.Rule;
           CheckInventory.SyntaxValid], Raise e)
    /\ exit_status (snd (CheckInventory.main w inventory_arg)) = 1%Z.
Proof.
  intros Hex Hload Hall Hchildren Hgroup Hsection Hhosts Hin Hbare.
  assert (Hraise : exists e,
             CheckInventory.validate_inventory_structure inventory = Raise e).
  { apply getitem_dict in Hall as [top [-> Hall]].
    apply getitem_dict in Hchildren as [fields [-> Hchildren]].
    unfold CheckInventory.validate_inventory_structure.
    cbn [contains getitem Py.bind]. unfold has_key. rewrite Hall.
    cbn [negb Py.bind contains getitem]. unfold has_key.
    match goal with
    | |- exists e, Py.bind ?m _ = _ => destruct m as [errors|e]
    end; cbn [Py.bind]; [| eauto].
    rewrite Hchildren. cbn [negb Py.bind].
    apply (for_each_raises_at CheckInventory.REQUIRED_GROUPS
             (CheckInventory.check_group children) group Hgroup).
    intros acc.
    exact (check_group_bare children group_section group host_name host_items
             host_vars acc Hgroup Hsection Hhosts Hin Hbare). }
  destruct Hraise as [e Hraise]. exists e.
  pose proof (validate_inventory_structure_ordinary _ _ Hraise) as Hord.
  assert (Hmain : CheckInventory.main w inventory_arg
                  = ([CheckInventory.Validating inventory_arg;
                      CheckInventory.Rule; CheckInventory.SyntaxValid],
                     Raise e)).
  { unfold CheckInventory.main, CheckInventory.load_inventory.
    rewrite Hex, Hload.
    cbn [negb io_bind io_ret emit emit_all lift fst snd
           CheckInventory.on_SystemExit_exit_1 app].
    rewrite Hraise. reflexivity. }
  split; [exact Hraise | split; [exact Hord | split; [exact Hmain |]]].
  rewrite Hmain. exact (exit_status_ordinary e Hord).
Qed.

Lemma bare_host_crashes_validator_witness :
  exists e,
    CheckInventory.main (Samples.validator_world TrustReport.bare_host_inventory)
      "inventory.yml"
    = ([CheckInventory.Validating "inventory.yml"; CheckInventory.Rule;
        CheckInventory.SyntaxValid], Raise e).
Proof.
  destruct (bare_host_crashes_validator
              (Samples.validator_world TrustReport.bare_host_inventory)
              "inventory.yml" TrustReport.bare_host_inventory
              _ _ _ VNone "masters" "master1" [("master1", VNone)]
              eq_refl eq_refl eq_refl eq_refl
              (or_intror (or_introl eq_refl)) eq_refl eq_refl
              (or_introl eq_refl) eq_refl)
    as [e [_ [_ [Hmain _]]]].
  exists e. exact Hmain.
Defined.

Lemma add_group_bare (inventory all_section children group_section : Py.value)
    (group host_type host_name : string)
    (host_items : list (string * Py.value)) (host_vars : Py.value)
    (hosts : list CheckSshConfig.target) :
  getitem inventory "all" = Ok all_section ->
  getitem all_section "children" = Ok children ->
  getitem children group = Ok group_section ->
  getitem group_section "hosts" = Ok (VDict host_items) ->
  In (host_name, host_vars) host_items ->
  Extra.no_container host_vars = true ->
  exists e, CheckSshConfig.add_group inventory group host_type hosts = Raise e.
Proof.
  intros Hall Hchildren Hsection Hhosts Hin Hbare.
  apply getitem_dict in Hall as [top [-> Hall]].
  apply getitem_dict in Hchildren as [fields [-> Hchildren]].
  apply getitem_dict in Hsection as [groups [-> Hsection]].
  apply getitem_dict in Hhosts as [section [-> Hhosts]].
  unfold CheckSshConfig.add_group. cbn [Py.get getitem contains Py.bind].
  rewrite Hall. cbn [Py.get getitem contains Py.bind].
  rewrite Hchildren. cbn [Py.get getitem contains Py.bind].
  unfold has_key. rewrite Hsection. cbn [Py.get getitem contains Py.bind].
  rewrite Hhosts. cbn [Py.items Py.bind].
  apply (for_each_raises_at host_items (CheckSshConfig.add_target host_type)
           (host_name, host_vars) Hin).
  intros st. exists TypeError.
  destruct host_vars; try discriminate Hbare; reflexivity.
Qed.

(** X25. The same host makes the trust checker fail before any check:
    when a master or a worker is declared without any field, the
    extraction of the targets raises, and the run ends there, uncaught,
    with status 1, after the line that announces the loading. *)
Theorem bare_host_crashes_trust_checker (w : CheckSshConfig.world)
    (user key inventory_arg : string)
    (inventory all_section children group_section host_vars : Py.value)
    (group host_name : string) (host_items : list (string * Py.value)) :
  CheckSshConfig.path_exists w (CheckSshConfig.expanduser w key) = true ->
  CheckSshConfig.safe_load w inventory_arg = Some inventory ->
  getitem inventory "all" = Ok all_section ->
  getitem all_section "children" = Ok children ->
  group = "masters" \/ group = "workers" ->
  getitem children group = Ok group_section ->
  getitem group_section "hosts" = Ok (VDict host_items) ->
  In (host_name, host_vars) host_items ->
  Extra.no_container host_vars = true ->
  exists e,
    CheckSshConfig.get_target_hosts inventory = Raise e
    /\ Trust.ordinary e
    /\ CheckSshConfig.main w user key inventory_arg
       = ([CheckSshConfig.Loading inventory_arg], Raise e)
    /\ exit_status (snd (CheckSshConfig.main w user key inventory_arg)) = 1%Z.
Proof.
  intros Hpriv Hload Hall Hchildren Hgroup Hsection Hhosts Hin Hbare.
  assert (Hraise : exists e, CheckSshConfig.get_target_hosts inventory = Raise e).
  { unfold CheckSshConfig.get_target_hosts.
    destruct Hgroup as [-> | ->].
    - destruct (add_group_bare inventory all_section children group_section
                  "masters" "master" host_name host_items host_vars []
                  Hall Hchildren Hsection Hhosts Hin Hbare) as [e ->].
      exists e. reflexivity.
    - destruct (CheckSshConfig.add_group inventory "masters" "master" [])
        as [hosts|e]; cbn [Py.bind]; [| eauto].
      destruct (add_group_bare inventory all_section children group_section
                  "workers" "worker" host_name host_items host_vars hosts
                  Hall Hchildren Hsection Hhosts Hin Hbare) as [e ->].
      exists e. reflexivity. }
  destruct Hraise as [e Hraise]. exists e.
  pose proof (get_target_hosts_ordinary _ _ Hraise) as Hord.
  assert (Hmain : CheckSshConfig.main w user key inventory_arg
                  = ([CheckSshConfig.Loading inventory_arg], Raise e)).
  { rewrite main_run. unfold TrustReport.run.
    rewrite Hpriv, Hload, Hraise. reflexivity. }
  split; [exact Hraise | split; [exact Hord | split; [exact Hmain |]]].
  rewrite Hmain. exact (exit_status_ordinary e Hord).
Qed.

Lemma bare_host_crashes_trust_checker_witness :
  exists e,
    CheckSshConfig.main
      (TrustReport.world_with_key_text TrustReport.bare_host_inventory
         "ssh-ed25519 AAAA")
      "ubuntu" "key" "inventory.yml"
    = ([CheckSshConfig.Loading "inventory.yml"], Raise e).
Proof.
  destruct (bare_host_crashes_trust_checker
              (TrustReport.world_with_key_text TrustReport.bare_host_inventory
                 "ssh-ed25519 AAAA")
              "ubuntu" "key" "inventory.yml" TrustReport.bare_host_inventory
              _ _ _ VNone "masters" "master1" [("master1", VNone)]
              eq_refl eq_refl eq_refl eq_refl (or_introl eq_refl)
              eq_refl eq_refl (or_introl eq_refl) eq_refl)
    as [e [_ [_ [Hmain _]]]].
  exists e. exact Hmain.
Defined.

End BareHosts.
